(** * git-stat: daily change statistics of a repository

    A shallow embedding of [main.go] and the properties of its two parts:
    the aggregation of commits into per-day statistics ([getGitStats]) and
    the gap-aware rendering of the requested date range ([main] and the
    [print*] functions).

    Conventions of the embedding:
    - Go's [int] is a 64-bit two's-complement integer, modelled as [Z] with
      the wrap-around of [+] written out ([int_add]);
    - Go's [string] is a byte string, modelled as [string]; [len] is
      [String.length];
    - [map[string]*DailyStats] is a [gmap string DailyStats], the set
      [map[string]struct{}] a [gset string];
    - [time.Time] is an instant in whole seconds since 0001-01-01T00:00:00Z
      (the zero [Time]) together with the offset of its location;
    - the packages [time], [fmt], [strings], [path/filepath] and [go-git]
      are modelled by their documented behaviour. *)

From Stdlib Require Import ZArith Lia List Ascii String Bool Permutation.
From stdpp Require Import base gmap sets list strings.

Local Open Scope Z_scope.

(** ** Go's [int] *)

Module GoInt.

Definition int_bits : Z := 64.
Definition int_min : Z := - 2 ^ 63.
Definition int_max : Z := 2 ^ 63 - 1.

(** The value of a mathematical integer once stored in an [int]. *)
Definition wrap (z : Z) : Z := (z + 2 ^ 63) mod 2 ^ 64 - 2 ^ 63.

Definition in_int (z : Z) : Prop := int_min <= z <= int_max.

(** [x + y] and [x += y] on [int]. *)
Definition int_add (x y : Z) : Z := wrap (x + y).

End GoInt.
Export GoInt.

(** ** Strings: [strings.Repeat], slicing, [%d] *)

Module GoString.

Local Open Scope string_scope.
Local Open Scope Z_scope.

Definition len (s : string) : Z := Z.of_nat (String.length s).

(** [strings.Repeat(s, count)] for a count that is not negative. *)
Fixpoint repeat_nat (s : string) (n : nat) : string :=
  match n with
  | O => ""
  | S n' => s +:+ repeat_nat s n'
  end.

(** [strings.Repeat] panics on a negative count. *)
Definition Repeat (s : string) (count : Z) : option string :=
  if count <? 0 then None else Some (repeat_nat s (Z.to_nat count)).

(** [text[:n]]: a run-time panic unless [0 <= n <= len(text)]. *)
Definition slice_to (text : string) (n : Z) : option string :=
  if (0 <=? n) && (n <=? len text)
  then Some (substring 0 (Z.to_nat n) text)
  else None.

Definition digit_char (d : Z) : ascii := ascii_of_nat (48 + Z.to_nat d).

(** The decimal digits of [n >= 0], most significant first.  An [int] has
    at most 19 digits, a unix-style field at most 20. *)
Fixpoint digits (fuel : nat) (n : Z) (acc : string) : string :=
  match fuel with
  | O => acc
  | S fuel' =>
      let acc' := String (digit_char (n mod 10)) acc in
      if n <? 10 then acc' else digits fuel' (n / 10) acc'
  end.

Definition utoa (n : Z) : string := digits 20 n "".

(** [fmt.Sprintf("%d", n)]. *)
Definition fmt_d (n : Z) : string :=
  if n <? 0 then "-" +:+ utoa (- n) else utoa n.

(** Number of occurrences of a byte. *)
Fixpoint count_char (c : ascii) (s : string) : nat :=
  match s with
  | "" => O
  | String a s' => ((if Ascii.eqb a c then 1 else 0) + count_char c s')%nat
  end.

End GoString.
Export GoString.

(** ** Package [time], as far as [main.go] uses it *)

Module GoTime.

Local Open Scope string_scope.
Local Open Scope Z_scope.

Record Time := mkTime {
  sec : Z;      (* seconds since 0001-01-01T00:00:00Z *)
  offset : Z    (* seconds east of UTC of the time's location *)
}.

(** [var t time.Time]: the zero time, 0001-01-01T00:00:00Z. *)
Definition zeroTime : Time := mkTime 0 0.

Definition secondsPerDay : Z := 86400.

Definition isLeap (year : Z) : bool :=
  (year mod 4 =? 0) && (negb (year mod 100 =? 0) || (year mod 400 =? 0)).

(** Days before the first of month [m] (1..13) in a non-leap year. *)
Definition daysBefore (m : Z) : Z :=
  match m with
  | 1 => 0 | 2 => 31 | 3 => 59 | 4 => 90 | 5 => 120 | 6 => 151
  | 7 => 181 | 8 => 212 | 9 => 243 | 10 => 273 | 11 => 304 | 12 => 334
  | _ => 365
  end.

Definition daysIn (m year : Z) : Z :=
  if (m =? 2) && isLeap year then 29 else daysBefore (m + 1) - daysBefore m.

(** Days from 0001-01-01 to the first of January of [year]. *)
Definition daysSinceEpoch (year : Z) : Z :=
  let y := year - 1 in 365 * y + y / 4 - y / 100 + y / 400.

(** Day number of [year-month-day]; as [time.Date] it normalises a month
    outside 1..12 and accepts any day: day 32 of January is February 1. *)
Definition dateToDays (year month day : Z) : Z :=
  let m0 := month - 1 in
  let year' := year + m0 / 12 in
  let month' := m0 mod 12 + 1 in
  daysSinceEpoch year' + daysBefore month'
  + (if isLeap year' && (3 <=? month') then 1 else 0)
  + (day - 1).

(** Year and day within the year (from 0) of a day number. *)
Definition yearOfDays (days : Z) : Z * Z :=
  let n400 := days / 146097 in
  let d := days - 146097 * n400 in
  let n100 := d / 36524 in
  let n100 := n100 - n100 / 4 in
  let d := d - 36524 * n100 in
  let n4 := d / 1461 in
  let d := d - 1461 * n4 in
  let n := d / 365 in
  let n := n - n / 4 in
  let d := d - 365 * n in
  (400 * n400 + 100 * n100 + 4 * n4 + n + 1, d).

(** Month and day of the month of the [yday]-th day (from 0) of [year]. *)
Definition monthDay (year yday : Z) : Z * Z :=
  if isLeap year && (yday =? 59) then (2, 29)
  else
    let day := if isLeap year && (59 <? yday) then yday - 1 else yday in
    let m := day / 31 in
    let e := daysBefore (m + 2) in
    if e <=? day then (m + 2, day - e + 1)
    else (m + 1, day - daysBefore (m + 1) + 1).

Definition civil (days : Z) : Z * Z * Z :=
  let '(y, yday) := yearOfDays days in
  let '(m, d) := monthDay y yday in
  (y, m, d).

(** The day number of a time in its own location. *)
Definition localDays (t : Time) : Z := (sec t + offset t) / secondsPerDay.

(** [t.Date()]. *)
Definition Date (t : Time) : Z * Z * Z := civil (localDays t).

(** [t.Year()]. *)
Definition Year (t : Time) : Z := fst (fst (Date t)).

(** [t.Before(u)], [t.After(u)]: comparison of instants. *)
Definition Before (t u : Time) : bool := sec t <? sec u.
Definition After (t u : Time) : bool := sec u <? sec t.

(** [t.Add(d)] for a duration of whole seconds. *)
Definition Add (t : Time) (seconds : Z) : Time :=
  mkTime (sec t + seconds) (offset t).

(** [t.AddDate(0, 0, days)]: the date of [t] in its location, [days]
    added to the day of the month and the result normalised, with the
    clock of [t]. *)
Definition AddDate (t : Time) (days : Z) : Time :=
  let '(y, m, d) := Date t in
  let clock := (sec t + offset t) mod secondsPerDay in
  mkTime (dateToDays y m (d + days) * secondsPerDay + clock - offset t)
         (offset t).

(** [appendInt]: decimal, zero-padded to [width], with a sign. *)
Definition appendInt (x : Z) (width : nat) : string :=
  let u := utoa (Z.abs x) in
  (if x <? 0 then "-" else "")
  +:+ repeat_nat "0" (width - String.length u) +:+ u.

(** [t.Format("2006-01-02")]. *)
Definition Format_date (t : Time) : string :=
  let '(y, m, d) := Date t in
  appendInt y 4 +:+ "-" +:+ appendInt m 2 +:+ "-" +:+ appendInt d 2.

(** [t.Format("01-02")]. *)
Definition Format_month_day (t : Time) : string :=
  let '(y, m, d) := Date t in
  appendInt m 2 +:+ "-" +:+ appendInt d 2.

End GoTime.
Export GoTime.

(** ** Errors *)

(** A Go [error], by the text of its [Error()] method. *)
Definition error : Type := string.

Inductive result (A : Type) : Type :=
| Ok (a : A)
| Err (e : error).
Arguments Ok {A} a.
Arguments Err {A} e.

(** ** [time.Parse("2006-01-02", value)] *)

Module GoParse.

Local Open Scope string_scope.
Local Open Scope Z_scope.

Definition dquote : string := String (ascii_of_nat 34) "".
Definition backslash : ascii := ascii_of_nat 92.

Definition lowerhex (n : nat) : ascii :=
  if (n <? 10)%nat then ascii_of_nat (48 + n) else ascii_of_nat (87 + n).

(** [quote] of package [time]: the value between double quotes, a quote
    or backslash escaped, a control or non-ASCII byte written [\xNN]. *)
Fixpoint quote_body (s : string) : string :=
  match s with
  | "" => ""
  | String c s' =>
      let n := nat_of_ascii c in
      (if (n <? 32)%nat || (128 <=? n)%nat
       then String backslash (String "x" (String (lowerhex (n / 16))
              (String (lowerhex (n mod 16)) "")))
       else if (n =? 34)%nat || (n =? 92)%nat
       then String backslash (String c "")
       else String c "")
      +:+ quote_body s'
  end.

Definition quote (s : string) : string := dquote +:+ quote_body s +:+ dquote.

Record ParseError := mkParseError {
  Layout : string;
  Value : string;
  LayoutElem : string;
  ValueElem : string;
  Message : string
}.

(** The method [Error] of [ParseError]. *)
Definition ParseError_Error (e : ParseError) : error :=
  if String.eqb (Message e) ""
  then "parsing time " +:+ quote (Value e) +:+ " as " +:+ quote (Layout e)
       +:+ ": cannot parse " +:+ quote (ValueElem e)
       +:+ " as " +:+ quote (LayoutElem e)
  else "parsing time " +:+ quote (Value e) +:+ Message e.

Definition isDigit (c : ascii) : bool :=
  let n := nat_of_ascii c in (48 <=? n)%nat && (n <=? 57)%nat.

Definition digit_val (c : ascii) : Z := Z.of_nat (nat_of_ascii c) - 48.

(** The year field ["2006"]: exactly four digits. *)
Definition getYear (value : string) : option (Z * string) :=
  match value with
  | String a (String b (String c (String d rest))) =>
      if isDigit a && isDigit b && isDigit c && isDigit d
      then Some (((digit_val a * 10 + digit_val b) * 10 + digit_val c) * 10
                 + digit_val d, rest)
      else None
  | _ => None
  end.

(** [getnum(value, true)]: exactly two digits. *)
Definition getnum2 (value : string) : option (Z * string) :=
  match value with
  | String a (String b rest) =>
      if isDigit a && isDigit b
      then Some (digit_val a * 10 + digit_val b, rest)
      else None
  | _ => None
  end.

(** [skip(value, "-")]. *)
Definition skipDash (value : string) : option string :=
  match value with
  | String c rest => if Ascii.eqb c "-" then Some rest else None
  | "" => None
  end.

(** [Date(year, month, day, 0, 0, 0, 0, UTC)]. *)
Definition DateUTC (year month day : Z) : Time :=
  mkTime (dateToDays year month day * secondsPerDay) 0.

Definition layoutDate : string := "2006-01-02".

Definition Parse_date (value : string) : ParseError + Time :=
  let bad elem rest := inl (mkParseError layoutDate value elem rest "") in
  let range elem rest what :=
    inl (mkParseError layoutDate value elem rest (": " +:+ what +:+ " out of range")) in
  match getYear value with
  | None => bad "2006" value
  | Some (year, v1) =>
      match skipDash v1 with
      | None => bad "-" v1
      | Some v2 =>
          match getnum2 v2 with
          | None => bad "01" v2
          | Some (month, v3) =>
              if (month <=? 0) || (12 <? month) then range "01" v3 "month"
              else
                match skipDash v3 with
                | None => bad "-" v3
                | Some v4 =>
                    match getnum2 v4 with
                    | None => bad "02" v4
                    | Some (day, v5) =>
                        if negb (String.eqb v5 "")
                        then inl (mkParseError layoutDate value "" v5
                                    (": extra text: " +:+ quote v5))
                        else if (day <? 1) || (daysIn month year <? day)
                        then range "" v5 "day"
                        else inr (DateUTC year month day)
                    end
                end
          end
      end
  end.

End GoParse.
Export GoParse.

(** * The program *)

Module GitStat.

Local Open Scope string_scope.
Local Open Scope Z_scope.

Definition nl : string := String (ascii_of_nat 10) "".
Definition esc : ascii := ascii_of_nat 27.

(** ** Data *)

Record DailyStats := mkDailyStats {
  FilesChanged : gset string;
  Additions : Z;
  Deletions : Z
}.

Definition colorReset : string := String esc "[0m".
Definition colorOrange : string := String esc "[38;5;208m".
Definition colorCyan : string := String esc "[36m".

Definition dateRangeWidth : Z := 25.
Definition filesChangedWidth : Z := 15.
Definition additionsWidth : Z := 11.
Definition deletionsWidth : Z := 11.
Definition totalChangesWidth : Z := 15.

(** ** The go-git collaborator *)

(** [object.FileStat]. *)
Record FileStat := mkFileStat {
  Name : string;
  Addition : Z;
  Deletion : Z
}.

(** [object.Signature]. *)
Record Signature := mkSignature {
  SigName : string;
  Email : string;
  When : Time
}.

(** [object.Commit]; [Stats] is the result of the method [c.Stats()]. *)
Record Commit := mkCommit {
  Hash : string;
  Author : Signature;
  Committer : Signature;
  Stats : result (list FileStat)
}.

(** [object.CommitIter]: the commits it yields and, when the iteration
    breaks off after them, the error of [Next]. *)
Record CommitIter := mkCommitIter {
  items : list Commit;
  iter_err : option error
}.

(** [git.Repository]; [Log since until] is [repo.Log(&git.LogOptions{...})]. *)
Record Repository := mkRepository {
  Log : Time -> Time -> result CommitIter
}.

(** What the program reaches outside itself. *)
Record World := mkWorld {
  filepath_Abs : string -> result string;
  git_PlainOpen : string -> result Repository
}.

(** What the program does to the outside, in order. *)
Inductive event :=
| Stdout (s : string)
| EvAbs (path : string)
| EvPlainOpen (path : string)
| EvLog (since until : Time)
| EvStats (hash : string).

Definition repo_access (e : event) : bool :=
  match e with
  | EvPlainOpen _ | EvLog _ _ | EvStats _ => true
  | Stdout _ | EvAbs _ => false
  end.

(** ** [getGitStats] *)

Definition newDailyStats : DailyStats := mkDailyStats ∅ 0 0.

(** Lines 66 to 68, on the [DailyStats] the map entry points to. *)
Definition addStat (stat : FileStat) (ds : DailyStats) : DailyStats :=
  mkDailyStats ({[Name stat]} ∪ FilesChanged ds)
               (int_add (Additions ds) (Addition stat))
               (int_add (Deletions ds) (Deletion stat)).

(** Line 53. *)
Definition commitDate (c : Commit) : string := Format_date (When (Author c)).

(** The callback of [commits.ForEach]. *)
Definition visit (dailyStats : gmap string DailyStats) (c : Commit)
  : result (gmap string DailyStats) :=
  match Stats c with
  | Err e => Err e
  | Ok stats =>
      let dailyStats :=
        match dailyStats !! commitDate c with
        | Some _ => dailyStats
        | None => <[commitDate c := newDailyStats]> dailyStats
        end in
      Ok (fold_left (fun m stat => alter (addStat stat) (commitDate c) m)
                    stats dailyStats)
  end.

(** [commits.ForEach(visit)] over the commits the iterator yields; the
    first error of the callback ends the iteration. *)
Fixpoint forEach (cs : list Commit) (dailyStats : gmap string DailyStats)
  : list event * result (gmap string DailyStats) :=
  match cs with
  | [] => ([], Ok dailyStats)
  | c :: cs' =>
      match visit dailyStats c with
      | Err e => ([EvStats (Hash c)], Err e)
      | Ok dailyStats' =>
          let '(tr, r) := forEach cs' dailyStats' in
          (EvStats (Hash c) :: tr, r)
      end
  end.

(** The fold of lines 50 to 78 over a list of commits. *)
Definition aggregate (cs : list Commit) : result (gmap string DailyStats) :=
  snd (forEach cs ∅).

Definition getGitStats (w : World) (repoPath : string) (startDate endDate : Time)
  : list event * result (gmap string DailyStats) :=
  match git_PlainOpen w repoPath with
  | Err e => ([EvPlainOpen repoPath], Err e)
  | Ok repo =>
      let endDate := Add (Add endDate (24 * 3600)) (-1) in
      match Log repo startDate endDate with
      | Err e => ([EvPlainOpen repoPath; EvLog startDate endDate], Err e)
      | Ok commits =>
          let '(tr, r) := forEach (items commits) ∅ in
          let pre := EvPlainOpen repoPath :: EvLog startDate endDate :: tr in
          match r with
          | Err e => (pre, Err e)
          | Ok dailyStats =>
              match iter_err commits with
              | Some e => (pre, Err e)
              | None => (pre, Ok dailyStats)
              end
          end
      end
  end.

(** ** Formatting *)

Definition parseDate (dateStr : string) : result Time :=
  match Parse_date dateStr with
  | inr t => Ok t
  | inl e => Err (ParseError_Error e)
  end.

Definition formatDateRange (startDate endDate : Time) : string :=
  let startStr := Format_date startDate in
  if Year startDate =? Year endDate
  then startStr +:+ " ~ " +:+ Format_month_day endDate
  else startStr +:+ " ~ " +:+ Format_date endDate.

(** [None] is the run-time panic of a slice out of range or of
    [strings.Repeat] with a negative count. *)
Definition centerText (text : string) (width : Z) : option string :=
  if len text >=? width then slice_to text width
  else
    let leftPad := (width - len text) ÷ 2 in
    let rightPad := width - len text - leftPad in
    l ← Repeat " " leftPad;
    r ← Repeat " " rightPad;
    Some (l +:+ text +:+ r).

Definition padText (text : string) (width : Z) : option string :=
  if len text >=? width then slice_to text width
  else
    r ← Repeat " " (width - len text);
    Some (text +:+ r).

Definition totalWidth : Z :=
  dateRangeWidth + filesChangedWidth + additionsWidth + deletionsWidth
  + totalChangesWidth + 4.

(** Each print function gives the strings it writes, one per call of
    [fmt.Printf]. *)
Definition printTableHeader : option (list string) :=
  c1 ← centerText "Date Range" dateRangeWidth;
  c2 ← centerText "Files Changed" filesChangedWidth;
  c3 ← centerText "Additions" additionsWidth;
  c4 ← centerText "Deletions" deletionsWidth;
  c5 ← centerText "Total Changes" totalChangesWidth;
  rule ← Repeat "-" totalWidth;
  Some [c1 +:+ "|" +:+ c2 +:+ "|" +:+ c3 +:+ "|" +:+ c4 +:+ "|" +:+ c5 +:+ nl;
        rule +:+ nl].

Definition printTableRow (dateRange : string)
    (filesChanged additions deletions totalChanges : Z) : option (list string) :=
  c1 ← padText dateRange dateRangeWidth;
  c2 ← centerText (fmt_d filesChanged) filesChangedWidth;
  c3 ← centerText (fmt_d additions) additionsWidth;
  c4 ← centerText (fmt_d deletions) deletionsWidth;
  c5 ← centerText (fmt_d totalChanges) totalChangesWidth;
  rule ← Repeat "-" totalWidth;
  Some [c1 +:+ "|" +:+ c2 +:+ "|" +:+ c3 +:+ "|" +:+ c4 +:+ "|" +:+ c5 +:+ nl;
        rule +:+ nl].

Definition days_tip (days : Z) : string :=
  if days >? 1 then "days" else "day".

Definition noChangeMessage (days : Z) : string :=
  fmt_d days +:+ " " +:+ days_tip days +:+ " no commits".

Definition printNoChangeRow (dateRange : string) (days : Z) : option (list string) :=
  let message := noChangeMessage days in
  rule ← Repeat "-" totalWidth;
  c1 ← padText dateRange dateRangeWidth;
  c2 ← centerText message (totalWidth - dateRangeWidth - 1);
  Some [colorOrange +:+ rule +:+ colorReset +:+ nl;
        colorOrange +:+ c1 +:+ colorReset +:+ "|"
          +:+ colorOrange +:+ c2 +:+ colorReset +:+ nl;
        rule +:+ nl].

(** ** [main] *)

(** The two kinds of row the loop of [main] prints.  [ActiveRow d f a r t]
    stands for the call [printTableRow(d.Format("2006-01-02"), f, a, r, t)]
    of line 219, [GapRow s e n] for the call
    [printNoChangeRow(formatDateRange(s, e), n)] of lines 215 and 224. *)
Inductive row :=
| ActiveRow (d : Time) (filesChanged additions deletions totalChanges : Z)
| GapRow (startDate endDate : Time) (days : Z).

Definition printRow (r : row) : option (list string) :=
  match r with
  | ActiveRow d filesChanged additions deletions totalChanges =>
      printTableRow (Format_date d) filesChanged additions deletions totalChanges
  | GapRow startDate endDate days =>
      printNoChangeRow (formatDateRange startDate endDate) days
  end.

(** The variables of the loop and the rows printed so far. *)
Record loopState := mkLoopState {
  noChangeStartDate : Time;
  noChangeDays : Z;
  printed : list row
}.

Definition initState : loopState := mkLoopState zeroTime 0 [].

(** The body of the loop, lines 205 to 220. *)
Definition loopBody (dailyStats : gmap string DailyStats) (d : Time)
    (st : loopState) : loopState :=
  let dateStr := Format_date d in
  match dailyStats !! dateStr with
  | None =>
      mkLoopState
        (if noChangeDays st =? 0 then d else noChangeStartDate st)
        (int_add (noChangeDays st) 1)
        (printed st)
  | Some stats =>
      let st :=
        if noChangeDays st >? 0
        then mkLoopState (noChangeStartDate st) 0
               (printed st ++ [GapRow (noChangeStartDate st) (AddDate d (-1))
                                      (noChangeDays st)])%list
        else st in
      let totalChanges := int_add (Additions stats) (Deletions stats) in
      mkLoopState (noChangeStartDate st) (noChangeDays st)
        (printed st ++ [ActiveRow d (Z.of_nat (size (FilesChanged stats)))
                                  (Additions stats) (Deletions stats) totalChanges])%list
  end.

(** [for d := startDate; !d.After(endDate); d = d.AddDate(0, 0, 1)];
    [None] when [fuel] iterations did not reach the end. *)
Fixpoint loop (fuel : nat) (dailyStats : gmap string DailyStats)
    (endDate d : Time) (st : loopState) : option loopState :=
  if After d endDate then Some st
  else
    match fuel with
    | O => None
    | S fuel' =>
        loop fuel' dailyStats endDate (AddDate d 1) (loopBody dailyStats d st)
    end.

(** Lines 223 to 225. *)
Definition closeGap (endDate : Time) (st : loopState) : list row :=
  if noChangeDays st >? 0
  then (printed st ++ [GapRow (noChangeStartDate st) endDate (noChangeDays st)])%list
  else printed st.

(** The rows of the report, lines 201 to 225. *)
Definition report (fuel : nat) (dailyStats : gmap string DailyStats)
    (startDate endDate : Time) : option (list row) :=
  st ← loop fuel dailyStats endDate startDate initState;
  Some (closeGap endDate st).

(** How the process ends: [os.Exit(code)] or the return of [main]
    ([Exit 0]), or a run-time panic. *)
Inductive outcome :=
| Exit (code : Z)
| Panic.

(** Writes the output of the print calls in order, up to the first one
    that panics. *)
Fixpoint runPrints (calls : list (option (list string))) : list event * outcome :=
  match calls with
  | [] => ([], Exit 0)
  | None :: _ => ([], Panic)
  | Some out :: calls' =>
      let '(tr, o) := runPrints calls' in
      ((map Stdout out ++ tr)%list, o)
  end.

Definition usage : list event :=
  [Stdout ("Usage: git-stat <repo_path> <start_date> <end_date>" +:+ nl);
   Stdout ("Example: git-stat /path/to/repo 2023-08-30 2023-09-01" +:+ nl)].

(** [main] on the arguments [Args] ([os.Args], the program name first):
    what it does and how it ends; [None] when [fuel] iterations of the
    loop were not enough. *)
Definition main (w : World) (fuel : nat) (Args : list string)
  : option (list event * outcome) :=
  if negb (Nat.eqb (List.length Args) 4) then Some (usage, Exit 1)
  else
    let repoPath := nth 1 Args "" in
    let startDateStr := nth 2 Args "" in
    let endDateStr := nth 3 Args "" in
    match parseDate startDateStr with
    | Err err =>
        Some ([Stdout ("Invalid start date format: " +:+ err +:+ nl)], Exit 1)
    | Ok startDate =>
        match parseDate endDateStr with
        | Err err =>
            Some ([Stdout ("Invalid end date format: " +:+ err +:+ nl)], Exit 1)
        | Ok endDate =>
            if Before endDate startDate
            then Some ([Stdout ("End date must be after start date" +:+ nl)], Exit 1)
            else
              match filepath_Abs w repoPath with
              | Err err =>
                  Some ([EvAbs repoPath;
                         Stdout ("Error resolving repository path: " +:+ err +:+ nl)],
                        Exit 1)
              | Ok absPath =>
                  let '(tr, r) := getGitStats w absPath startDate endDate in
                  match r with
                  | Err err =>
                      Some ((EvAbs repoPath :: tr ++
                             [Stdout ("Error getting Git statistics: " +:+ err +:+ nl)])%list,
                            Exit 1)
                  | Ok dailyStats =>
                      rows ← report fuel dailyStats startDate endDate;
                      let '(out, o) :=
                        runPrints (printTableHeader :: map printRow rows) in
                      Some ((EvAbs repoPath :: tr ++ out)%list, o)
                  end
              end
        end
    end.

(** The text written to standard output. *)
Fixpoint stdout (tr : list event) : string :=
  match tr with
  | [] => ""
  | Stdout s :: tr' => s +:+ stdout tr'
  | _ :: tr' => stdout tr'
  end.

End GitStat.
Export GitStat.

(** * Vocabulary of the properties *)

Module Calendar.

(** [p] holds on the [n] integers from [z]. *)
Fixpoint all_from (n : nat) (z : Z) (p : Z -> bool) : bool :=
  match n with
  | O => true
  | S n' => p z && all_from n' (z + 1) p
  end.

Definition monthDay_ok (y yd : Z) : bool :=
  let '(m, d) := monthDay y yd in
  (daysBefore m + (if isLeap y && (3 <=? m) then 1 else 0) + (d - 1) =? yd)
  && (1 <=? m) && (m <=? 12) && (1 <=? d) && (d <=? daysIn m y).

(** What makes [(y, m, d)] the date of day number [r]. *)
Definition date_ok (r : Z) : bool :=
  let '(y, m, d) := civil r in
  (dateToDays y m d =? r) && (1 <=? m) && (m <=? 12)
  && (1 <=? d) && (d <=? daysIn m y) && (1 <=? y) && (y <=? 400).

End Calendar.

Module Dates.

(** The time [time.Parse] gives for the [k]-th day: midnight, UTC. *)
Definition day (k : Z) : Time := mkTime (k * secondsPerDay) 0.

(** The day number of a time: whole days since 0001-01-01 in its own
    location. *)
Definition dayNum (t : Time) : Z := localDays t.

End Dates.
Export Dates.

Module Rows.

(** The days a row stands for. *)
Definition row_days (r : row) : Z :=
  match r with
  | ActiveRow _ _ _ _ _ => 1
  | GapRow _ _ days => days
  end.

(** The first and the last day of a row, as day numbers. *)
Definition row_first (r : row) : Z :=
  match r with
  | ActiveRow d _ _ _ _ => dayNum d
  | GapRow startDate _ _ => dayNum startDate
  end.

Definition row_last (r : row) : Z :=
  match r with
  | ActiveRow d _ _ _ _ => dayNum d
  | GapRow _ endDate _ => dayNum endDate
  end.

Definition is_gap (r : row) : bool :=
  match r with
  | GapRow _ _ _ => true
  | ActiveRow _ _ _ _ _ => false
  end.

Fixpoint total_days (rows : list row) : Z :=
  match rows with
  | [] => 0
  | r :: rows' => row_days r + total_days rows'
  end.

(** [covers a rows b]: the rows, in order, split the days [a] to [b] into
    spans that follow one another with no day left out and none twice:
    the first row starts on [a], each row starts the day after the one
    before it ends, the last ends on [b], and a row stands for as many
    days as its span has. *)
Fixpoint covers (a : Z) (rows : list row) (b : Z) : Prop :=
  match rows with
  | [] => a = b + 1
  | r :: rows' =>
      row_first r = a /\ a <= row_last r
      /\ row_days r = row_last r - a + 1
      /\ covers (row_last r + 1) rows' b
  end.

(** Day [k] has, or has not, an entry in the index. *)
Definition active (dailyStats : gmap string DailyStats) (k : Z) : Prop :=
  is_Some (dailyStats !! Format_date (day k)).

Definition inactive (dailyStats : gmap string DailyStats) (k : Z) : Prop :=
  dailyStats !! Format_date (day k) = None.

(** The days [a] to [b] are a maximal run of days without entry within
    the range [s] to [e]. *)
Definition maximal_run (dailyStats : gmap string DailyStats) (s e a b : Z) : Prop :=
  s <= a /\ a <= b /\ b <= e
  /\ (forall k, a <= k <= b -> inactive dailyStats k)
  /\ (a = s \/ active dailyStats (a - 1))
  /\ (b = e \/ active dailyStats (b + 1)).

(** A row of the report of the range [s] to [e] says what the index says:
    an Active row is a day with an entry and carries its figures, a Gap row
    is a maximal run of days without entry and carries its length. *)
Definition row_ok (dailyStats : gmap string DailyStats) (s e : Z) (r : row) : Prop :=
  match r with
  | ActiveRow d filesChanged additions deletions totalChanges =>
      exists k stats,
        d = day k /\ s <= k <= e
        /\ dailyStats !! Format_date (day k) = Some stats
        /\ filesChanged = Z.of_nat (size (FilesChanged stats))
        /\ additions = Additions stats /\ deletions = Deletions stats
        /\ totalChanges = int_add (Additions stats) (Deletions stats)
  | GapRow startDate endDate days =>
      exists a b,
        startDate = day a /\ endDate = day b /\ days = b - a + 1
        /\ maximal_run dailyStats s e a b
  end.

(** What holds of the variables of the loop before the iteration of day
    [k], in a report of the days from [s] to [e]: the open gap is the
    [noChangeDays] days before [k], none of them has an entry, the day
    before it (if in the range) has one, and the rows printed so far
    cover the days before the gap. *)
Definition loop_inv (dailyStats : gmap string DailyStats) (s e k : Z)
    (st : loopState) : Prop :=
  let g := noChangeDays st in
  0 <= g <= k - s
  /\ (0 < g -> noChangeStartDate st = day (k - g))
  /\ (forall j, k - g <= j < k -> inactive dailyStats j)
  /\ (k - g = s \/ active dailyStats (k - g - 1))
  /\ covers s (printed st) (k - g - 1)
  /\ Forall (row_ok dailyStats s e) (printed st).

(** Fuel that is enough for the loop over the range. *)
Definition enough (startDate endDate : Time) : nat :=
  Z.to_nat (dayNum endDate - dayNum startDate + 1).

End Rows.
Export Rows.

Module Layout.

Local Open Scope string_scope.

(** The text without its ANSI escape sequences: a sequence runs from the
    escape byte to the next [m]; [inside] says that one is open. *)
Fixpoint strip_ansi (inside : bool) (s : string) : string :=
  match s with
  | "" => ""
  | String c s' =>
      if inside
      then strip_ansi (negb (Ascii.eqb c "m")) s'
      else if Ascii.eqb c esc then strip_ansi true s'
      else String c (strip_ansi false s')
  end.

(** The width of a line on a terminal. *)
Definition visible_width (line : string) : nat :=
  String.length (strip_ansi false line).

(** A text with neither an escape byte nor a column separator. *)
Fixpoint plain (s : string) : bool :=
  match s with
  | "" => true
  | String c s' => negb (Ascii.eqb c esc) && negb (Ascii.eqb c "|") && plain s'
  end.

Definition spaces (n : nat) : string := repeat_nat " " n.

(** [cell] is [text] centred in [width] columns: as many spaces before it
    as after it, or one more after it. *)
Definition centred (text : string) (width : nat) (cell : string) : Prop :=
  exists l r : nat,
    cell = spaces l +:+ text +:+ spaces r
    /\ (l + String.length text + r = width)%nat
    /\ (r = l \/ r = S l).

(** [cell] is [text] at the left of [width] columns, spaces after it. *)
Definition left_aligned (text : string) (width : nat) (cell : string) : Prop :=
  cell = text +:+ spaces (width - String.length text).

(** [cell] is [text] at the right of [width] columns, spaces before it. *)
Definition right_aligned (text : string) (width : nat) (cell : string) : Prop :=
  cell = spaces (width - String.length text) +:+ text.

(** [cell] is the first [width] bytes of [text]. *)
Definition truncated (text : string) (width : nat) (cell : string) : Prop :=
  cell = substring 0 width text.

(** The cells [padText] and [centerText] make of a text. *)
Definition pad_cell (text : string) (width : nat) : string :=
  if (width <=? String.length text)%nat
  then substring 0 width text
  else text +:+ spaces (width - String.length text).

Definition centre_cell (text : string) (width : nat) : string :=
  if (width <=? String.length text)%nat
  then substring 0 width text
  else spaces ((width - String.length text) / 2) +:+ text
       +:+ spaces (width - String.length text
                   - (width - String.length text) / 2).

(** The separator rule: [strings.Repeat("-", totalWidth)]. *)
Definition rule : string := repeat_nat "-" 81.

(** A written line: 81 visible columns and the line feed. *)
Definition line_ok (written : string) : Prop :=
  exists line, written = line +:+ nl /\ visible_width line = 81%nat.

(** A cell is its text centred, or cut when the text does not fit. *)
Definition centred_or_cut (text : string) (width : nat) (cell : string) : Prop :=
  String.length cell = width
  /\ if (String.length text <? width)%nat
     then centred text width cell
     else truncated text width cell.

(** A cell is its text at the left, or cut when the text does not fit. *)
Definition left_or_cut (text : string) (width : nat) (cell : string) : Prop :=
  String.length cell = width
  /\ if (String.length text <? width)%nat
     then left_aligned text width cell
     else truncated text width cell.

End Layout.
Export Layout.

Module Commits.

Local Open Scope string_scope.

(** The commits of a list whose day is [D], in the order of the list. *)
Definition on_day (D : string) (cs : list Commit) : list Commit :=
  List.filter (fun c => String.eqb (commitDate c) D) cs.

(** The per-file deltas of a commit. *)
Definition stats_of (c : Commit) : list FileStat :=
  match Stats c with
  | Ok stats => stats
  | Err _ => []
  end.

(** Every per-file delta of every commit of day [D]. *)
Definition day_stats (D : string) (cs : list Commit) : list FileStat :=
  flat_map stats_of (on_day D cs).

Definition sumZ (l : list Z) : Z := fold_right Z.add 0 l.

(** [c.Stats()] succeeds. *)
Definition stats_ok (c : Commit) : Prop := exists stats, Stats c = Ok stats.

(** The commit with another committer signature. *)
Definition with_committer (committer : Commit -> Signature) (c : Commit) : Commit :=
  mkCommit (Hash c) (Author c) (committer c) (Stats c).

(** Two runs of the aggregation agree: the same index, or both fail. *)
Definition same_result (r1 r2 : result (gmap string DailyStats)) : Prop :=
  match r1, r2 with
  | Ok i1, Ok i2 => i1 = i2
  | Err _, Err _ => True
  | _, _ => False
  end.

(** What an index says of day [D]: nothing, or the statistics [ds]
    grown by the deltas [l]. *)
Definition grown (o : option DailyStats) (touched : bool) (l : list FileStat)
  : option DailyStats :=
  match o, touched with
  | None, false => None
  | _, _ => Some (fold_left (fun ds stat => addStat stat ds) l
                            (default newDailyStats o))
  end.

End Commits.
Export Commits.

Module Cli.

Local Open Scope string_scope.

Definition is_stdout (e : event) : Prop := exists s, e = Stdout s.

(** What [main] rejects: a wrong number of arguments, a date that does
    not parse, an end date before the start date.  Each case comes with
    the line or lines [main] prints for it. *)
Inductive invalid_args : list string -> list event -> Prop :=
| bad_count Args :
    List.length Args <> 4%nat -> invalid_args Args usage
| bad_start prog repo startStr endStr err :
    parseDate startStr = Err err ->
    invalid_args [prog; repo; startStr; endStr]
      [Stdout ("Invalid start date format: " +:+ err +:+ nl)]
| bad_end prog repo startStr endStr startDate err :
    parseDate startStr = Ok startDate ->
    parseDate endStr = Err err ->
    invalid_args [prog; repo; startStr; endStr]
      [Stdout ("Invalid end date format: " +:+ err +:+ nl)]
| bad_order prog repo startStr endStr startDate endDate :
    parseDate startStr = Ok startDate ->
    parseDate endStr = Ok endDate ->
    Before endDate startDate = true ->
    invalid_args [prog; repo; startStr; endStr]
      [Stdout ("End date must be after start date" +:+ nl)].

End Cli.
Export Cli.

(** ** The inputs of the scenarios of the specification *)

Module Scenario.

Local Open Scope string_scope.

Definition at_utc (y m d h : Z) : Time :=
  mkTime (dateToDays y m d * 86400 + h * 3600) 0.

Definition sig (t : Time) : Signature := mkSignature "a" "a@example.org" t.

Definition commit (h : string) (t : Time) (stats : list FileStat) : Commit :=
  mkCommit h (sig t) (sig t) (Ok stats).

Definition world (cs : list Commit) : World :=
  mkWorld (fun p => Ok ("/abs/" +:+ p))
          (fun _ => Ok (mkRepository (fun _ _ => Ok (mkCommitIter cs None)))).

Definition commits1 : list Commit :=
  [commit "c2" (at_utc 2023 9 1 9) [mkFileStat "a.go" 1 0];
   commit "c1" (at_utc 2023 8 30 12) [mkFileStat "a.go" 4 2; mkFileStat "b.go" 6 0]].

(** Scenario 5: the same file in two commits of one day. *)
Definition commits5 : list Commit :=
  [commit "c1" (at_utc 2023 8 30 9) [mkFileStat "a.go" 3 1];
   commit "c2" (at_utc 2023 8 30 17) [mkFileStat "a.go" 5 0]].

(** A commit authored at 07:30 of 2023-08-31 in the zone +08:00, that is
    at 23:30 of 2023-08-30 UTC, and committed two days later in UTC. *)
Definition authored_east : Commit :=
  mkCommit "c"
    (mkSignature "a" "a@example.org"
       (mkTime (dateToDays 2023 8 30 * 86400 + 23 * 3600 + 1800) (8 * 3600)))
    (mkSignature "b" "b@example.org" (at_utc 2023 9 1 12))
    (Ok [mkFileStat "a.go" 1 0]).

(** The index of scenario 1. *)
Definition index1 : gmap string DailyStats :=
  <["2023-09-01" := mkDailyStats {["a.go"]} 1 0]>
    (<["2023-08-30" := mkDailyStats ({["a.go"]} ∪ {["b.go"]}) 10 2]> ∅).

End Scenario.

(** ** Vocabulary of the further properties *)

Module CalendarMore.

(** [year-month-day] is a date of the calendar. *)
Definition valid_date (year month day : Z) : Prop :=
  1 <= month <= 12 /\ 1 <= day <= daysIn month year.

(** The day of the year (from 0) of a month and day. *)
Definition yday (year month day : Z) : Z :=
  daysBefore month + (if isLeap year && (3 <=? month) then 1 else 0) + (day - 1).

(** [monthDay] gives back the month and day of every day of the month
    [m] of the year [y]. *)
Definition month_ok (y m : Z) : bool :=
  Calendar.all_from (Z.to_nat (daysIn m y)) 1
    (fun d => let '(m', d') := monthDay y (yday y m d) in (m' =? m) && (d' =? d)).

(** The first and the last day number [time.Parse] can give: the first of
    January of year 0 and the last of December of 9999. *)
Definition firstDay : Z := -366.
Definition lastDay : Z := 3652058.

End CalendarMore.
Export CalendarMore.

Module DigitsMore.

Local Open Scope string_scope.

(** The four and the two decimal digits of a number. *)
Definition four_digits (y : Z) : string :=
  String (digit_char (y / 1000))
    (String (digit_char (y / 100 mod 10))
       (String (digit_char (y / 10 mod 10))
          (String (digit_char (y mod 10)) ""))).

Definition two_digits (m : Z) : string :=
  String (digit_char (m / 10)) (String (digit_char (m mod 10)) "").

End DigitsMore.
Export DigitsMore.

Module RunMore.

Local Open Scope string_scope.

(** The end of the window [getGitStats] asks the log for: line 40. *)
Definition until (endDate : Time) : Time := Add (Add endDate (24 * 3600)) (-1).

(** The visits of [commits.ForEach], one per commit. *)
Definition visits (cs : list Commit) : list event :=
  map (fun c => EvStats (Hash c)) cs.

(** The two lines of the header and the lines of a row, as written. *)
Definition header_lines : list string :=
  [centre_cell "Date Range" 25 +:+ "|"
   +:+ centre_cell "Files Changed" 15 +:+ "|"
   +:+ centre_cell "Additions" 11 +:+ "|"
   +:+ centre_cell "Deletions" 11 +:+ "|"
   +:+ centre_cell "Total Changes" 15 +:+ nl;
   rule +:+ nl].

Definition row_lines (r : row) : list string :=
  match r with
  | ActiveRow d filesChanged additions deletions totalChanges =>
      [pad_cell (Format_date d) 25 +:+ "|"
       +:+ centre_cell (fmt_d filesChanged) 15 +:+ "|"
       +:+ centre_cell (fmt_d additions) 11 +:+ "|"
       +:+ centre_cell (fmt_d deletions) 11 +:+ "|"
       +:+ centre_cell (fmt_d totalChanges) 15 +:+ nl;
       rule +:+ nl]
  | GapRow startDate endDate days =>
      [colorOrange +:+ rule +:+ colorReset +:+ nl;
       colorOrange +:+ pad_cell (formatDateRange startDate endDate) 25
         +:+ colorReset +:+ "|"
         +:+ colorOrange +:+ centre_cell (noChangeMessage days) 55
         +:+ colorReset +:+ nl;
       rule +:+ nl]
  end.

(** The concatenation of texts. *)
Fixpoint join (l : list string) : string :=
  match l with
  | [] => ""
  | s :: l' => s +:+ join l'
  end.

End RunMore.
Export RunMore.

Module ScenarioMore.

Local Open Scope string_scope.

(** A commit whose statistics cannot be computed. *)
Definition bad_commit : Commit :=
  mkCommit "bad" (Scenario.sig (day 738761)) (Scenario.sig (day 738761))
           (Err "unreadable object").

(** A log with the bad commit between good ones. *)
Definition broken_log : CommitIter :=
  mkCommitIter (Scenario.commits1 ++ bad_commit :: Scenario.commits5) None.

Definition broken_repo : Repository := mkRepository (fun _ _ => Ok broken_log).

Definition broken_world : World :=
  mkWorld (fun p => Ok p) (fun _ => Ok broken_repo).

(** The repository and the log of [Scenario.world]. *)
Definition log_of (cs : list Commit) : CommitIter := mkCommitIter cs None.

Definition repo_of (cs : list Commit) : Repository :=
  mkRepository (fun _ _ => Ok (log_of cs)).

(** A commit without any per-file delta. *)
Definition empty_commit : Commit :=
  Scenario.commit "empty" (Scenario.at_utc 2023 8 31 10) [].

End ScenarioMore.

Module MergeMore.

(** The statistics of a day known from two parts of the history. *)
Definition merge_stats (a b : DailyStats) : DailyStats :=
  mkDailyStats (FilesChanged a ∪ FilesChanged b)
               (int_add (Additions a) (Additions b))
               (int_add (Deletions a) (Deletions b)).

Definition merge_index (i1 i2 : gmap string DailyStats) : gmap string DailyStats :=
  union_with (fun a b => Some (merge_stats a b)) i1 i2.

End MergeMore.
Export MergeMore.

Module RowsMore.

(** The Active row of a day with the statistics [stats]. *)
Definition active_row (k : Z) (stats : DailyStats) : row :=
  ActiveRow (day k) (Z.of_nat (size (FilesChanged stats)))
            (Additions stats) (Deletions stats)
            (int_add (Additions stats) (Deletions stats)).

End RowsMore.
Export RowsMore.

(** * Properties *)

Example civil_epoch : civil 0 = (1, 1, 1).
Proof. reflexivity. Qed.

Example civil_unix : civil 719162 = (1970, 1, 1).
Proof. reflexivity. Qed.

Example civil_leap_day : civil (dateToDays 2024 2 29) = (2024, 2, 29).
Proof. reflexivity. Qed.

Example civil_new_year : civil (dateToDays 2023 12 32) = (2024, 1, 1).
Proof. reflexivity. Qed.

Example format_date_ex :
  Format_date (mkTime (dateToDays 2023 8 30 * 86400) 0) = "2023-08-30"%string.
Proof. reflexivity. Qed.

Example fmt_d_ex : fmt_d 1203 = "1203"%string /\ fmt_d (-7) = "-7"%string /\ fmt_d 0 = "0"%string.
Proof. repeat split. Qed.


(** ** The calendar *)

Module CalendarFacts.
Import Calendar.

Lemma all_from_spec (p : Z -> bool) (n : nat) :
  forall z, all_from n z p = true ->
  forall i, z <= i < z + Z.of_nat n -> p i = true.
Proof.
  induction n as [|n IH]; intros z H i Hi; [lia|].
  simpl in H. apply andb_prop in H as [Hz Hrest].
  destruct (Z.eq_dec i z) as [->|Hne]; [exact Hz|].
  apply (IH (z + 1) Hrest). lia.
Qed.

Lemma div_bounds (r c : Z) :
  0 < c -> c * (r / c) <= r < c * (r / c) + c.
Proof.
  intros Hc. pose proof (Z.div_mod r c ltac:(lia)).
  pose proof (Z.mod_pos_bound r c Hc). lia.
Qed.

(** Within a cycle of 400 years, [yearOfDays] splits a day number into
    the year and the day of that year. *)
Lemma yearOfDays_cycle (r : Z) :
  0 <= r < 146097 ->
  let '(y, yd) := yearOfDays r in
  daysSinceEpoch y + yd = r
  /\ 0 <= yd < (if isLeap y then 366 else 365)
  /\ 1 <= y <= 400.
Proof.
  intros Hr. unfold yearOfDays, daysSinceEpoch, isLeap. cbv zeta.
  rewrite (Z.div_small r 146097) by lia.
  replace (r - 146097 * 0) with r by lia.
  set (a := r / 36524).
  assert (Ha : 0 <= a <= 4 /\ 36524 * a <= r < 36524 * a + 36524)
    by (subst a; pose proof (div_bounds r 36524 ltac:(lia)); lia).
  clearbody a.
  set (n100 := a - a / 4).
  assert (Hn100 : n100 = if a =? 4 then 3 else a)
    by (subst n100; destruct (Z.eqb_spec a 4) as [->|];
        [reflexivity|rewrite Z.div_small; lia]).
  clearbody n100.
  set (d1 := r - 36524 * n100).
  assert (Hd1 : 0 <= d1 <= 36524 /\ (d1 = 36524 -> n100 = 3) /\ d1 = r - 36524 * n100)
    by (subst d1; destruct (Z.eqb_spec a 4); lia).
  clearbody d1.
  set (n4 := d1 / 1461).
  assert (Hn4 : 0 <= n4 <= 24 /\ 1461 * n4 <= d1 < 1461 * n4 + 1461)
    by (subst n4; pose proof (div_bounds d1 1461 ltac:(lia)); lia).
  clearbody n4.
  set (d2 := d1 - 1461 * n4).
  assert (Hd2 : 0 <= d2 <= 1460 /\ d2 = d1 - 1461 * n4) by (subst d2; lia).
  clearbody d2.
  set (b := d2 / 365).
  assert (Hb : 0 <= b <= 4 /\ 365 * b <= d2 < 365 * b + 365)
    by (subst b; pose proof (div_bounds d2 365 ltac:(lia)); lia).
  clearbody b.
  set (n := b - b / 4).
  assert (Hn : n = if b =? 4 then 3 else b)
    by (subst n; destruct (Z.eqb_spec b 4) as [->|];
        [reflexivity|rewrite Z.div_small; lia]).
  clearbody n.
  set (y1 := 400 * 0 + 100 * n100 + 4 * n4 + n + 1 - 1).
  assert (Hy1 : y1 = 100 * n100 + 4 * n4 + n) by (subst y1; lia).
  assert (Hbn : 0 <= n <= 3 /\ 0 <= n100 <= 3)
    by (destruct (Z.eqb_spec a 4), (Z.eqb_spec b 4); lia).
  assert (Hq4 : y1 / 4 = 25 * n100 + n4)
    by (symmetry; apply (Z.div_unique_pos y1 4 _ n); lia).
  assert (Hq100 : y1 / 100 = n100)
    by (symmetry; apply (Z.div_unique_pos y1 100 _ (4 * n4 + n)); lia).
  assert (Hq400 : y1 / 400 = 0) by (apply Z.div_small; lia).
  rewrite Hq4, Hq100, Hq400.
  replace (400 * 0 + 100 * n100 + 4 * n4 + n + 1) with (y1 + 1) by lia.
  assert (Hm4 : (y1 + 1) mod 4 = (n + 1) mod 4)
    by (replace (y1 + 1) with (n + 1 + (25 * n100 + n4) * 4) by lia;
        apply Z.mod_add; lia).
  assert (Hm100 : (y1 + 1) mod 100 = (4 * n4 + n + 1) mod 100)
    by (replace (y1 + 1) with (4 * n4 + n + 1 + n100 * 100) by lia;
        apply Z.mod_add; lia).
  assert (Hm400 : (y1 + 1) mod 400 = (y1 + 1) mod 400) by reflexivity.
  rewrite Hm4, Hm100.
  split; [destruct (Z.eqb_spec a 4), (Z.eqb_spec b 4); lia|].
  split; [|lia].
  destruct (Z.eq_dec b 4) as [Hb4|Hb4].
  - (* the last day of a cycle of four years is the 366th of its year *)
    assert (Hn3 : n = 3) by (rewrite Hn, Hb4; reflexivity).
    match goal with
    | |- context [if ?c then _ else _] => assert (Hc : c = true)
    end.
    { apply andb_true_intro; split.
      - rewrite Hn3. reflexivity.
      - apply orb_true_iff. destruct (Z.eq_dec n4 24) as [H24|H24].
        + right. apply Z.eqb_eq. replace (y1 + 1) with 400 by lia. reflexivity.
        + left. apply negb_true_iff, Z.eqb_neq.
          rewrite Z.mod_small by lia. lia. }
    rewrite Hc. lia.
  - assert (Hnb : n = b) by (rewrite Hn; destruct (Z.eqb_spec b 4); lia).
    match goal with
    | |- context [if ?c then _ else _] => destruct c
    end; lia.
Qed.

(** The month and day of a day of the year depend on the year only
    through its being a leap year. *)
Lemma monthDay_leap (y yd : Z) :
  monthDay y yd = monthDay (if isLeap y then 4 else 1) yd.
Proof. unfold monthDay. now destruct (isLeap y). Qed.

Lemma monthDay_ok_leap : all_from 366 0 (monthDay_ok 4) = true.
Proof. vm_compute. reflexivity. Qed.

Lemma monthDay_ok_common : all_from 365 0 (monthDay_ok 1) = true.
Proof. vm_compute. reflexivity. Qed.

Lemma monthDay_year (y yd : Z) :
  0 <= yd < (if isLeap y then 366 else 365) ->
  monthDay_ok y yd = true.
Proof.
  intros Hyd. unfold monthDay_ok, daysIn. rewrite monthDay_leap.
  destruct (isLeap y) eqn:Hl.
  - apply (all_from_spec _ _ 0 monthDay_ok_leap). lia.
  - apply (all_from_spec _ _ 0 monthDay_ok_common). lia.
Qed.

Lemma date_ok_cycle (r : Z) : 0 <= r < 146097 -> date_ok r = true.
Proof.
  intros Hr. pose proof (yearOfDays_cycle r Hr) as Hy.
  unfold date_ok, civil. destruct (yearOfDays r) as [y yd].
  destruct Hy as (Hsum & Hyd & Hy).
  pose proof (monthDay_year y yd Hyd) as Hmd. unfold monthDay_ok in Hmd.
  destruct (monthDay y yd) as [m d].
  repeat (apply andb_prop in Hmd as [Hmd ?]).
  assert (Hm : 1 <= m <= 12) by lia.
  unfold dateToDays. cbv zeta.
  rewrite (Z.div_small (m - 1)), (Z.mod_small (m - 1)) by lia.
  replace (y + 0) with y by lia. replace (m - 1 + 1) with m by lia.
  repeat (apply andb_true_intro; split); lia.
Qed.

Lemma isLeap_period (y k : Z) : isLeap (y + 400 * k) = isLeap y.
Proof.
  unfold isLeap.
  replace ((y + 400 * k) mod 4) with (y mod 4)
    by (replace (y + 400 * k) with (y + (100 * k) * 4) by lia;
        now rewrite Z.mod_add).
  replace ((y + 400 * k) mod 100) with (y mod 100)
    by (replace (y + 400 * k) with (y + (4 * k) * 100) by lia;
        now rewrite Z.mod_add).
  replace ((y + 400 * k) mod 400) with (y mod 400)
    by (replace (y + 400 * k) with (y + k * 400) by lia;
        now rewrite Z.mod_add).
  reflexivity.
Qed.

Lemma daysSinceEpoch_period (y k : Z) :
  daysSinceEpoch (y + 400 * k) = daysSinceEpoch y + 146097 * k.
Proof.
  unfold daysSinceEpoch. cbv zeta.
  replace ((y + 400 * k - 1) / 4) with ((y - 1) / 4 + 100 * k)
    by (replace (y + 400 * k - 1) with (y - 1 + (100 * k) * 4) by lia;
        now rewrite Z.div_add).
  replace ((y + 400 * k - 1) / 100) with ((y - 1) / 100 + 4 * k)
    by (replace (y + 400 * k - 1) with (y - 1 + (4 * k) * 100) by lia;
        now rewrite Z.div_add).
  replace ((y + 400 * k - 1) / 400) with ((y - 1) / 400 + k)
    by (replace (y + 400 * k - 1) with (y - 1 + k * 400) by lia;
        now rewrite Z.div_add).
  lia.
Qed.

Lemma monthDay_period (y k yday : Z) :
  monthDay (y + 400 * k) yday = monthDay y yday.
Proof. unfold monthDay. now rewrite isLeap_period. Qed.

Lemma yearOfDays_period (z : Z) :
  yearOfDays z =
  (fst (yearOfDays (z mod 146097)) + 400 * (z / 146097),
   snd (yearOfDays (z mod 146097))).
Proof.
  pose proof (Z.mod_pos_bound z 146097 ltac:(lia)) as Hr.
  pose proof (Z.div_mod z 146097 ltac:(lia)) as Hz.
  unfold yearOfDays. cbv zeta.
  rewrite (Z.div_small (z mod 146097)) by lia.
  replace (z mod 146097 - 146097 * 0) with (z mod 146097) by lia.
  replace (z - 146097 * (z / 146097)) with (z mod 146097) by lia.
  simpl fst. simpl snd. f_equal. lia.
Qed.

Lemma civil_period (z : Z) :
  civil z =
  let '(y, m, d) := civil (z mod 146097) in (y + 400 * (z / 146097), m, d).
Proof.
  unfold civil. rewrite (yearOfDays_period z).
  destruct (yearOfDays (z mod 146097)) as [y yd]. simpl fst. simpl snd.
  rewrite monthDay_period. now destruct (monthDay y yd).
Qed.

Lemma dateToDays_period (y m d k : Z) :
  1 <= m <= 12 ->
  dateToDays (y + 400 * k) m d = dateToDays y m d + 146097 * k.
Proof.
  intros Hm. unfold dateToDays. cbv zeta.
  rewrite (Z.div_small (m - 1)) by lia.
  rewrite !Z.add_0_r, isLeap_period, daysSinceEpoch_period. lia.
Qed.

(** The date of a day number is a date of the calendar, and its day
    number is the one it came from. *)
Lemma civil_dateToDays (z : Z) :
  let '(y, m, d) := civil z in
  dateToDays y m d = z /\ 1 <= m <= 12 /\ 1 <= d <= daysIn m y.
Proof.
  pose proof (Z.mod_pos_bound z 146097 ltac:(lia)) as Hr.
  pose proof (Z.div_mod z 146097 ltac:(lia)) as Hz.
  pose proof (date_ok_cycle _ Hr) as Hok.
  rewrite civil_period. unfold date_ok in Hok.
  destruct (civil (z mod 146097)) as [[y m] d].
  repeat (apply andb_prop in Hok as [Hok ?]).
  assert (Hm : 1 <= m <= 12) by lia.
  rewrite dateToDays_period by exact Hm.
  unfold daysIn in *. rewrite isLeap_period. lia.
Qed.

(** Adding to the day of the month adds to the day number. *)
Lemma dateToDays_add (y m d n : Z) :
  dateToDays y m (d + n) = dateToDays y m d + n.
Proof. unfold dateToDays. lia. Qed.

End CalendarFacts.

(** ** Times that are dates *)

Module DateFacts.

Lemma dayNum_day (k : Z) : dayNum (day k) = k.
Proof.
  unfold dayNum, localDays, day, secondsPerDay. simpl.
  rewrite Z.add_0_r. apply Z.div_mul. lia.
Qed.

(** [AddDate(0, 0, n)] moves a time by [n] days of 24 hours and keeps its
    location. *)
Lemma AddDate_sec (t : Time) (n : Z) :
  AddDate t n = mkTime (sec t + n * secondsPerDay) (offset t).
Proof.
  unfold AddDate, Date.
  pose proof (CalendarFacts.civil_dateToDays (localDays t)) as H.
  destruct (civil (localDays t)) as [[y m] d]. destruct H as (H & _).
  rewrite CalendarFacts.dateToDays_add, H. f_equal.
  unfold localDays, secondsPerDay.
  pose proof (Z.div_mod (sec t + offset t) 86400 ltac:(lia)). lia.
Qed.

Lemma AddDate_day (k n : Z) : AddDate (day k) n = day (k + n).
Proof. rewrite AddDate_sec. unfold day. simpl. f_equal. lia. Qed.

Lemma After_day (k e : Z) : After (day k) (day e) = (e <? k).
Proof.
  unfold After, day, secondsPerDay. simpl.
  destruct (Z.ltb_spec (e * 86400) (k * 86400)), (Z.ltb_spec e k);
    try reflexivity; lia.
Qed.

Lemma Before_day (k e : Z) : Before (day k) (day e) = (k <? e).
Proof.
  unfold Before, day, secondsPerDay. simpl.
  destruct (Z.ltb_spec (k * 86400) (e * 86400)), (Z.ltb_spec k e);
    try reflexivity; lia.
Qed.

Lemma Date_day (k : Z) : Date (day k) = civil k.
Proof. unfold Date. fold (dayNum (day k)). now rewrite dayNum_day. Qed.

Lemma isDigit_val (c : ascii) : isDigit c = true -> 0 <= digit_val c <= 9.
Proof.
  unfold isDigit, digit_val. intros H.
  apply andb_prop in H as [H1 H2].
  apply Nat.leb_le in H1, H2. lia.
Qed.

(** An accepted date string is a day of the years 0 to 9999. *)
Lemma Parse_date_day (value : string) (t : Time) :
  Parse_date value = inr t ->
  exists k, t = day k /\ -366 <= k <= 3652424.
Proof.
  unfold Parse_date. intros H.
  destruct (getYear value) as [[year v1]|] eqn:Hy; [|discriminate].
  destruct (skipDash v1) as [v2|]; [|discriminate].
  destruct (getnum2 v2) as [[month v3]|] eqn:Hm; [|discriminate].
  destruct (_ || _) eqn:Hmr in H; [discriminate|].
  destruct (skipDash v3) as [v4|]; [|discriminate].
  destruct (getnum2 v4) as [[dd v5]|] eqn:Hd; [|discriminate].
  destruct (negb _) in H; [discriminate|].
  destruct (_ || _) eqn:Hdr in H; [discriminate|].
  injection H as <-.
  exists (dateToDays year month dd). split; [reflexivity|].
  apply orb_false_iff in Hmr as [Hm1 Hm2], Hdr as [Hd1 Hd2].
  assert (Hyear : 0 <= year <= 9999).
  { unfold getYear in Hy.
    destruct value as [|a [|b [|c [|d rest]]]]; try discriminate.
    destruct (isDigit a) eqn:Ha; [|discriminate].
    destruct (isDigit b) eqn:Hb; [|discriminate].
    destruct (isDigit c) eqn:Hc; [|discriminate].
    destruct (isDigit d) eqn:Hdg; [|discriminate].
    injection Hy as <- _.
    apply isDigit_val in Ha, Hb, Hc, Hdg. lia. }
  assert (Hdd : dd <= 31).
  { unfold daysIn in Hd2.
    assert (month = 1 \/ month = 2 \/ month = 3 \/ month = 4 \/ month = 5
            \/ month = 6 \/ month = 7 \/ month = 8 \/ month = 9 \/ month = 10
            \/ month = 11 \/ month = 12) as Hcases by lia.
    destruct (isLeap year);
      repeat (destruct Hcases as [->|Hcases]); try subst month;
      simpl in Hd2; lia. }
  unfold dateToDays, daysSinceEpoch. cbv zeta.
  rewrite (Z.div_small (month - 1)), (Z.mod_small (month - 1)) by lia.
  assert (0 <= daysBefore (month - 1 + 1) <= 334).
  { assert (month = 1 \/ month = 2 \/ month = 3 \/ month = 4 \/ month = 5
            \/ month = 6 \/ month = 7 \/ month = 8 \/ month = 9 \/ month = 10
            \/ month = 11 \/ month = 12) as Hcases by lia.
    repeat (destruct Hcases as [->|Hcases]); try subst month; simpl; lia. }
  pose proof (CalendarFacts.div_bounds (year + 0 - 1) 4 ltac:(lia)).
  pose proof (CalendarFacts.div_bounds (year + 0 - 1) 100 ltac:(lia)).
  pose proof (CalendarFacts.div_bounds (year + 0 - 1) 400 ltac:(lia)).
  destruct (isLeap (year + 0) && _); lia.
Qed.

Lemma parseDate_day (dateStr : string) (t : Time) :
  parseDate dateStr = Ok t ->
  exists k, t = day k /\ -366 <= k <= 3652424.
Proof.
  unfold parseDate. destruct (Parse_date dateStr) eqn:H; [discriminate|].
  intros [= <-]. eauto using Parse_date_day.
Qed.

End DateFacts.
Export DateFacts.

(** ** The loop of [main] *)

Module ReportFacts.

Lemma int_add_small (x y : Z) : in_int (x + y) -> int_add x y = x + y.
Proof.
  unfold in_int, int_add, wrap, int_min, int_max. intros H.
  rewrite Z.mod_small; lia.
Qed.

Lemma covers_snoc (a : Z) (rows : list row) (m : Z) (r : row) :
  covers a rows m ->
  row_first r = m + 1 -> m + 1 <= row_last r ->
  row_days r = row_last r - (m + 1) + 1 ->
  covers a (rows ++ [r]) (row_last r).
Proof.
  revert a. induction rows as [|r' rows IH]; simpl; intros a H Hf Hl Hd.
  - subst a. repeat split; lia.
  - destruct H as (H1 & H2 & H3 & H4). repeat split; auto.
Qed.

Lemma covers_bounds (rows : list row) :
  forall a b, covers a rows b -> a <= b + 1.
Proof.
  induction rows as [|r rows IH]; simpl; intros a b H; [lia|].
  destruct H as (_ & H2 & _ & H4). apply IH in H4. lia.
Qed.

Lemma covers_total (rows : list row) :
  forall a b, covers a rows b -> total_days rows = b - a + 1.
Proof.
  induction rows as [|r rows IH]; simpl; intros a b H; [lia|].
  destruct H as (_ & _ & H3 & H4). apply IH in H4. lia.
Qed.

Section Loop.

Variable dailyStats : gmap string DailyStats.
Variables s e : Z.
Hypothesis range_in_int : e - s + 1 <= int_max.

Lemma loop_inv_init : loop_inv dailyStats s e s initState.
Proof.
  unfold loop_inv, initState. simpl.
  repeat split; try lia; auto.
Qed.

(** One iteration keeps the invariant. *)
Lemma loopBody_inv (k : Z) (st : loopState) :
  s <= k <= e ->
  loop_inv dailyStats s e k st ->
  loop_inv dailyStats s e (k + 1) (loopBody dailyStats (day k) st).
Proof.
  intros Hk (Hg & Hstart & Hrun & Hleft & Hcov & Hrows).
  unfold loopBody.
  destruct (dailyStats !! Format_date (day k)) as [stats|] eqn:Hlook.
  - (* a day with an entry: the open gap is closed, the day printed *)
    assert (Hact : active dailyStats k) by (unfold active; rewrite Hlook; eauto).
    assert (Hrow : row_ok dailyStats s e
              (ActiveRow (day k) (Z.of_nat (size (FilesChanged stats)))
                 (Additions stats) (Deletions stats)
                 (int_add (Additions stats) (Deletions stats))))
      by (exists k, stats; repeat split; auto; lia).
    destruct (Z.gtb_spec (noChangeDays st) 0) as [Hpos|Hzero];
      unfold loop_inv; simpl.
    + rewrite AddDate_day, Hstart by lia.
      replace (k + -1) with (k - 1) by lia.
      replace (k + 1 - 0 - 1) with k by lia.
      repeat split; try lia.
      * replace (k + 1 - 0 - 1 + 1) with (k + 1) by lia. right.
        replace (k + 1 - 0 - 1) with k by lia. exact Hact.
      * rewrite <- app_assoc. simpl.
        set (gap := GapRow (day (k - noChangeDays st)) (day (k - 1)) (noChangeDays st)).
        assert (Hgl : row_last gap = k - 1) by apply dayNum_day.
        assert (Hgf : row_first gap = k - noChangeDays st) by apply dayNum_day.
        assert (Hc1 : covers s (printed st ++ [gap]) (row_last gap)).
        { apply (covers_snoc _ _ (k - noChangeDays st - 1)); auto.
          - rewrite Hgf. lia.
          - rewrite Hgl. lia.
          - rewrite Hgl. simpl. lia. }
        rewrite Hgl in Hc1.
        replace (printed st ++ [gap; ActiveRow (day k) _ _ _ _])
          with ((printed st ++ [gap]) ++
                [ActiveRow (day k) (Z.of_nat (size (FilesChanged stats)))
                   (Additions stats) (Deletions stats)
                   (int_add (Additions stats) (Deletions stats))])
          by (rewrite <- app_assoc; reflexivity).
        match goal with
        | |- covers _ (_ ++ [?r]) _ =>
            replace k with (row_last r) at 2 by apply dayNum_day;
            apply (covers_snoc _ _ (k - 1)); auto;
            simpl; rewrite ?dayNum_day; lia
        end.
      * rewrite <- app_assoc. simpl.
        apply Forall_app. split; [exact Hrows|].
        constructor; [|constructor; [exact Hrow|constructor]].
        exists (k - noChangeDays st), (k - 1).
        repeat split; auto; try lia.
        -- intros j Hj. apply Hrun. lia.
        -- right. replace (k - 1 + 1) with k by lia. exact Hact.
    + assert (Hg0 : noChangeDays st = 0) by lia.
      rewrite Hg0 in *.
      repeat split; try lia.
      * right. replace (k + 1 - 0 - 1) with k by lia. exact Hact.
      * match goal with
        | |- covers _ (_ ++ [?r]) _ =>
            replace (k + 1 - 0 - 1) with (row_last r)
              by (simpl; rewrite dayNum_day; lia);
            apply (covers_snoc _ _ (k - 1));
            [replace (k - 1) with (k - 0 - 1) by lia; exact Hcov| | |];
            simpl; rewrite ?dayNum_day; lia
        end.
      * apply Forall_app. split; [exact Hrows|].
        constructor; [exact Hrow|constructor].
  - (* a day without entry: the gap opens or grows *)
    assert (Hadd : int_add (noChangeDays st) 1 = noChangeDays st + 1)
      by (apply int_add_small; unfold in_int, int_min, int_max in *; lia).
    unfold loop_inv; simpl. rewrite Hadd.
    replace (k + 1 - (noChangeDays st + 1)) with (k - noChangeDays st) by lia.
    repeat split; try lia; auto.
    + intros _. destruct (Z.eqb_spec (noChangeDays st) 0) as [H0|H0].
      * rewrite H0. f_equal. lia.
      * apply Hstart. lia.
    + intros j Hj. destruct (Z.eq_dec j k) as [->|Hne].
      * exact Hlook.
      * apply Hrun. lia.
Qed.

(** With fuel for the days that are left the loop ends, and the invariant
    holds after the last day. *)
Lemma loop_ends (n : nat) :
  forall (k : Z) (st : loopState) (fuel : nat),
    Z.of_nat n = e - k + 1 -> s <= k ->
    (n <= fuel)%nat ->
    loop_inv dailyStats s e k st ->
    exists st', loop fuel dailyStats (day e) (day k) st = Some st'
                /\ loop_inv dailyStats s e (e + 1) st'.
Proof.
  induction n as [|n IH]; intros k st fuel Hn Hk Hfuel Hinv.
  - assert (k = e + 1) by lia. subst k.
    exists st. split; [|exact Hinv].
    destruct fuel; simpl; rewrite After_day;
      destruct (Z.ltb_spec e (e + 1)); try reflexivity; lia.
  - destruct fuel as [|fuel]; [lia|].
    simpl. rewrite After_day.
    destruct (Z.ltb_spec e k); [lia|].
    rewrite AddDate_day.
    apply IH; try lia.
    apply loopBody_inv; [lia|exact Hinv].
Qed.

(** The rows of the report: they cover the range and each says what the
    index says. *)
Lemma report_rows (fuel : nat) :
  s <= e -> (Z.to_nat (e - s + 1) <= fuel)%nat ->
  exists rows,
    report fuel dailyStats (day s) (day e) = Some rows
    /\ covers s rows e
    /\ Forall (row_ok dailyStats s e) rows.
Proof.
  intros Hse Hfuel.
  destruct (loop_ends (Z.to_nat (e - s + 1)) s initState fuel)
    as (st & Hloop & Hg & Hstart & Hrun & Hleft & Hcov & Hrows);
    try lia; [apply loop_inv_init|].
  unfold report. rewrite Hloop. simpl.
  eexists. split; [reflexivity|].
  unfold closeGap.
  destruct (Z.gtb_spec (noChangeDays st) 0) as [Hpos|Hzero].
  - rewrite Hstart by lia.
    set (gap := GapRow (day (e + 1 - noChangeDays st)) (day e) (noChangeDays st)).
    assert (Hgl : row_last gap = e) by apply dayNum_day.
    assert (Hgf : row_first gap = e + 1 - noChangeDays st) by apply dayNum_day.
    split.
    + rewrite <- Hgl.
      apply (covers_snoc _ _ (e + 1 - noChangeDays st - 1)); auto.
      * rewrite Hgf. lia.
      * rewrite Hgl. lia.
      * rewrite Hgl. simpl. lia.
    + apply Forall_app. split; [exact Hrows|].
      constructor; [|constructor].
      exists (e + 1 - noChangeDays st), e.
      repeat split; auto; try lia.
      intros j Hj. apply Hrun. lia.
  - assert (Hg0 : noChangeDays st = 0) by lia. rewrite Hg0 in Hcov.
    split; [|exact Hrows].
    replace (e + 1 - 0 - 1) with e in Hcov by lia. exact Hcov.
Qed.

End Loop.

(** Consequences of [covers] for the rows by position. *)

Lemma covers_lookup (rows : list row) :
  forall a b (i : nat) (r : row),
    covers a rows b -> rows !! i = Some r ->
    a <= row_first r /\ row_first r <= row_last r /\ row_last r <= b
    /\ row_days r = row_last r - row_first r + 1.
Proof.
  induction rows as [|r0 rows IH]; intros a b i r Hc Hi; [discriminate|].
  destruct Hc as (H1 & H2 & H3 & H4).
  destruct i as [|i]; simpl in Hi.
  - injection Hi as <-. apply covers_bounds in H4. lia.
  - destruct (IH _ _ _ _ H4 Hi) as (? & ? & ? & ?). lia.
Qed.

Lemma covers_next (rows : list row) :
  forall a b (i : nat) (r : row),
    covers a rows b -> rows !! i = Some r ->
    match rows !! S i with
    | Some r' => row_first r' = row_last r + 1
    | None => row_last r = b
    end.
Proof.
  induction rows as [|r0 rows IH]; intros a b i r Hc Hi; [discriminate|].
  destruct Hc as (H1 & H2 & H3 & H4).
  destruct i as [|i]; simpl in Hi.
  - injection Hi as <-. simpl. destruct rows as [|r1 rows]; simpl in *; lia.
  - apply (IH _ _ _ _ H4 Hi).
Qed.

Lemma covers_ascending (rows : list row) :
  forall a b (i j : nat) (ri rj : row),
    covers a rows b -> (i < j)%nat ->
    rows !! i = Some ri -> rows !! j = Some rj ->
    row_last ri < row_first rj.
Proof.
  induction rows as [|r0 rows IH]; intros a b i j ri rj Hc Hij Hi Hj;
    [discriminate|].
  destruct Hc as (H1 & H2 & H3 & H4).
  destruct j as [|j]; [lia|]. simpl in Hj.
  destruct i as [|i]; simpl in Hi.
  - injection Hi as <-.
    destruct (covers_lookup _ _ _ _ _ H4 Hj). lia.
  - apply (IH _ _ i j ri rj H4); auto. lia.
Qed.

Lemma covers_day (rows : list row) :
  forall a b k,
    covers a rows b -> a <= k <= b ->
    exists (i : nat) (r : row),
      rows !! i = Some r /\ row_first r <= k <= row_last r.
Proof.
  induction rows as [|r0 rows IH]; intros a b k Hc Hk; simpl in Hc; [lia|].
  destruct Hc as (H1 & H2 & H3 & H4).
  destruct (Z_le_gt_dec k (row_last r0)) as [Hle|Hgt].
  - exists 0%nat, r0. split; [reflexivity|lia].
  - destruct (IH _ _ k H4) as (i & r & Hi & Hr); [lia|].
    exists (S i), r. split; [exact Hi|exact Hr].
Qed.

Lemma active_not_inactive (dailyStats : gmap string DailyStats) (k : Z) :
  active dailyStats k -> inactive dailyStats k -> False.
Proof. unfold active, inactive. intros [x Hx] H. congruence. Qed.

Lemma day_inj (a b : Z) : day a = day b -> a = b.
Proof. intros H. apply (f_equal dayNum) in H. now rewrite !dayNum_day in H. Qed.

Section Runs.

Variable dailyStats : gmap string DailyStats.
Variables s e : Z.
Variable rows : list row.
Hypothesis rows_cover : covers s rows e.
Hypothesis rows_ok : Forall (row_ok dailyStats s e) rows.

Lemma row_ok_at (i : nat) (r : row) :
  rows !! i = Some r -> row_ok dailyStats s e r.
Proof.
  intros Hi. rewrite Forall_forall in rows_ok. apply rows_ok.
  eapply list_elem_of_lookup_2. exact Hi.
Qed.

(** A maximal run of days without entry is a Gap row. *)
Lemma run_is_row (a b : Z) :
  maximal_run dailyStats s e a b ->
  exists i : nat, rows !! i = Some (GapRow (day a) (day b) (b - a + 1)).
Proof.
  intros (Hsa & Hab & Hbe & Hin & Hl & Hr).
  destruct (covers_day rows s e a rows_cover) as (i & r & Hi & Hspan); [lia|].
  exists i. rewrite Hi. f_equal.
  pose proof (row_ok_at i r Hi) as Hok.
  destruct r as [d f ad de t|x y n]; simpl in Hok, Hspan.
  - destruct Hok as (k & stats & -> & _ & Hlook & _).
    rewrite dayNum_day in Hspan. assert (k = a) by lia. subst k.
    exfalso. apply (active_not_inactive dailyStats a).
    + unfold active. rewrite Hlook. eauto.
    + apply Hin. lia.
  - destruct Hok as (a' & b' & -> & -> & -> & Hrun').
    destruct Hrun' as (Hsa' & Hab' & Hbe' & Hin' & Hl' & Hr').
    rewrite !dayNum_day in Hspan.
    assert (a' = a).
    { destruct (Z.eq_dec a' a) as [|Hne]; [assumption|exfalso].
      destruct Hl as [->|Hact]; [lia|].
      apply (active_not_inactive dailyStats (a - 1) Hact). apply Hin'. lia. }
    subst a'.
    assert (b' = b).
    { destruct (Z_dec b' b) as [[Hlt|Hgt]|Heq]; [exfalso|exfalso|assumption].
      - destruct Hr' as [->|Hact]; [lia|].
        apply (active_not_inactive dailyStats (b' + 1) Hact). apply Hin. lia.
      - destruct Hr as [->|Hact]; [lia|].
        apply (active_not_inactive dailyStats (b + 1) Hact). apply Hin'. lia. }
    subst b'. reflexivity.
Qed.

(** A Gap row is a maximal run of days without entry. *)
Lemma row_is_run (i : nat) (x y : Time) (n : Z) :
  rows !! i = Some (GapRow x y n) ->
  exists a b, x = day a /\ y = day b /\ n = b - a + 1
              /\ maximal_run dailyStats s e a b.
Proof. intros Hi. exact (row_ok_at i _ Hi). Qed.

(** No row occurs twice. *)
Lemma row_once (i j : nat) (r : row) :
  rows !! i = Some r -> rows !! j = Some r -> i = j.
Proof.
  intros Hi Hj.
  destruct (covers_lookup _ _ _ _ _ rows_cover Hi) as (_ & Hfl & _).
  destruct (Nat.lt_total i j) as [Hlt|[Heq|Hgt]]; [exfalso|assumption|exfalso].
  - pose proof (covers_ascending _ _ _ _ _ _ _ rows_cover Hlt Hi Hj). lia.
  - pose proof (covers_ascending _ _ _ _ _ _ _ rows_cover Hgt Hj Hi). lia.
Qed.

(** After a Gap row that ends before the last day comes the Active row of
    the next day; a Gap row that ends on the last day is the last row. *)
Lemma gap_then_active (i : nat) (x y : Time) (n : Z) :
  rows !! i = Some (GapRow x y n) ->
  (dayNum y < e ->
   exists f ad de t,
     rows !! S i = Some (ActiveRow (day (dayNum y + 1)) f ad de t))
  /\ (dayNum y = e -> rows !! S i = None).
Proof.
  intros Hi.
  pose proof (covers_next _ _ _ _ _ rows_cover Hi) as Hnext.
  destruct (row_is_run _ _ _ _ Hi) as (a & b & -> & -> & -> & Hrun).
  destruct Hrun as (Hsa & Hab & Hbe & Hin & Hl & Hr).
  simpl in Hnext. rewrite dayNum_day in *.
  destruct (rows !! S i) as [r'|] eqn:Hi'.
  - pose proof (row_ok_at _ _ Hi') as Hok'.
    destruct (covers_lookup _ _ _ _ _ rows_cover Hi') as (_ & Hfl & Hle & _).
    split; [intros _|intros Heq; lia].
    destruct r' as [d f ad de t|x' y' n']; simpl in Hok', Hnext.
    + destruct Hok' as (k & stats & -> & _). rewrite dayNum_day in Hnext.
      subst k. eauto.
    + exfalso. destruct Hok' as (a' & b' & -> & -> & -> & Hrun').
      destruct Hrun' as (Hsa' & Hab' & Hbe' & Hin' & Hl' & Hr').
      rewrite dayNum_day in Hnext. subst a'.
      destruct Hl' as [Heq|Hact]; [lia|].
      replace (b + 1 - 1) with b in Hact by lia.
      apply (active_not_inactive dailyStats b Hact). apply Hin. lia.
  - split; [lia|reflexivity].
Qed.

(** Without any entry in the range the report is one Gap row. *)
Lemma no_entry_one_gap :
  s <= e ->
  (forall k, s <= k <= e -> inactive dailyStats k) ->
  rows = [GapRow (day s) (day e) (e - s + 1)].
Proof.
  intros Hse Hnone.
  destruct (run_is_row s e) as (i & Hi).
  { repeat split; auto; lia. }
  destruct (gap_then_active _ _ _ _ Hi) as (_ & Hlast).
  rewrite dayNum_day in Hlast. specialize (Hlast eq_refl).
  destruct i as [|i].
  - destruct rows as [|r0 [|r1 rs]]; simpl in *; try discriminate.
    congruence.
  - exfalso. destruct rows as [|r0 rs]; [discriminate|].
    pose proof (covers_ascending _ _ _ 0%nat (S i) r0 _ rows_cover
                  ltac:(lia) eq_refl Hi) as Hasc.
    destruct (covers_lookup _ _ _ 0%nat r0 rows_cover eq_refl) as (? & ? & _).
    simpl in Hasc. rewrite dayNum_day in Hasc. lia.
Qed.

(** With an entry for every day of the range the report has no Gap row. *)
Lemma all_entries_no_gap (r : row) :
  (forall k, s <= k <= e -> active dailyStats k) ->
  In r rows -> is_gap r = false.
Proof.
  intros Hall Hr. rewrite Forall_forall in rows_ok.
  apply list_elem_of_In in Hr.
  pose proof (rows_ok r Hr) as Hok.
  destruct r as [d f ad de t|x y n]; [reflexivity|exfalso].
  destruct Hok as (a & b & _ & _ & _ & Hsa & Hab & Hbe & Hin & _).
  apply (active_not_inactive dailyStats a); [apply Hall|apply Hin]; lia.
Qed.

End Runs.

End ReportFacts.

(** ** Strings and cells *)

Module StringFacts.

Local Open Scope string_scope.

Lemma app_cons (c : ascii) (s t : string) :
  String c s +:+ t = String c (s +:+ t).
Proof. reflexivity. Qed.

Lemma app_nil (t : string) : "" +:+ t = t.
Proof. reflexivity. Qed.

Lemma length_app (s t : string) :
  String.length (s +:+ t) = (String.length s + String.length t)%nat.
Proof. induction s as [|c s IH]; simpl; [reflexivity|now rewrite IH]. Qed.

Lemma length_spaces (n : nat) : String.length (spaces n) = n.
Proof.
  unfold spaces. induction n as [|n IH]; [reflexivity|].
  change (S (String.length (repeat_nat " " n)) = S n). now f_equal.
Qed.

Lemma length_dashes (n : nat) : String.length (repeat_nat "-" n) = n.
Proof.
  induction n as [|n IH]; [reflexivity|].
  change (S (String.length (repeat_nat "-" n)) = S n). now f_equal.
Qed.

Lemma length_substring (s : string) :
  forall n : nat, (n <= String.length s)%nat ->
  String.length (substring 0 n s) = n.
Proof.
  induction s as [|c s IH]; intros [|n] Hn; simpl in *; try reflexivity; try lia.
  rewrite IH; lia.
Qed.

Lemma app_assoc (s t u : string) : (s +:+ t) +:+ u = s +:+ (t +:+ u).
Proof.
  induction s as [|c s IH]; [reflexivity|].
  rewrite !app_cons. now f_equal.
Qed.

Lemma plain_app (s t : string) : plain (s +:+ t) = plain s && plain t.
Proof.
  induction s as [|c s IH]; [reflexivity|].
  rewrite app_cons. simpl. rewrite IH. now rewrite !andb_assoc.
Qed.

Lemma plain_spaces (n : nat) : plain (spaces n) = true.
Proof. unfold spaces. induction n as [|n IH]; [reflexivity|exact IH]. Qed.

Lemma plain_dashes (n : nat) : plain (repeat_nat "-" n) = true.
Proof. induction n as [|n IH]; [reflexivity|exact IH]. Qed.

Lemma plain_zeros (n : nat) : plain (repeat_nat "0" n) = true.
Proof. induction n as [|n IH]; [reflexivity|exact IH]. Qed.

Lemma plain_substring (s : string) :
  forall n : nat, plain s = true -> plain (substring 0 n s) = true.
Proof.
  induction s as [|c s IH]; intros [|n] H; simpl in *; try reflexivity.
  apply andb_prop in H as [H1 H2]. rewrite H1. simpl. now apply IH.
Qed.

Lemma plain_digit (d : Z) :
  (0 <= d < 10)%Z -> plain (String (digit_char d) "") = true.
Proof.
  intros H.
  assert (d = 0 \/ d = 1 \/ d = 2 \/ d = 3 \/ d = 4 \/ d = 5 \/ d = 6
          \/ d = 7 \/ d = 8 \/ d = 9)%Z as Hc by lia.
  repeat (destruct Hc as [->|Hc]); try subst d; reflexivity.
Qed.

Lemma plain_digits (fuel : nat) :
  forall (n : Z) (acc : string),
    plain acc = true -> plain (digits fuel n acc) = true.
Proof.
  induction fuel as [|fuel IH]; intros n acc Hacc; simpl; [exact Hacc|].
  assert (Hd : plain (String (digit_char (n mod 10)) acc) = true).
  { change (String (digit_char (n mod 10)) acc)
      with (String (digit_char (n mod 10)) "" +:+ acc).
    rewrite plain_app, Hacc, plain_digit; [reflexivity|].
    apply Z.mod_pos_bound. lia. }
  destruct (n <? 10)%Z; [exact Hd|]. apply IH. exact Hd.
Qed.

Lemma plain_utoa (n : Z) : plain (utoa n) = true.
Proof. apply plain_digits. reflexivity. Qed.

Lemma plain_fmt_d (n : Z) : plain (fmt_d n) = true.
Proof.
  unfold fmt_d. destruct (n <? 0)%Z; [|apply plain_utoa].
  rewrite plain_app, plain_utoa. reflexivity.
Qed.

Lemma plain_appendInt (x : Z) (w : nat) : plain (appendInt x w) = true.
Proof.
  unfold appendInt. rewrite !plain_app, plain_zeros, plain_utoa.
  destruct (x <? 0)%Z; reflexivity.
Qed.

Lemma plain_Format_date (t : Time) : plain (Format_date t) = true.
Proof.
  unfold Format_date. destruct (Date t) as [[y m] d].
  rewrite !plain_app, !plain_appendInt. reflexivity.
Qed.

Lemma plain_Format_month_day (t : Time) : plain (Format_month_day t) = true.
Proof.
  unfold Format_month_day. destruct (Date t) as [[y m] d].
  rewrite !plain_app, !plain_appendInt. reflexivity.
Qed.

Lemma plain_formatDateRange (a b : Time) : plain (formatDateRange a b) = true.
Proof.
  unfold formatDateRange.
  destruct (Year a =? Year b)%Z;
    rewrite !plain_app, plain_Format_date,
      ?plain_Format_month_day, ?plain_Format_date; reflexivity.
Qed.

Lemma plain_noChangeMessage (days : Z) : plain (noChangeMessage days) = true.
Proof.
  unfold noChangeMessage, days_tip.
  rewrite !plain_app, plain_fmt_d. destruct (days >? 1)%Z; reflexivity.
Qed.

(** A plain text has no separator and is all visible. *)
Lemma count_plain (s : string) : plain s = true -> count_char "|" s = 0%nat.
Proof.
  induction s as [|c s IH]; simpl; intros H; [reflexivity|].
  apply andb_prop in H as [H1 H2]. apply andb_prop in H1 as [_ H1].
  apply negb_true_iff in H1. rewrite H1. now apply IH.
Qed.

Lemma count_app (c : ascii) (s t : string) :
  count_char c (s +:+ t) = (count_char c s + count_char c t)%nat.
Proof.
  induction s as [|a s IH]; [reflexivity|].
  rewrite app_cons. simpl. rewrite IH. lia.
Qed.

Lemma strip_plain (s t : string) :
  plain s = true -> strip_ansi false (s +:+ t) = s +:+ strip_ansi false t.
Proof.
  induction s as [|c s IH]; intros H; [reflexivity|].
  rewrite !app_cons. simpl in *.
  apply andb_prop in H as [H1 H2]. apply andb_prop in H1 as [H1 _].
  apply negb_true_iff in H1. rewrite H1. now rewrite IH.
Qed.

Lemma length_digits (fuel : nat) :
  forall (n : Z) (acc : string),
    (String.length (digits fuel n acc) <= fuel + String.length acc)%nat.
Proof.
  induction fuel as [|fuel IH]; intros n acc; simpl; [lia|].
  destruct (n <? 10)%Z; simpl; [lia|].
  specialize (IH (n / 10)%Z (String (digit_char (n mod 10)) acc)).
  simpl in IH. lia.
Qed.

Lemma length_utoa (n : Z) : (String.length (utoa n) <= 20)%nat.
Proof.
  unfold utoa. pose proof (length_digits 20 n "") as H.
  change (String.length "") with 0%nat in H. lia.
Qed.

Lemma length_fmt_d (n : Z) : (String.length (fmt_d n) <= 21)%nat.
Proof.
  unfold fmt_d. pose proof (length_utoa n). pose proof (length_utoa (- n)).
  destruct (n <? 0)%Z; [rewrite length_app|]; 
    change (String.length "-") with 1%nat; lia.
Qed.

Lemma length_noChangeMessage (days : Z) :
  (String.length (noChangeMessage days) <= 37)%nat.
Proof.
  unfold noChangeMessage, days_tip. rewrite !length_app.
  pose proof (length_fmt_d days).
  destruct (days >? 1)%Z;
    change (String.length " ") with 1%nat;
    change (String.length "days") with 4%nat;
    change (String.length "day") with 3%nat;
    change (String.length " no commits") with 11%nat; lia.
Qed.

(** What [padText] and [centerText] return for a width that is not
    negative: they do not panic. *)
Lemma padText_value (text : string) (width : nat) :
  padText text (Z.of_nat width) = Some (pad_cell text width).
Proof.
  unfold pad_cell, padText, slice_to, Repeat, len.
  destruct (Nat.leb_spec width (String.length text)) as [Hle|Hgt].
  - destruct (Z.geb_spec (Z.of_nat (String.length text)) (Z.of_nat width)); [|lia].
    destruct (Z.leb_spec 0 (Z.of_nat width)); [|lia].
    destruct (Z.leb_spec (Z.of_nat width) (Z.of_nat (String.length text))); [|lia].
    simpl. now rewrite Nat2Z.id.
  - destruct (Z.geb_spec (Z.of_nat (String.length text)) (Z.of_nat width)); [lia|].
    destruct (Z.ltb_spec (Z.of_nat width - Z.of_nat (String.length text)) 0); [lia|].
    simpl. unfold spaces. do 3 f_equal. lia.
Qed.

Lemma centerText_value (text : string) (width : nat) :
  centerText text (Z.of_nat width) = Some (centre_cell text width).
Proof.
  unfold centre_cell, centerText, slice_to, Repeat, len.
  destruct (Nat.leb_spec width (String.length text)) as [Hle|Hgt].
  - destruct (Z.geb_spec (Z.of_nat (String.length text)) (Z.of_nat width)); [|lia].
    destruct (Z.leb_spec 0 (Z.of_nat width)); [|lia].
    destruct (Z.leb_spec (Z.of_nat width) (Z.of_nat (String.length text))); [|lia].
    simpl. now rewrite Nat2Z.id.
  - destruct (Z.geb_spec (Z.of_nat (String.length text)) (Z.of_nat width)); [lia|].
    set (gap := (Z.of_nat width - Z.of_nat (String.length text))%Z).
    assert (Hgap : gap = Z.of_nat (width - String.length text)) by (subst gap; lia).
    assert (Hq : (gap ÷ 2)%Z = Z.of_nat ((width - String.length text) / 2)).
    { rewrite Hgap, Z.quot_div_nonneg by lia.
      now rewrite Nat2Z.inj_div. }
    rewrite Hq.
    pose proof (Nat.div_mod_eq (width - String.length text) 2) as Hdm.
    pose proof (Nat.mod_upper_bound (width - String.length text) 2 ltac:(lia)).
    destruct (Z.ltb_spec (Z.of_nat ((width - String.length text) / 2)) 0); [lia|].
    destruct (Z.ltb_spec
                (gap - Z.of_nat ((width - String.length text) / 2)) 0); [lia|].
    simpl. unfold spaces. rewrite Nat2Z.id. do 4 f_equal. lia.
Qed.

Lemma pad_cell_length (text : string) (width : nat) :
  String.length (pad_cell text width) = width.
Proof.
  unfold pad_cell. destruct (Nat.leb_spec width (String.length text)).
  - now apply length_substring.
  - rewrite length_app, length_spaces. lia.
Qed.

Lemma centre_cell_length (text : string) (width : nat) :
  String.length (centre_cell text width) = width.
Proof.
  unfold centre_cell. destruct (Nat.leb_spec width (String.length text)).
  - now apply length_substring.
  - rewrite !length_app, !length_spaces.
    pose proof (Nat.div_mod_eq (width - String.length text) 2).
    pose proof (Nat.mod_upper_bound (width - String.length text) 2 ltac:(lia)).
    lia.
Qed.

Lemma pad_cell_plain (text : string) (width : nat) :
  plain text = true -> plain (pad_cell text width) = true.
Proof.
  intros Hp. unfold pad_cell. destruct (width <=? String.length text)%nat.
  - now apply plain_substring.
  - now rewrite plain_app, Hp, plain_spaces.
Qed.

Lemma centre_cell_plain (text : string) (width : nat) :
  plain text = true -> plain (centre_cell text width) = true.
Proof.
  intros Hp. unfold centre_cell. destruct (width <=? String.length text)%nat.
  - now apply plain_substring.
  - now rewrite !plain_app, Hp, !plain_spaces.
Qed.

(** A text shorter than the width is centred by [centerText] and put at
    the left by [padText]; any other text is cut to the width. *)
Lemma centre_cell_spec (text : string) (width : nat) :
  centred_or_cut text width (centre_cell text width).
Proof.
  split; [apply centre_cell_length|]. unfold centre_cell.
  destruct (Nat.ltb_spec (String.length text) width) as [Hlt|Hge];
    destruct (Nat.leb_spec width (String.length text)); try lia.
  - exists ((width - String.length text) / 2)%nat,
           (width - String.length text - (width - String.length text) / 2)%nat.
    pose proof (Nat.div_mod_eq (width - String.length text) 2).
    pose proof (Nat.mod_upper_bound (width - String.length text) 2 ltac:(lia)).
    split; [reflexivity|]. split; lia.
  - reflexivity.
Qed.

Lemma pad_cell_spec (text : string) (width : nat) :
  left_or_cut text width (pad_cell text width).
Proof.
  split; [apply pad_cell_length|]. unfold pad_cell.
  destruct (Nat.ltb_spec (String.length text) width) as [Hlt|Hge];
    destruct (Nat.leb_spec width (String.length text)); try lia; reflexivity.
Qed.

Lemma strip_plain_end (s : string) :
  plain s = true -> strip_ansi false s = s.
Proof.
  induction s as [|c s IH]; intros H; [reflexivity|]. simpl in *.
  apply andb_prop in H as [H1 H2]. apply andb_prop in H1 as [H1 _].
  apply negb_true_iff in H1. rewrite H1. now rewrite IH.
Qed.

Lemma strip_bar (t : string) :
  strip_ansi false ("|" +:+ t) = String "|" (strip_ansi false t).
Proof. reflexivity. Qed.

Lemma strip_orange (t : string) :
  strip_ansi false (colorOrange +:+ t) = strip_ansi false t.
Proof. reflexivity. Qed.

Lemma strip_reset (t : string) :
  strip_ansi false (colorReset +:+ t) = strip_ansi false t.
Proof. reflexivity. Qed.

Lemma strip_reset_end : strip_ansi false colorReset = "".
Proof. reflexivity. Qed.

Lemma count_orange (t : string) :
  count_char "|" (colorOrange +:+ t) = count_char "|" t.
Proof. reflexivity. Qed.

Lemma count_reset (t : string) :
  count_char "|" (colorReset +:+ t) = count_char "|" t.
Proof. reflexivity. Qed.

Lemma count_bar (t : string) :
  count_char "|" ("|" +:+ t) = S (count_char "|" t).
Proof. reflexivity. Qed.

(** ** What the print functions write *)

Lemma Repeat_rule : Repeat "-" totalWidth = Some rule.
Proof. reflexivity. Qed.

Lemma printTableHeader_value :
  printTableHeader =
  Some [centre_cell "Date Range" 25 +:+ "|"
        +:+ centre_cell "Files Changed" 15 +:+ "|"
        +:+ centre_cell "Additions" 11 +:+ "|"
        +:+ centre_cell "Deletions" 11 +:+ "|"
        +:+ centre_cell "Total Changes" 15 +:+ nl;
        rule +:+ nl].
Proof. reflexivity. Qed.

Lemma printTableRow_value (dateRange : string)
    (filesChanged additions deletions totalChanges : Z) :
  printTableRow dateRange filesChanged additions deletions totalChanges =
  Some [pad_cell dateRange 25 +:+ "|"
        +:+ centre_cell (fmt_d filesChanged) 15 +:+ "|"
        +:+ centre_cell (fmt_d additions) 11 +:+ "|"
        +:+ centre_cell (fmt_d deletions) 11 +:+ "|"
        +:+ centre_cell (fmt_d totalChanges) 15 +:+ nl;
        rule +:+ nl].
Proof.
  unfold printTableRow.
  change dateRangeWidth with (Z.of_nat 25).
  change filesChangedWidth with (Z.of_nat 15).
  change additionsWidth with (Z.of_nat 11).
  change deletionsWidth with (Z.of_nat 11).
  change totalChangesWidth with (Z.of_nat 15).
  rewrite padText_value, !centerText_value, Repeat_rule. reflexivity.
Qed.

Lemma printNoChangeRow_value (dateRange : string) (days : Z) :
  printNoChangeRow dateRange days =
  Some [colorOrange +:+ rule +:+ colorReset +:+ nl;
        colorOrange +:+ pad_cell dateRange 25 +:+ colorReset +:+ "|"
          +:+ colorOrange +:+ centre_cell (noChangeMessage days) 55
          +:+ colorReset +:+ nl;
        rule +:+ nl].
Proof.
  unfold printNoChangeRow. cbv zeta.
  change (totalWidth - dateRangeWidth - 1)%Z with (Z.of_nat 55).
  change dateRangeWidth with (Z.of_nat 25).
  rewrite padText_value, centerText_value, Repeat_rule. reflexivity.
Qed.

(** The month and day of a time are written with two digits each. *)
Lemma length_appendInt2_check :
  Calendar.all_from 100 0
    (fun x => Nat.eqb (String.length (appendInt x 2)) 2) = true.
Proof. vm_compute. reflexivity. Qed.

Lemma length_appendInt2 (x : Z) :
  (0 <= x < 100)%Z -> String.length (appendInt x 2) = 2%nat.
Proof.
  intros Hx. apply Nat.eqb_eq.
  apply (CalendarFacts.all_from_spec _ _ 0%Z length_appendInt2_check). lia.
Qed.

Lemma daysIn_le_31 (m y : Z) : (1 <= m <= 12)%Z -> (daysIn m y <= 31)%Z.
Proof.
  intros Hm. unfold daysIn. destruct ((m =? 2)%Z && isLeap y); [lia|].
  assert (m = 1 \/ m = 2 \/ m = 3 \/ m = 4 \/ m = 5 \/ m = 6 \/ m = 7
          \/ m = 8 \/ m = 9 \/ m = 10 \/ m = 11 \/ m = 12)%Z as Hc by lia.
  repeat (destruct Hc as [->|Hc]); try subst m; simpl; lia.
Qed.

Lemma length_Format_month_day (t : Time) :
  String.length (Format_month_day t) = 5%nat.
Proof.
  unfold Format_month_day, Date.
  pose proof (CalendarFacts.civil_dateToDays (localDays t)) as H.
  destruct (civil (localDays t)) as [[y m] d]. destruct H as (_ & Hm & Hd).
  pose proof (daysIn_le_31 m y Hm).
  rewrite !length_app, !length_appendInt2 by lia. reflexivity.
Qed.

Lemma Format_date_month_day (t : Time) :
  Format_date t = appendInt (Year t) 4 +:+ "-" +:+ Format_month_day t.
Proof.
  unfold Format_date, Format_month_day, Year.
  destruct (Date t) as [[y m] d]. reflexivity.
Qed.

End StringFacts.

(** ** The report covers the range *)

(** The rows of a report of accepted dates cover the range, and each row
    says what the index says. *)
Lemma report_of_dates (dailyStats : gmap string DailyStats)
    (startStr endStr : string) (startDate endDate : Time) (fuel : nat) :
  parseDate startStr = Ok startDate ->
  parseDate endStr = Ok endDate ->
  Before endDate startDate = false ->
  (enough startDate endDate <= fuel)%nat ->
  exists s e rows,
    startDate = day s /\ endDate = day e /\ s <= e
    /\ report fuel dailyStats startDate endDate = Some rows
    /\ covers s rows e
    /\ Forall (row_ok dailyStats s e) rows.
Proof.
  intros Hs He Hord Hfuel.
  apply parseDate_day in Hs as (s & -> & Hs), He as (e & -> & He).
  rewrite Before_day in Hord. apply Z.ltb_ge in Hord.
  unfold enough in Hfuel. rewrite !dayNum_day in Hfuel.
  destruct (ReportFacts.report_rows dailyStats s e) with (fuel := fuel)
    as (rows & Hrep & Hcov & Hok); [unfold int_max; lia | lia | lia |].
  exists s, e, rows. repeat split; assumption.
Qed.

(** C2: for every range of accepted dates with [startDate <= endDate] and
    every index, the loop ends and its rows partition the range: counting an
    Active row as one day and a Gap row as its day count, the total is
    [(endDate - startDate)] in days plus one; the first row starts on
    [startDate], every row starts the day after the one before it ends, the
    last ends on [endDate] ([covers]), so that the spans are strictly
    ascending, do not overlap, and leave no day of the range out. *)
Theorem rows_partition_range (dailyStats : gmap string DailyStats)
    (startStr endStr : string) (startDate endDate : Time) (fuel : nat) :
  parseDate startStr = Ok startDate ->
  parseDate endStr = Ok endDate ->
  Before endDate startDate = false ->
  (enough startDate endDate <= fuel)%nat ->
  exists rows,
    report fuel dailyStats startDate endDate = Some rows
    /\ total_days rows = dayNum endDate - dayNum startDate + 1
    /\ covers (dayNum startDate) rows (dayNum endDate)
    /\ (forall (i j : nat) ri rj,
          (i < j)%nat -> rows !! i = Some ri -> rows !! j = Some rj ->
          row_last ri < row_first rj)
    /\ (forall (i : nat) r,
          rows !! i = Some r ->
          dayNum startDate <= row_first r /\ row_first r <= row_last r
          /\ row_last r <= dayNum endDate
          /\ row_days r = row_last r - row_first r + 1)
    /\ (forall k,
          dayNum startDate <= k <= dayNum endDate ->
          exists (i : nat) r,
            rows !! i = Some r /\ row_first r <= k <= row_last r).
Proof.
  intros Hs He Hord Hfuel.
  destruct (report_of_dates dailyStats _ _ _ _ _ Hs He Hord Hfuel)
    as (s & e & rows & -> & -> & Hse & Hrep & Hcov & Hok).
  exists rows. rewrite !dayNum_day.
  split; [exact Hrep|].
  split; [exact (ReportFacts.covers_total _ _ _ Hcov)|].
  split; [exact Hcov|].
  split; [intros i j ri rj; exact (ReportFacts.covers_ascending _ _ _ _ _ _ _ Hcov)|].
  split; [intros i r; exact (ReportFacts.covers_lookup _ _ _ _ _ Hcov)|].
  intros k. exact (ReportFacts.covers_day _ _ _ _ Hcov).
Qed.

Lemma rows_partition_range_witness :
  exists rows,
    report 3 Scenario.index1 (day 738761) (day 738763) = Some rows
    /\ total_days rows = 3.
Proof.
  destruct (rows_partition_range Scenario.index1 "2023-08-30" "2023-09-01"
              (day 738761) (day 738763) 3)
    as (rows & Hrep & Htot & _);
    [reflexivity | reflexivity | reflexivity | vm_compute; lia |].
  exists rows. split; [exact Hrep|]. rewrite Htot. reflexivity.
Defined.

(** C3: the rows of the report collapse each maximal run of days without
    entry into exactly one Gap row.  The Gap rows are the maximal runs (each
    run is a row, each Gap row is a run with its day count) and no row occurs
    twice; a Gap row that ends before [endDate] ends the day before an active
    day [d] and is followed at once by the Active row of [d], a Gap row that
    ends on [endDate] is the last row; a range without any entry gives the
    single Gap row of the whole range, a range with an entry for every day
    gives no Gap row. *)
Theorem gaps_are_maximal_runs (dailyStats : gmap string DailyStats)
    (startStr endStr : string) (startDate endDate : Time) (fuel : nat) :
  parseDate startStr = Ok startDate ->
  parseDate endStr = Ok endDate ->
  Before endDate startDate = false ->
  (enough startDate endDate <= fuel)%nat ->
  let s := dayNum startDate in
  let e := dayNum endDate in
  exists rows,
    report fuel dailyStats startDate endDate = Some rows
    /\ (forall a b,
          maximal_run dailyStats s e a b ->
          exists i : nat, rows !! i = Some (GapRow (day a) (day b) (b - a + 1)))
    /\ (forall (i : nat) x y n,
          rows !! i = Some (GapRow x y n) ->
          exists a b, x = day a /\ y = day b /\ n = b - a + 1
                      /\ maximal_run dailyStats s e a b)
    /\ (forall (i j : nat) r,
          rows !! i = Some r -> rows !! j = Some r -> i = j)
    /\ (forall (i : nat) x y n,
          rows !! i = Some (GapRow x y n) ->
          (dayNum y < e ->
           active dailyStats (dayNum y + 1)
           /\ exists f ad de t,
                rows !! S i = Some (ActiveRow (day (dayNum y + 1)) f ad de t))
          /\ (dayNum y = e -> rows !! S i = None))
    /\ ((forall k, s <= k <= e -> inactive dailyStats k) ->
        rows = [GapRow startDate endDate (e - s + 1)])
    /\ ((forall k, s <= k <= e -> active dailyStats k) ->
        forall r, In r rows -> is_gap r = false).
Proof.
  intros Hs He Hord Hfuel.
  destruct (report_of_dates dailyStats _ _ _ _ _ Hs He Hord Hfuel)
    as (s0 & e0 & rows & -> & -> & Hse & Hrep & Hcov & Hok).
  rewrite !dayNum_day. cbv zeta.
  exists rows.
  split; [exact Hrep|].
  split; [exact (ReportFacts.run_is_row dailyStats s0 e0 rows Hcov Hok)|].
  split; [exact (ReportFacts.row_is_run dailyStats s0 e0 rows Hok)|].
  split; [exact (ReportFacts.row_once s0 e0 rows Hcov)|].
  split.
  { intros i x y n Hi.
    destruct (ReportFacts.gap_then_active dailyStats s0 e0 rows Hcov Hok i x y n Hi)
      as (Hnext & Hlast).
    split; [|exact Hlast].
    intros Hlt. destruct (Hnext Hlt) as (f & ad & de & t & Hrow).
    split; [|eauto].
    pose proof (ReportFacts.row_ok_at dailyStats s0 e0 rows Hok _ _ Hrow) as Hact.
    destruct Hact as (k & stats & Hk & _ & Hlook & _).
    apply ReportFacts.day_inj in Hk. subst k.
    unfold active. rewrite Hlook. eauto. }
  split.
  - exact (ReportFacts.no_entry_one_gap dailyStats s0 e0 rows Hcov Hok Hse).
  - intros Hall r. exact (ReportFacts.all_entries_no_gap dailyStats s0 e0 rows Hok r Hall).
Qed.

Lemma gaps_are_maximal_runs_witness :
  exists rows,
    report 3 Scenario.index1 (day 738761) (day 738763) = Some rows
    /\ exists i : nat,
         rows !! i = Some (GapRow (day 738762) (day 738762) 1).
Proof.
  destruct (gaps_are_maximal_runs Scenario.index1 "2023-08-30" "2023-09-01"
              (day 738761) (day 738763) 3)
    as (rows & Hrep & Hrun & _);
    [reflexivity | reflexivity | reflexivity | vm_compute; lia |].
  exists rows. split; [exact Hrep|].
  apply (Hrun 738762 738762).
  unfold maximal_run, inactive, active.
  rewrite !dayNum_day.
  repeat split; try lia.
  - intros k Hk. assert (k = 738762) as -> by lia.
    vm_compute. reflexivity.
  - right. vm_compute. eauto.
  - right. vm_compute. eauto.
Defined.

(** ** Rows as printed *)

(** Every Gap row of a report stands for at least one day. *)
Lemma gap_row_days (dailyStats : gmap string DailyStats) (s e : Z)
    (rows : list row) (x y : Time) (n : Z) :
  Forall (row_ok dailyStats s e) rows ->
  In (GapRow x y n) rows ->
  1 <= n /\ (n = 1 -> x = y).
Proof.
  intros Hok Hin. rewrite Forall_forall in Hok.
  apply list_elem_of_In in Hin. apply Hok in Hin.
  destruct Hin as (a & b & -> & -> & -> & _ & Hab & _).
  split; [lia|]. intros H1. f_equal. lia.
Qed.

(** C4: in every Gap row of a report the message has the singular "day"
    exactly when the day count is 1 and the plural "days" otherwise (the
    count of a Gap row is at least 1), and it is what the row prints in its
    second cell; a range of one day without entry gives exactly one Gap row,
    of 1 day, with the message "1 day no commits". *)
Theorem gap_message_day_or_days (dailyStats : gmap string DailyStats)
    (startStr endStr : string) (startDate endDate : Time) (fuel : nat) :
  parseDate startStr = Ok startDate ->
  parseDate endStr = Ok endDate ->
  Before endDate startDate = false ->
  (enough startDate endDate <= fuel)%nat ->
  exists rows,
    report fuel dailyStats startDate endDate = Some rows
    /\ (forall x y n,
          In (GapRow x y n) rows ->
          1 <= n
          /\ noChangeMessage n =
             fmt_d n +:+ (if n =? 1 then " day no commits"%string
                          else " days no commits"%string)
          /\ exists top cell bottom,
               printRow (GapRow x y n) =
               Some [top;
                     colorOrange +:+ cell +:+ colorReset +:+ "|"
                       +:+ colorOrange +:+ centre_cell (noChangeMessage n) 55
                       +:+ colorReset +:+ nl;
                     bottom]
               /\ centred (noChangeMessage n) 55
                          (centre_cell (noChangeMessage n) 55))
    /\ (startDate = endDate ->
        dailyStats !! Format_date startDate = None ->
        rows = [GapRow startDate endDate 1]
        /\ noChangeMessage 1 = "1 day no commits"%string).
Proof.
  intros Hs He Hord Hfuel.
  destruct (report_of_dates dailyStats _ _ _ _ _ Hs He Hord Hfuel)
    as (s & e & rows & -> & -> & Hse & Hrep & Hcov & Hok).
  exists rows. split; [exact Hrep|]. split.
  - intros x y n Hin.
    destruct (gap_row_days _ _ _ _ _ _ _ Hok Hin) as (Hn & _).
    split; [exact Hn|]. split.
    + unfold noChangeMessage, days_tip.
      destruct (Z.gtb_spec n 1), (Z.eqb_spec n 1); try lia; reflexivity.
    + simpl. rewrite StringFacts.printNoChangeRow_value.
      do 3 eexists. split; [reflexivity|].
      pose proof (StringFacts.centre_cell_spec (noChangeMessage n) 55) as [_ Hc].
      pose proof (StringFacts.length_noChangeMessage n) as Hlen.
      destruct (Nat.ltb_spec (String.length (noChangeMessage n)) 55); [exact Hc|lia].
  - intros Heq Hnone. apply ReportFacts.day_inj in Heq. subst e.
    split; [|reflexivity].
    rewrite (ReportFacts.no_entry_one_gap dailyStats s s rows Hcov Hok Hse).
    + do 2 f_equal. lia.
    + intros k Hk. assert (k = s) as -> by lia. exact Hnone.
Qed.

Lemma gap_message_day_or_days_witness :
  report 1 ∅ (day 738644) (day 738644) = Some [GapRow (day 738644) (day 738644) 1]
  /\ noChangeMessage 1 = "1 day no commits"%string.
Proof.
  destruct (gap_message_day_or_days ∅ "2023-05-05" "2023-05-05"
              (day 738644) (day 738644) 1)
    as (rows & Hrep & _ & Hone);
    [reflexivity | reflexivity | reflexivity | vm_compute; lia |].
  destruct (Hone eq_refl) as (Hrows & Hmsg); [apply lookup_empty|].
  rewrite Hrows in Hrep. split; [exact Hrep|exact Hmsg].
Defined.

(** C5: the label of a Gap row is [formatDateRange] of its first and last
    day: the first day in full, " ~ ", and the last day, written as month
    and day ("MM-DD", five bytes, the full date without its year) exactly
    when both days are of the same year and in full otherwise; so a Gap of
    a single day is labelled by the same function with start = end, and the
    range 2023-01-01..2023-01-03 is labelled "2023-01-01 ~ 01-03". *)
Theorem gap_label_range (startDate endDate : Time) (days : Z) :
  formatDateRange startDate endDate =
    Format_date startDate +:+ " ~ "
    +:+ (if Year startDate =? Year endDate
         then Format_month_day endDate
         else Format_date endDate)
  /\ Format_date endDate =
       (appendInt (Year endDate) 4 +:+ "-" +:+ Format_month_day endDate)%string
  /\ String.length (Format_month_day endDate) = 5%nat
  /\ printRow (GapRow startDate endDate days) =
       printNoChangeRow (formatDateRange startDate endDate) days
  /\ formatDateRange startDate startDate =
       (Format_date startDate +:+ " ~ " +:+ Format_month_day startDate)%string
  /\ formatDateRange (day 738520) (day 738522) = "2023-01-01 ~ 01-03"%string
  /\ formatDateRange (day 738520) (day 738885) = "2023-01-01 ~ 2024-01-01"%string
  /\ formatDateRange (day 738520) (day 738520) = "2023-01-01 ~ 01-01"%string.
Proof.
  split.
  { unfold formatDateRange. destruct (Year startDate =? Year endDate); reflexivity. }
  split; [apply StringFacts.Format_date_month_day|].
  split; [apply StringFacts.length_Format_month_day|].
  split; [reflexivity|].
  split.
  { unfold formatDateRange. rewrite Z.eqb_refl. reflexivity. }
  repeat split; vm_compute; reflexivity.
Qed.

Lemma rule_line_ok : line_ok (rule +:+ nl).
Proof. exists rule. split; reflexivity. Qed.

Lemma orange_rule_line_ok : line_ok (colorOrange +:+ rule +:+ colorReset +:+ nl).
Proof.
  exists (colorOrange +:+ rule +:+ colorReset)%string. split; reflexivity.
Qed.

Lemma table_line_ok (c1 c2 c3 c4 c5 : string) :
  plain c1 = true -> plain c2 = true -> plain c3 = true ->
  plain c4 = true -> plain c5 = true ->
  String.length c1 = 25%nat -> String.length c2 = 15%nat ->
  String.length c3 = 11%nat -> String.length c4 = 11%nat ->
  String.length c5 = 15%nat ->
  line_ok (c1 +:+ "|" +:+ c2 +:+ "|" +:+ c3 +:+ "|" +:+ c4 +:+ "|" +:+ c5 +:+ nl).
Proof.
  intros P1 P2 P3 P4 P5 L1 L2 L3 L4 L5.
  exists (c1 +:+ "|" +:+ c2 +:+ "|" +:+ c3 +:+ "|" +:+ c4 +:+ "|" +:+ c5)%string.
  split; [now rewrite !StringFacts.app_assoc|].
  unfold visible_width.
  rewrite (StringFacts.strip_plain c1), StringFacts.strip_bar by assumption.
  rewrite (StringFacts.strip_plain c2), StringFacts.strip_bar by assumption.
  rewrite (StringFacts.strip_plain c3), StringFacts.strip_bar by assumption.
  rewrite (StringFacts.strip_plain c4), StringFacts.strip_bar by assumption.
  rewrite (StringFacts.strip_plain_end c5) by assumption.
  rewrite StringFacts.length_app, L1. simpl String.length.
  rewrite StringFacts.length_app, L2. simpl String.length.
  rewrite StringFacts.length_app, L3. simpl String.length.
  rewrite StringFacts.length_app, L4. simpl String.length.
  rewrite L5. reflexivity.
Qed.

Lemma gap_line_ok (c1 c2 : string) :
  plain c1 = true -> plain c2 = true ->
  String.length c1 = 25%nat -> String.length c2 = 55%nat ->
  line_ok (colorOrange +:+ c1 +:+ colorReset +:+ "|"
           +:+ colorOrange +:+ c2 +:+ colorReset +:+ nl)
  /\ count_char "|" (colorOrange +:+ c1 +:+ colorReset +:+ "|"
                     +:+ colorOrange +:+ c2 +:+ colorReset +:+ nl) = 1%nat.
Proof.
  intros P1 P2 L1 L2. split.
  - exists (colorOrange +:+ c1 +:+ colorReset +:+ "|"
            +:+ colorOrange +:+ c2 +:+ colorReset)%string.
    split; [now rewrite !StringFacts.app_assoc|].
    unfold visible_width.
    rewrite StringFacts.strip_orange, (StringFacts.strip_plain c1) by assumption.
    rewrite StringFacts.strip_reset, StringFacts.strip_bar.
    rewrite StringFacts.strip_orange, (StringFacts.strip_plain c2) by assumption.
    rewrite StringFacts.strip_reset_end.
    rewrite StringFacts.length_app, L1. simpl String.length.
    rewrite StringFacts.length_app, L2. reflexivity.
  - rewrite StringFacts.count_orange, StringFacts.count_app.
    rewrite (StringFacts.count_plain c1) by assumption.
    rewrite StringFacts.count_reset, StringFacts.count_bar.
    rewrite StringFacts.count_orange, StringFacts.count_app.
    rewrite (StringFacts.count_plain c2) by assumption. reflexivity.
Qed.

(** C10: every line the program writes has 81 visible columns (25 + 15 +
    11 + 11 + 15 and 4 separators), the ANSI colour sequences not counted:
    the two lines of the header, the two lines of an Active row and the
    three lines of a Gap row; the text line of a Gap row has exactly one
    column separator, between the date cell of width 25 and one merged cell
    of width 81 - 25 - 1 = 55 in which the message is centred. *)
Theorem lines_have_81_columns (r : row) (startDate endDate : Time) (days : Z) :
  (exists out, printTableHeader = Some out /\ Forall line_ok out)
  /\ (exists out, printRow r = Some out /\ Forall line_ok out)
  /\ totalWidth = 81 /\ totalWidth - dateRangeWidth - 1 = 55
  /\ exists top cell message bottom,
       printRow (GapRow startDate endDate days) =
       Some [top;
             colorOrange +:+ cell +:+ colorReset +:+ "|"
               +:+ colorOrange +:+ message +:+ colorReset +:+ nl;
             bottom]
       /\ count_char "|" (colorOrange +:+ cell +:+ colorReset +:+ "|"
                          +:+ colorOrange +:+ message +:+ colorReset +:+ nl)
          = 1%nat
       /\ String.length cell = 25%nat
       /\ String.length message = 55%nat
       /\ centred (noChangeMessage days) 55 message.
Proof.
  assert (Hgap : forall x y n,
    let cell := pad_cell (formatDateRange x y) 25 in
    let message := centre_cell (noChangeMessage n) 55 in
    plain cell = true /\ plain message = true
    /\ String.length cell = 25%nat /\ String.length message = 55%nat).
  { intros x y n. cbv zeta.
    split; [apply StringFacts.pad_cell_plain, StringFacts.plain_formatDateRange|].
    split; [apply StringFacts.centre_cell_plain, StringFacts.plain_noChangeMessage|].
    split; [apply StringFacts.pad_cell_length|apply StringFacts.centre_cell_length]. }
  split.
  { rewrite StringFacts.printTableHeader_value. eexists. split; [reflexivity|].
    repeat constructor; [|apply rule_line_ok].
    apply table_line_ok;
      first [apply StringFacts.centre_cell_length
            | apply StringFacts.centre_cell_plain; reflexivity]. }
  split.
  { destruct r as [d f a de t|x y n]; simpl.
    - rewrite StringFacts.printTableRow_value. eexists. split; [reflexivity|].
      repeat constructor; [|apply rule_line_ok].
      apply table_line_ok;
        first [apply StringFacts.centre_cell_length
              | apply StringFacts.pad_cell_length
              | apply StringFacts.centre_cell_plain, StringFacts.plain_fmt_d
              | apply StringFacts.pad_cell_plain, StringFacts.plain_Format_date].
    - rewrite StringFacts.printNoChangeRow_value. eexists. split; [reflexivity|].
      destruct (Hgap x y n) as (P1 & P2 & L1 & L2).
      repeat constructor;
        [apply orange_rule_line_ok | | apply rule_line_ok].
      apply (gap_line_ok _ _ P1 P2 L1 L2). }
  split; [reflexivity|]. split; [reflexivity|].
  simpl. rewrite StringFacts.printNoChangeRow_value.
  destruct (Hgap startDate endDate days) as (P1 & P2 & L1 & L2).
  do 4 eexists. split; [reflexivity|].
  split; [apply (gap_line_ok _ _ P1 P2 L1 L2)|].
  split; [exact L1|]. split; [exact L2|].
  pose proof (StringFacts.centre_cell_spec (noChangeMessage days) 55) as [_ Hc].
  pose proof (StringFacts.length_noChangeMessage days) as Hlen.
  destruct (Nat.ltb_spec (String.length (noChangeMessage days)) 55); [exact Hc|lia].
Qed.

(** C8, as the code has it: in the header and in every Active row the five
    cells have the widths 25, 15, 11, 11 and 15 and are joined by the one
    byte "|"; the five header cells and the four numeric cells are centred
    in their widths; the date cell of an Active row has its text at the left
    and the spaces after it; a text as long as the width of its cell or
    longer is cut to exactly that width. *)
Theorem table_cells (dateRange : string)
    (filesChanged additions deletions totalChanges : Z) :
  (exists c1 c2 c3 c4 c5,
     printTableHeader =
     Some [c1 +:+ "|" +:+ c2 +:+ "|" +:+ c3 +:+ "|" +:+ c4 +:+ "|" +:+ c5 +:+ nl;
           rule +:+ nl]
     /\ String.length c1 = 25%nat /\ centred "Date Range" 25 c1
     /\ String.length c2 = 15%nat /\ centred "Files Changed" 15 c2
     /\ String.length c3 = 11%nat /\ centred "Additions" 11 c3
     /\ String.length c4 = 11%nat /\ centred "Deletions" 11 c4
     /\ String.length c5 = 15%nat /\ centred "Total Changes" 15 c5)
  /\ (exists c1 c2 c3 c4 c5,
        printTableRow dateRange filesChanged additions deletions totalChanges =
        Some [c1 +:+ "|" +:+ c2 +:+ "|" +:+ c3 +:+ "|" +:+ c4 +:+ "|" +:+ c5 +:+ nl;
              rule +:+ nl]
        /\ left_or_cut dateRange 25 c1
        /\ centred_or_cut (fmt_d filesChanged) 15 c2
        /\ centred_or_cut (fmt_d additions) 11 c3
        /\ centred_or_cut (fmt_d deletions) 11 c4
        /\ centred_or_cut (fmt_d totalChanges) 15 c5)
  /\ dateRangeWidth = 25 /\ filesChangedWidth = 15 /\ additionsWidth = 11
  /\ deletionsWidth = 11 /\ totalChangesWidth = 15.
Proof.
  split.
  { rewrite StringFacts.printTableHeader_value.
    do 5 eexists. split; [reflexivity|].
    repeat split;
      try apply StringFacts.centre_cell_length;
      match goal with
      | |- centred ?t ?w _ =>
          pose proof (StringFacts.centre_cell_spec t w) as [_ Hc]; exact Hc
      end. }
  split.
  { rewrite StringFacts.printTableRow_value.
    do 5 eexists. split; [reflexivity|].
    repeat split;
      first [apply StringFacts.pad_cell_length
            | apply StringFacts.centre_cell_length
            | apply StringFacts.pad_cell_spec
            | apply StringFacts.centre_cell_spec]. }
  repeat split.
Qed.

(** C8 as stated fails on the date cell: the text of the date column is
    not padded on its left. *)
Lemma date_cell_is_not_left_padded :
  exists c1 rest,
    printTableRow "2023-08-30" 2 10 2 12 = Some [c1 +:+ "|" +:+ rest; rule +:+ nl]
    /\ String.length c1 = 25%nat
    /\ c1 = ("2023-08-30" +:+ spaces 15)%string
    /\ ~ right_aligned "2023-08-30" 25 c1.
Proof.
  rewrite StringFacts.printTableRow_value.
  do 2 eexists. split; [reflexivity|].
  split; [reflexivity|]. split; [reflexivity|].
  unfold right_aligned. vm_compute. discriminate.
Qed.

(** ** Aggregation *)

Module AggregateFacts.

Lemma wrap_add_l (x y : Z) : wrap (wrap x + y) = wrap (x + y).
Proof.
  unfold wrap.
  replace ((x + 2 ^ 63) mod 2 ^ 64 - 2 ^ 63 + y + 2 ^ 63)
    with ((x + 2 ^ 63) mod 2 ^ 64 + y) by lia.
  rewrite Z.add_mod_idemp_l by lia. f_equal. f_equal. lia.
Qed.

Lemma wrap_small (z : Z) : in_int z -> wrap z = z.
Proof.
  unfold in_int, wrap, int_min, int_max. intros H.
  rewrite Z.mod_small; lia.
Qed.

(** The statistics of a day after the deltas [l], from the statistics
    [ds]: the set of names grows by the names of [l], the totals by the
    sums, in [int]. *)
Lemma addStat_fold (l : list FileStat) :
  forall (ds : DailyStats) (a d : Z),
    Additions ds = wrap a -> Deletions ds = wrap d ->
    fold_left (fun ds stat => addStat stat ds) l ds =
    mkDailyStats (list_to_set (map Name l) ∪ FilesChanged ds)
                 (wrap (a + sumZ (map Addition l)))
                 (wrap (d + sumZ (map Deletion l))).
Proof.
  induction l as [|st l IH]; intros ds a d Ha Hd; simpl.
  - destruct ds as [fc ad de]; simpl in *. subst.
    rewrite !Z.add_0_r. f_equal. set_solver.
  - rewrite (IH _ (a + Addition st) (d + Deletion st)).
    + simpl. f_equal; [set_solver| |]; f_equal; lia.
    + simpl. rewrite Ha. apply wrap_add_l.
    + simpl. rewrite Hd. apply wrap_add_l.
Qed.

(** The map after the deltas of one commit. *)
Lemma alter_fold (k : string) (l : list FileStat) :
  forall (m : gmap string DailyStats) (D : string),
    fold_left (fun m stat => alter (addStat stat) k m) l m !! D =
    if decide (D = k)
    then fold_left (fun ds stat => addStat stat ds) l <$> m !! D
    else m !! D.
Proof.
  induction l as [|st l IH]; intros m D; simpl.
  - destruct (decide (D = k)); [|reflexivity]. now destruct (m !! D).
  - rewrite IH. destruct (decide (D = k)) as [->|Hne].
    + rewrite lookup_alter_eq. now destruct (m !! k).
    + now rewrite lookup_alter_ne.
Qed.

Lemma visit_lookup (m : gmap string DailyStats) (c : Commit) (stats : list FileStat) :
  Stats c = Ok stats ->
  exists m', visit m c = Ok m'
    /\ forall D, m' !! D =
         if String.eqb (commitDate c) D
         then Some (fold_left (fun ds stat => addStat stat ds) stats
                              (default newDailyStats (m !! D)))
         else m !! D.
Proof.
  intros Hs. unfold visit. rewrite Hs. eexists. split; [reflexivity|].
  intros D. rewrite alter_fold.
  destruct (String.eqb_spec (commitDate c) D) as [<-|Hne].
  - rewrite decide_True by reflexivity.
    destruct (m !! commitDate c) as [ds|] eqn:Hm.
    + rewrite Hm. reflexivity.
    + rewrite lookup_insert_eq. reflexivity.
  - rewrite decide_False by congruence.
    destruct (m !! commitDate c); [reflexivity|].
    rewrite lookup_insert_ne by congruence. reflexivity.
Qed.

Lemma forEach_lookup (cs : list Commit) :
  forall m : gmap string DailyStats,
    Forall stats_ok cs ->
    exists idx, snd (forEach cs m) = Ok idx
      /\ forall D, idx !! D =
           grown (m !! D) (negb (Nat.eqb (List.length (on_day D cs)) 0))
                 (day_stats D cs).
Proof.
  induction cs as [|c cs IH]; intros m Hok.
  - exists m. split; [reflexivity|]. intros D. simpl.
    unfold grown. now destruct (m !! D).
  - apply Forall_cons in Hok as [[stats Hs] Hok].
    destruct (visit_lookup m c stats Hs) as (m' & Hv & Hm').
    destruct (IH m' Hok) as (idx & Hidx & Hl).
    exists idx. simpl. rewrite Hv.
    destruct (forEach cs m') as [tr r]. simpl in *.
    split; [exact Hidx|].
    intros D. rewrite Hl, Hm'. unfold day_stats, on_day. simpl.
    destruct (String.eqb (commitDate c) D); simpl.
    + replace (stats_of c) with stats by (unfold stats_of; now rewrite Hs).
      unfold grown. destruct (m !! D); simpl;
        rewrite fold_left_app; reflexivity.
    + reflexivity.
Qed.

(** The index of a list of commits whose statistics can be computed:
    for each day the closed form of its entry. *)
Lemma aggregate_lookup (cs : list Commit) :
  Forall stats_ok cs ->
  exists idx, aggregate cs = Ok idx
    /\ forall D, idx !! D =
         if Nat.eqb (List.length (on_day D cs)) 0 then None
         else Some (mkDailyStats
                      (list_to_set (map Name (day_stats D cs)))
                      (wrap (sumZ (map Addition (day_stats D cs))))
                      (wrap (sumZ (map Deletion (day_stats D cs))))).
Proof.
  intros Hok. destruct (forEach_lookup cs ∅ Hok) as (idx & Hidx & Hl).
  exists idx. split; [exact Hidx|].
  intros D. rewrite Hl, lookup_empty. unfold grown.
  destruct (Nat.eqb (List.length (on_day D cs)) 0); simpl; [reflexivity|].
  f_equal. rewrite (addStat_fold _ newDailyStats 0 0) by reflexivity.
  simpl. f_equal. set_solver.
Qed.

(** The aggregation fails exactly when the statistics of some commit
    cannot be computed. *)
Lemma forEach_fails (cs : list Commit) :
  forall m : gmap string DailyStats,
    ~ Forall stats_ok cs -> exists e, snd (forEach cs m) = Err e.
Proof.
  induction cs as [|c cs IH]; intros m Hnot.
  - exfalso. apply Hnot. constructor.
  - simpl. unfold visit at 1. destruct (Stats c) as [stats|e] eqn:Hs.
    + fold (visit m c).
      destruct (visit_lookup m c stats Hs) as (m' & Hv & _).
      unfold visit in Hv. rewrite Hs in Hv. injection Hv as Hv.
      rewrite Hv.
      destruct (IH m') as (e & He).
      { intros H. apply Hnot. constructor; [exists stats; exact Hs|exact H]. }
      destruct (forEach cs m') as [tr r]. simpl in *. eauto.
    + simpl. eauto.
Qed.

Lemma stats_ok_dec (c : Commit) : {stats_ok c} + {~ stats_ok c}.
Proof.
  unfold stats_ok. destruct (Stats c) as [stats|e].
  - left. eauto.
  - right. intros [stats H]. discriminate.
Qed.

Lemma on_day_perm (D : string) (cs cs' : list Commit) :
  Permutation cs cs' -> Permutation (on_day D cs) (on_day D cs').
Proof.
  intros H. unfold on_day.
  induction H as [|c l l' H IH|c1 c2 l|l1 l2 l3 H1 IH1 H2 IH2]; simpl.
  - constructor.
  - destruct (String.eqb (commitDate c) D); [constructor|]; exact IH.
  - destruct (String.eqb (commitDate c1) D), (String.eqb (commitDate c2) D);
      try reflexivity. constructor.
  - etransitivity; eassumption.
Qed.

Lemma day_stats_perm (D : string) (cs cs' : list Commit) :
  Permutation cs cs' -> Permutation (day_stats D cs) (day_stats D cs').
Proof.
  intros H. unfold day_stats.
  apply Permutation_flat_map, on_day_perm, H.
Qed.

Lemma sumZ_perm (l l' : list Z) : Permutation l l' -> sumZ l = sumZ l'.
Proof.
  intros H. unfold sumZ.
  induction H as [|x l l' H IH|x y l|l1 l2 l3 H1 IH1 H2 IH2]; simpl; lia.
Qed.

Lemma size_names (l : list string) :
  size (list_to_set l : gset string) = List.length (remove_dups l).
Proof.
  rewrite <- (size_list_to_set (C := gset string) (remove_dups l))
    by apply NoDup_remove_dups.
  f_equal. apply set_eq. intros x.
  rewrite !elem_of_list_to_set, elem_of_remove_dups. reflexivity.
Qed.

End AggregateFacts.

(** C1: for every day [D], the entry of [D] in the aggregated index has as
    additions the sum of the additions of every per-file delta of every
    commit of day [D], and as deletions the sum of their deletions (as
    [int]s: the sums themselves whenever they fit in an [int]), counted
    again for each touch of the same file, while its set of changed files
    has each touched path once: a path is in the set as soon as a delta
    names it, and the size of the set is the number of distinct paths.  A
    day without commit has no entry.  The same file in two commits of one
    day with +3/-1 and +5/-0 gives additions 8, deletions 1, one file. *)
Theorem day_totals (cs : list Commit) (Hok : Forall stats_ok cs) :
  exists idx,
    aggregate cs = Ok idx
    /\ (forall D,
          on_day D cs = [] -> idx !! D = None)
    /\ (forall D,
          on_day D cs <> [] ->
          exists ds,
            idx !! D = Some ds
            /\ Additions ds = wrap (sumZ (map Addition (day_stats D cs)))
            /\ Deletions ds = wrap (sumZ (map Deletion (day_stats D cs)))
            /\ (in_int (sumZ (map Addition (day_stats D cs))) ->
                Additions ds = sumZ (map Addition (day_stats D cs)))
            /\ (in_int (sumZ (map Deletion (day_stats D cs))) ->
                Deletions ds = sumZ (map Deletion (day_stats D cs)))
            /\ (forall f, f ∈ FilesChanged ds <->
                          In f (map Name (day_stats D cs)))
            /\ size (FilesChanged ds) =
               List.length (remove_dups (map Name (day_stats D cs))))
    /\ exists ds5,
         aggregate Scenario.commits5 = Ok {["2023-08-30"%string := ds5]}
         /\ Additions ds5 = 8 /\ Deletions ds5 = 1
         /\ size (FilesChanged ds5) = 1%nat.
Proof.
  destruct (AggregateFacts.aggregate_lookup cs Hok) as (idx & Hagg & Hl).
  exists idx. split; [exact Hagg|]. split; [|split].
  - intros D HD. rewrite Hl, HD. reflexivity.
  - intros D HD. rewrite Hl.
    destruct (on_day D cs) as [|c l] eqn:Hday; [congruence|]. simpl.
    eexists. split; [reflexivity|]. simpl.
    split; [reflexivity|]. split; [reflexivity|].
    split; [intros H; now apply AggregateFacts.wrap_small|].
    split; [intros H; now apply AggregateFacts.wrap_small|].
    split.
    + intros f. rewrite elem_of_list_to_set. apply list_elem_of_In.
    + apply AggregateFacts.size_names.
  - exists (mkDailyStats {["a.go"%string]} 8 1).
    split; [vm_compute; reflexivity|].
    split; [reflexivity|]. split; [reflexivity|].
    vm_compute. reflexivity.
Qed.

Lemma day_totals_witness :
  exists idx ds,
    aggregate Scenario.commits1 = Ok idx
    /\ idx !! "2023-08-30"%string = Some ds
    /\ Additions ds = 10 /\ Deletions ds = 2.
Proof.
  assert (Hok : Forall stats_ok Scenario.commits1)
    by (repeat constructor; eexists; reflexivity).
  destruct (day_totals Scenario.commits1 Hok) as (idx & Hagg & _ & Hday & _).
  destruct (Hday "2023-08-30"%string) as (ds & Hl & Ha & Hd & _).
  { vm_compute. discriminate. }
  exists idx, ds. split; [exact Hagg|]. split; [exact Hl|].
  split; [rewrite Ha|rewrite Hd]; reflexivity.
Defined.

(** C9: aggregation is a function of the commits, and of the commits as a
    set with repetitions: two lists with the same commits in any order give
    the same index (the same days, the same sets of changed files, the same
    totals), or no index at all when the statistics of a commit cannot be
    computed. *)
Theorem aggregate_order_independent (cs cs' : list Commit) :
  Permutation cs cs' -> same_result (aggregate cs) (aggregate cs').
Proof.
  intros Hperm.
  destruct (List.Forall_dec stats_ok AggregateFacts.stats_ok_dec cs) as [Hok|Hnot].
  - assert (Hok' : Forall stats_ok cs').
    { rewrite Forall_forall in *. intros c Hc. apply Hok.
      apply list_elem_of_In. apply list_elem_of_In in Hc.
      apply (Permutation_in _ (Permutation_sym Hperm) Hc). }
    destruct (AggregateFacts.aggregate_lookup cs Hok) as (idx & Hagg & Hl).
    destruct (AggregateFacts.aggregate_lookup cs' Hok') as (idx' & Hagg' & Hl').
    rewrite Hagg, Hagg'. simpl. apply map_eq. intros D.
    rewrite Hl, Hl'.
    pose proof (AggregateFacts.on_day_perm D _ _ Hperm) as Hday.
    pose proof (AggregateFacts.day_stats_perm D _ _ Hperm) as Hstats.
    rewrite (Permutation_length Hday).
    destruct (Nat.eqb (List.length (on_day D cs')) 0); [reflexivity|].
    f_equal. f_equal.
    + apply set_eq. intros f. rewrite !elem_of_list_to_set.
      rewrite !list_elem_of_In.
      split; apply Permutation_in;
        [|apply Permutation_sym]; apply Permutation_map, Hstats.
    + f_equal. apply AggregateFacts.sumZ_perm, Permutation_map, Hstats.
    + f_equal. apply AggregateFacts.sumZ_perm, Permutation_map, Hstats.
  - assert (Hnot' : ~ Forall stats_ok cs').
    { intros H. apply Hnot. rewrite Forall_forall in *. intros c Hc.
      apply H. apply list_elem_of_In. apply list_elem_of_In in Hc.
      apply (Permutation_in _ Hperm Hc). }
    destruct (AggregateFacts.forEach_fails cs ∅ Hnot) as (e & He).
    destruct (AggregateFacts.forEach_fails cs' ∅ Hnot') as (e' & He').
    unfold aggregate. rewrite He, He'. exact I.
Qed.

Lemma aggregate_order_independent_witness :
  aggregate (rev Scenario.commits1) = aggregate Scenario.commits1.
Proof.
  pose proof (aggregate_order_independent Scenario.commits1
                (rev Scenario.commits1) (Permutation_rev _)) as H.
  destruct (aggregate Scenario.commits1) as [i|e] eqn:H1,
           (aggregate (rev Scenario.commits1)) as [i'|e'] eqn:H2;
    simpl in H; try contradiction.
  - now subst.
  - exfalso. vm_compute in H1. discriminate.
Defined.

(** ** The day of a commit *)

Lemma forEach_committer (committer : Commit -> Signature) (cs : list Commit) :
  forall m : gmap string DailyStats,
    forEach (map (with_committer committer) cs) m = forEach cs m.
Proof.
  induction cs as [|c cs IH]; intros m; [reflexivity|].
  simpl. change (visit m (with_committer committer c)) with (visit m c).
  destruct (visit m c) as [m'|e]; [|reflexivity].
  now rewrite IH.
Qed.

Lemma aggregate_one (c : Commit) (stats : list FileStat) :
  Stats c = Ok stats ->
  aggregate [c] =
  Ok {[commitDate c :=
         mkDailyStats (list_to_set (map Name stats))
                      (wrap (sumZ (map Addition stats)))
                      (wrap (sumZ (map Deletion stats)))]}.
Proof.
  intros Hs.
  destruct (AggregateFacts.aggregate_lookup [c]) as (idx & Hagg & Hl).
  { repeat constructor. exists stats. exact Hs. }
  rewrite Hagg. f_equal. apply map_eq. intros D. rewrite Hl.
  unfold day_stats, on_day. simpl.
  destruct (String.eqb_spec (commitDate c) D) as [<-|Hne]; simpl.
  - rewrite lookup_singleton_eq, app_nil_r.
    unfold stats_of. rewrite Hs. reflexivity.
  - rewrite lookup_singleton_ne by exact Hne. reflexivity.
Qed.


(** ** The arguments of [main] *)

Lemma main_rejects (w : World) (fuel : nat) (Args : list string)
    (msgs : list event) :
  invalid_args Args msgs ->
  main w fuel Args = Some (msgs, Exit 1)
  /\ msgs <> [] /\ Forall is_stdout msgs.
Proof.
  intros H. destruct H as [Args Hlen|prog repo startStr endStr err Hs
    |prog repo startStr endStr startDate err Hs He
    |prog repo startStr endStr startDate endDate Hs He Hord].
  - unfold main. destruct (Nat.eqb_spec (List.length Args) 4) as [|_]; [lia|].
    split; [reflexivity|]. split; [discriminate|].
    repeat constructor; eexists; reflexivity.
  - unfold main. simpl. rewrite Hs.
    split; [reflexivity|]. split; [discriminate|].
    repeat constructor; eexists; reflexivity.
  - unfold main. simpl. rewrite Hs, He.
    split; [reflexivity|]. split; [discriminate|].
    repeat constructor; eexists; reflexivity.
  - unfold main. simpl. rewrite Hs, He, Hord.
    split; [reflexivity|]. split; [discriminate|].
    repeat constructor; eexists; reflexivity.
Qed.

Lemma main_accepts (w : World) (fuel : nat) (prog repo startStr endStr : string)
    (startDate endDate : Time) :
  parseDate startStr = Ok startDate ->
  parseDate endStr = Ok endDate ->
  Before endDate startDate = false ->
  (enough startDate endDate <= fuel)%nat ->
  exists tr o, main w fuel [prog; repo; startStr; endStr]
               = Some (EvAbs repo :: tr, o).
Proof.
  intros Hs He Hord Hfuel. unfold main. simpl. rewrite Hs, He, Hord.
  destruct (filepath_Abs w repo) as [absPath|err];
    [|do 2 eexists; reflexivity].
  destruct (getGitStats w absPath startDate endDate) as [tr [dailyStats|err]];
    [|do 2 eexists; reflexivity].
  destruct (report_of_dates dailyStats _ _ _ _ _ Hs He Hord Hfuel)
    as (s & e & rows & _ & _ & _ & Hrep & _).
  rewrite Hrep. cbn [mbind option_bind].
  destruct (runPrints (map printRow rows)) as [out o].
  do 2 eexists; reflexivity.
Qed.

(** C7: a wrong number of arguments, a date string that does not parse, or
    an end date strictly before the start date ends the process with exit
    code 1 after the message of its case has been printed, and nothing but
    printing has happened by then: no path resolution, no access to the
    repository.  A start date equal to the end date is not rejected: the
    run goes on to resolve the repository path. *)
Theorem invalid_input_exits_first (w : World) (fuel : nat) (Args : list string) :
  (forall msgs,
     invalid_args Args msgs ->
     main w fuel Args = Some (msgs, Exit 1)
     /\ msgs <> []
     /\ Forall is_stdout msgs
     /\ (forall ev, In ev msgs -> repo_access ev = false))
  /\ (forall prog repo dateStr date,
        Args = [prog; repo; dateStr; dateStr] ->
        parseDate dateStr = Ok date ->
        (1 <= fuel)%nat ->
        (forall msgs, ~ invalid_args Args msgs)
        /\ exists tr o, main w fuel Args = Some (EvAbs repo :: tr, o)).
Proof.
  split.
  - intros msgs H. destruct (main_rejects w fuel Args msgs H) as (Hm & Hne & Hout).
    repeat split; try assumption.
    intros ev Hev. rewrite Forall_forall in Hout.
    apply list_elem_of_In in Hev. destruct (Hout ev Hev) as [s ->]. reflexivity.
  - intros prog repo dateStr date -> Hd Hfuel.
    assert (Hord : Before date date = false) by (unfold Before; apply Z.ltb_irrefl).
    split.
    + intros msgs H. inversion H; subst; simpl in *; congruence.
    + apply (main_accepts w fuel prog repo dateStr dateStr date date Hd Hd Hord).
      unfold enough. replace (dayNum date - dayNum date + 1) with 1 by lia.
      exact Hfuel.
Qed.

Lemma invalid_input_exits_first_witness :
  main (Scenario.world []) 0 ["git-stat"; "repo"; "2023-09-01"; "2023-08-30"]
  = Some ([Stdout ("End date must be after start date" +:+ nl)], Exit 1).
Proof.
  destruct (invalid_input_exits_first (Scenario.world []) 0
              ["git-stat"; "repo"; "2023-09-01"; "2023-08-30"]) as (Hrej & _).
  apply (Hrej [Stdout ("End date must be after start date" +:+ nl)]).
  apply (bad_order "git-stat" "repo" "2023-09-01" "2023-08-30"
           (day 738763) (day 738761)); reflexivity.
Defined.

(** * Further properties *)

(** ** The calendar, both ways *)

Module CalendarRoundTrip.

Lemma daysSinceEpoch_succ (y : Z) :
  daysSinceEpoch (y + 1) = daysSinceEpoch y + (if isLeap y then 366 else 365).
Proof.
  unfold daysSinceEpoch, isLeap. cbv zeta.
  replace (y + 1 - 1) with y by lia.
  destruct (Z.eqb_spec (y mod 4) 0), (Z.eqb_spec (y mod 100) 0),
    (Z.eqb_spec (y mod 400) 0); simpl; Z.div_mod_to_equations; lia.
Qed.

Lemma daysSinceEpoch_lt (y : Z) : daysSinceEpoch y < daysSinceEpoch (y + 1).
Proof. rewrite daysSinceEpoch_succ. destruct (isLeap y); lia. Qed.

Lemma daysSinceEpoch_mono (y1 y2 : Z) :
  y1 <= y2 -> daysSinceEpoch y1 <= daysSinceEpoch y2.
Proof.
  intros H. replace y2 with (y1 + Z.of_nat (Z.to_nat (y2 - y1))) by lia.
  induction (Z.to_nat (y2 - y1)) as [|n IH]; [rewrite Z.add_0_r; lia|].
  rewrite Nat2Z.inj_succ.
  replace (y1 + Z.succ (Z.of_nat n)) with (y1 + Z.of_nat n + 1) by lia.
  pose proof (daysSinceEpoch_lt (y1 + Z.of_nat n)). lia.
Qed.

Lemma yday_bounds (y m d : Z) :
  valid_date y m d -> 0 <= yday y m d < (if isLeap y then 366 else 365).
Proof.
  unfold valid_date, yday, daysIn. intros (Hm & Hd).
  assert (m = 1 \/ m = 2 \/ m = 3 \/ m = 4 \/ m = 5 \/ m = 6 \/ m = 7
          \/ m = 8 \/ m = 9 \/ m = 10 \/ m = 11 \/ m = 12) as Hc by lia.
  destruct (isLeap y);
    repeat (destruct Hc as [->|Hc]); try subst m; simpl in *; lia.
Qed.

Lemma dateToDays_yday (y m d : Z) :
  1 <= m <= 12 -> dateToDays y m d = daysSinceEpoch y + yday y m d.
Proof.
  intros Hm. unfold dateToDays, yday. cbv zeta.
  rewrite (Z.div_small (m - 1)), (Z.mod_small (m - 1)) by lia.
  replace (y + 0) with y by lia. replace (m - 1 + 1) with m by lia. lia.
Qed.

(** A day number is in one year only. *)
Lemma year_unique (y1 y2 yd1 yd2 : Z) :
  0 <= yd1 < (if isLeap y1 then 366 else 365) ->
  0 <= yd2 < (if isLeap y2 then 366 else 365) ->
  daysSinceEpoch y1 + yd1 = daysSinceEpoch y2 + yd2 ->
  y1 = y2 /\ yd1 = yd2.
Proof.
  intros H1 H2 Heq.
  assert (y1 = y2).
  { destruct (Z.lt_trichotomy y1 y2) as [Hlt|[Heq'|Hgt]]; [exfalso|assumption|exfalso].
    - pose proof (daysSinceEpoch_mono (y1 + 1) y2 ltac:(lia)).
      pose proof (daysSinceEpoch_succ y1).
      destruct (isLeap y1), (isLeap y2); lia.
    - pose proof (daysSinceEpoch_mono (y2 + 1) y1 ltac:(lia)).
      pose proof (daysSinceEpoch_succ y2).
      destruct (isLeap y1), (isLeap y2); lia. }
  subst y2. split; [reflexivity|lia].
Qed.

Lemma months_ok_leap :
  Calendar.all_from 12 1 (month_ok 4) = true.
Proof. vm_compute. reflexivity. Qed.

Lemma months_ok_common :
  Calendar.all_from 12 1 (month_ok 1) = true.
Proof. vm_compute. reflexivity. Qed.

Lemma yday_leap (y m d : Z) :
  yday y m d = yday (if isLeap y then 4 else 1) m d.
Proof. unfold yday. now destruct (isLeap y). Qed.

Lemma daysIn_leap (y m : Z) :
  daysIn m y = daysIn m (if isLeap y then 4 else 1).
Proof. unfold daysIn. now destruct (isLeap y). Qed.

Lemma monthDay_yday (y m d : Z) :
  valid_date y m d -> monthDay y (yday y m d) = (m, d).
Proof.
  intros (Hm & Hd).
  rewrite CalendarFacts.monthDay_leap, yday_leap. rewrite daysIn_leap in Hd.
  set (y0 := if isLeap y then 4 else 1) in *.
  assert (Hmonth : month_ok y0 m = true).
  { subst y0. destruct (isLeap y).
    - apply (CalendarFacts.all_from_spec _ _ 1 months_ok_leap). lia.
    - apply (CalendarFacts.all_from_spec _ _ 1 months_ok_common). lia. }
  unfold month_ok in Hmonth.
  pose proof (CalendarFacts.all_from_spec _ _ 1 Hmonth d) as Hday.
  rewrite Z2Nat.id in Hday by lia. specialize (Hday ltac:(lia)).
  destruct (monthDay y0 (yday y0 m d)) as [m' d'].
  apply andb_prop in Hday as [H1 H2].
  apply Z.eqb_eq in H1, H2. now subst.
Qed.

(** [yearOfDays] splits every day number into its year and the day of
    that year. *)
Lemma yearOfDays_spec (z : Z) :
  let '(y, yd) := yearOfDays z in
  daysSinceEpoch y + yd = z /\ 0 <= yd < (if isLeap y then 366 else 365).
Proof.
  pose proof (Z.mod_pos_bound z 146097 ltac:(lia)) as Hr.
  pose proof (Z.div_mod z 146097 ltac:(lia)) as Hz.
  pose proof (CalendarFacts.yearOfDays_cycle _ Hr) as Hc.
  rewrite CalendarFacts.yearOfDays_period.
  destruct (yearOfDays (z mod 146097)) as [y yd]. simpl fst. simpl snd.
  destruct Hc as (Hsum & Hyd & _).
  rewrite CalendarFacts.daysSinceEpoch_period, CalendarFacts.isLeap_period.
  split; [lia|exact Hyd].
Qed.

(** The date of the day number of a date of the calendar is that date. *)
Lemma civil_of_date (y m d : Z) :
  valid_date y m d -> civil (dateToDays y m d) = (y, m, d).
Proof.
  intros Hv. pose proof Hv as (Hm & Hd).
  unfold civil. rewrite dateToDays_yday by exact Hm.
  pose proof (yearOfDays_spec (daysSinceEpoch y + yday y m d)) as Hs.
  destruct (yearOfDays (daysSinceEpoch y + yday y m d)) as [y' yd'].
  destruct Hs as (Hsum & Hb').
  destruct (year_unique y' y yd' (yday y m d) Hb' (yday_bounds y m d Hv) Hsum)
    as (-> & ->).
  rewrite (monthDay_yday y m d Hv). reflexivity.
Qed.

End CalendarRoundTrip.

(** ** Date strings, both ways *)

Module DateStrings.

Local Open Scope string_scope.

Lemma appendInt4_check :
  Calendar.all_from (Z.to_nat 10000) 0
    (fun y => String.eqb (appendInt y 4) (four_digits y)) = true.
Proof. vm_compute. reflexivity. Qed.

Lemma appendInt2_check :
  Calendar.all_from 100 0
    (fun m => String.eqb (appendInt m 2) (two_digits m)) = true.
Proof. vm_compute. reflexivity. Qed.

Lemma appendInt4 (y : Z) :
  (0 <= y <= 9999)%Z -> appendInt y 4 = four_digits y.
Proof.
  intros H. apply String.eqb_eq.
  apply (CalendarFacts.all_from_spec _ _ 0%Z appendInt4_check).
  rewrite Z2Nat.id; lia.
Qed.

Lemma appendInt2 (m : Z) :
  (0 <= m <= 99)%Z -> appendInt m 2 = two_digits m.
Proof.
  intros H. apply String.eqb_eq.
  apply (CalendarFacts.all_from_spec _ _ 0%Z appendInt2_check). lia.
Qed.

Lemma digit_char_val (c : ascii) :
  isDigit c = true -> digit_char (digit_val c) = c.
Proof.
  unfold isDigit, digit_char, digit_val. intros H.
  apply andb_prop in H as [H1 H2]. apply Nat.leb_le in H1, H2.
  replace (48 + Z.to_nat (Z.of_nat (nat_of_ascii c) - 48))%nat
    with (nat_of_ascii c) by lia.
  apply ascii_nat_embedding.
Qed.

Lemma digit_val_char (v : Z) :
  (0 <= v <= 9)%Z -> isDigit (digit_char v) = true /\ digit_val (digit_char v) = v.
Proof.
  intros H.
  assert (v = 0 \/ v = 1 \/ v = 2 \/ v = 3 \/ v = 4 \/ v = 5 \/ v = 6
          \/ v = 7 \/ v = 8 \/ v = 9)%Z as Hc by lia.
  repeat (destruct Hc as [->|Hc]); try subst v; split; reflexivity.
Qed.

Lemma getYear_four_digits (y : Z) (rest : string) :
  (0 <= y <= 9999)%Z -> getYear (four_digits y +:+ rest) = Some (y, rest).
Proof.
  intros H. unfold four_digits. rewrite !StringFacts.app_cons, StringFacts.app_nil.
  unfold getYear.
  destruct (digit_val_char (y / 1000)) as [-> ->]; [Z.div_mod_to_equations; lia|].
  destruct (digit_val_char (y / 100 mod 10)) as [-> ->]; [Z.div_mod_to_equations; lia|].
  destruct (digit_val_char (y / 10 mod 10)) as [-> ->]; [Z.div_mod_to_equations; lia|].
  destruct (digit_val_char (y mod 10)) as [-> ->]; [Z.div_mod_to_equations; lia|].
  simpl. do 2 f_equal. Z.div_mod_to_equations. lia.
Qed.

Lemma getnum2_two_digits (m : Z) (rest : string) :
  (0 <= m <= 99)%Z -> getnum2 (two_digits m +:+ rest) = Some (m, rest).
Proof.
  intros H. unfold two_digits. rewrite !StringFacts.app_cons, StringFacts.app_nil.
  unfold getnum2.
  destruct (digit_val_char (m / 10)) as [-> ->]; [Z.div_mod_to_equations; lia|].
  destruct (digit_val_char (m mod 10)) as [-> ->]; [Z.div_mod_to_equations; lia|].
  simpl. do 2 f_equal. Z.div_mod_to_equations. lia.
Qed.

(** What [time.Parse] accepts: four digits, a dash, two digits, a dash,
    two digits, that are a date of the calendar. *)
Lemma Parse_date_inv (value : string) (t : Time) :
  Parse_date value = inr t ->
  exists y m d,
    (0 <= y <= 9999)%Z /\ valid_date y m d
    /\ value = four_digits y +:+ "-" +:+ two_digits m +:+ "-" +:+ two_digits d
    /\ t = day (dateToDays y m d).
Proof.
  unfold Parse_date. intros H.
  destruct (getYear value) as [[year v1]|] eqn:Hy; [|discriminate].
  destruct (skipDash v1) as [v2|] eqn:Hs1; [|discriminate].
  destruct (getnum2 v2) as [[month v3]|] eqn:Hm; [|discriminate].
  destruct (_ || _) eqn:Hmr in H; [discriminate|].
  destruct (skipDash v3) as [v4|] eqn:Hs2; [|discriminate].
  destruct (getnum2 v4) as [[dd v5]|] eqn:Hd; [|discriminate].
  destruct (String.eqb_spec v5 "") as [->|]; [|discriminate]. simpl in H.
  destruct (_ || _) eqn:Hdr in H; [discriminate|].
  injection H as <-.
  apply orb_false_iff in Hmr as [Hm1 Hm2], Hdr as [Hd1 Hd2].
  unfold getYear in Hy.
  destruct value as [|a [|b [|c [|d rest]]]]; try discriminate.
  destruct (isDigit a) eqn:Ha; [|discriminate].
  destruct (isDigit b) eqn:Hb; [|discriminate].
  destruct (isDigit c) eqn:Hc; [|discriminate].
  destruct (isDigit d) eqn:Hdg; [|discriminate].
  simpl in Hy. injection Hy as <- <-.
  unfold skipDash in Hs1. destruct rest as [|s1 rest]; [discriminate|].
  destruct (Ascii.eqb_spec s1 "-") as [->|]; [|discriminate].
  injection Hs1 as <-.
  unfold getnum2 in Hm. destruct rest as [|e [|f rest]]; try discriminate.
  destruct (isDigit e) eqn:He; [|discriminate].
  destruct (isDigit f) eqn:Hf; [|discriminate].
  simpl in Hm. injection Hm as <- <-.
  unfold skipDash in Hs2. destruct rest as [|s2 rest]; [discriminate|].
  destruct (Ascii.eqb_spec s2 "-") as [->|]; [|discriminate].
  injection Hs2 as <-.
  unfold getnum2 in Hd. destruct rest as [|g [|h rest]]; try discriminate.
  destruct (isDigit g) eqn:Hg; [|discriminate].
  destruct (isDigit h) eqn:Hh; [|discriminate].
  simpl in Hd. injection Hd as <- ->.
  pose proof (isDigit_val a Ha). pose proof (isDigit_val b Hb).
  pose proof (isDigit_val c Hc). pose proof (isDigit_val d Hdg).
  pose proof (isDigit_val e He). pose proof (isDigit_val f Hf).
  pose proof (isDigit_val g Hg). pose proof (isDigit_val h Hh).
  eexists _, _, _. split; [|split; [|split; [|reflexivity]]].
  - lia.
  - unfold valid_date. lia.
  - unfold four_digits, two_digits.
    rewrite !StringFacts.app_cons, !StringFacts.app_nil.
    rewrite <- (digit_char_val a Ha) at 1. rewrite <- (digit_char_val b Hb) at 1.
    rewrite <- (digit_char_val c Hc) at 1. rewrite <- (digit_char_val d Hdg) at 1.
    rewrite <- (digit_char_val e He) at 1. rewrite <- (digit_char_val f Hf) at 1.
    rewrite <- (digit_char_val g Hg) at 1. rewrite <- (digit_char_val h Hh) at 1.
    repeat f_equal; Z.div_mod_to_equations; lia.
Qed.

Lemma Format_date_of_date (y m d : Z) :
  (0 <= y <= 9999)%Z -> valid_date y m d ->
  Format_date (day (dateToDays y m d)) =
  four_digits y +:+ "-" +:+ two_digits m +:+ "-" +:+ two_digits d.
Proof.
  intros Hy Hv. unfold Format_date. rewrite Date_day.
  rewrite (CalendarRoundTrip.civil_of_date y m d Hv).
  destruct Hv as (Hm & Hd).
  pose proof (StringFacts.daysIn_le_31 m y Hm).
  rewrite appendInt4, !appendInt2 by lia. reflexivity.
Qed.

(** The year of a day between the first and the last day. *)
Lemma civil_year_range (k : Z) :
  (firstDay <= k <= lastDay)%Z ->
  let '(y, m, d) := civil k in
  (0 <= y <= 9999)%Z /\ valid_date y m d /\ dateToDays y m d = k.
Proof.
  unfold firstDay, lastDay. intros Hk.
  pose proof (CalendarFacts.civil_dateToDays k) as Hc.
  pose proof (CalendarRoundTrip.yearOfDays_spec k) as Hs.
  unfold civil in *. destruct (yearOfDays k) as [y yd].
  destruct (monthDay y yd) as [m d].
  destruct Hc as (Hdays & Hm & Hd). destruct Hs as (Hsum & Hyd).
  split; [|split; [split; assumption|exact Hdays]].
  split.
  - destruct (Z_lt_le_dec y 0) as [Hneg|]; [exfalso|assumption].
    pose proof (CalendarRoundTrip.daysSinceEpoch_mono (y + 1) 0 ltac:(lia)) as Hmono.
    pose proof (CalendarRoundTrip.daysSinceEpoch_succ y) as Hsucc.
    change (daysSinceEpoch 0) with (-366)%Z in Hmono.
    destruct (isLeap y); lia.
  - destruct (Z_le_gt_dec y 9999) as [|Hbig]; [assumption|exfalso].
    pose proof (CalendarRoundTrip.daysSinceEpoch_mono 10000 y ltac:(lia)) as Hmono.
    change (daysSinceEpoch 10000) with 3652059%Z in Hmono. lia.
Qed.

End DateStrings.

Module DateStringFacts.

Import DateStrings.

Local Open Scope string_scope.

Lemma Parse_date_steps (value v1 v2 v3 v4 : string) (y m d : Z) :
  getYear value = Some (y, v1) -> skipDash v1 = Some v2 ->
  getnum2 v2 = Some (m, v3) -> skipDash v3 = Some v4 ->
  getnum2 v4 = Some (d, "") ->
  (1 <= m <= 12)%Z -> (1 <= d <= daysIn m y)%Z ->
  Parse_date value = inr (day (dateToDays y m d)).
Proof.
  intros H1 H2 H3 H4 H5 Hm Hd. unfold Parse_date.
  rewrite H1, H2, H3.
  destruct (Z.leb_spec m 0); [lia|]. destruct (Z.ltb_spec 12 m); [lia|].
  cbn [orb]. rewrite H4, H5. cbn [String.eqb negb].
  destruct (Z.ltb_spec d 1); [lia|].
  destruct (Z.ltb_spec (daysIn m y) d); [lia|]. reflexivity.
Qed.

Lemma Parse_date_of_date (y m d : Z) :
  (0 <= y <= 9999)%Z -> valid_date y m d ->
  Parse_date (four_digits y +:+ "-" +:+ two_digits m +:+ "-" +:+ two_digits d)
  = inr (day (dateToDays y m d)).
Proof.
  intros Hy (Hm & Hd). pose proof (StringFacts.daysIn_le_31 m y Hm).
  apply (Parse_date_steps _
           ("-" +:+ two_digits m +:+ "-" +:+ two_digits d)
           (two_digits m +:+ "-" +:+ two_digits d)
           ("-" +:+ two_digits d) (two_digits d)); try assumption.
  - now apply getYear_four_digits.
  - reflexivity.
  - apply getnum2_two_digits. lia.
  - reflexivity.
  - replace (two_digits d) with (two_digits d +:+ "")
      by (unfold two_digits; rewrite !StringFacts.app_cons; reflexivity).
    apply getnum2_two_digits. lia.
Qed.

Lemma date_in_window (y m d : Z) :
  (0 <= y <= 9999)%Z -> valid_date y m d ->
  (firstDay <= dateToDays y m d <= lastDay)%Z.
Proof.
  intros Hy Hv. pose proof Hv as (Hm & _).
  rewrite CalendarRoundTrip.dateToDays_yday by exact Hm.
  pose proof (CalendarRoundTrip.yday_bounds y m d Hv) as Hb.
  pose proof (CalendarRoundTrip.daysSinceEpoch_mono 0 y ltac:(lia)) as H0.
  pose proof (CalendarRoundTrip.daysSinceEpoch_mono (y + 1) 10000 ltac:(lia)) as H1.
  pose proof (CalendarRoundTrip.daysSinceEpoch_succ y) as Hs.
  change (daysSinceEpoch 0) with (-366)%Z in H0.
  change (daysSinceEpoch 10000) with 3652059%Z in H1.
  unfold firstDay, lastDay. destruct (isLeap y); lia.
Qed.

Lemma parseDate_inv (dateStr : string) (t : Time) :
  parseDate dateStr = Ok t ->
  exists y m d,
    (0 <= y <= 9999)%Z /\ valid_date y m d
    /\ dateStr = four_digits y +:+ "-" +:+ two_digits m +:+ "-" +:+ two_digits d
    /\ t = day (dateToDays y m d).
Proof.
  unfold parseDate. destruct (Parse_date dateStr) eqn:H; [discriminate|].
  intros [= <-]. now apply Parse_date_inv.
Qed.

Lemma parseDate_window (dateStr : string) (t : Time) :
  parseDate dateStr = Ok t ->
  exists k, t = day k /\ (firstDay <= k <= lastDay)%Z.
Proof.
  intros H. apply parseDate_inv in H as (y & m & d & Hy & Hv & _ & ->).
  eexists. split; [reflexivity|]. now apply date_in_window.
Qed.

Lemma length_date_string (y m d : Z) :
  String.length (four_digits y +:+ "-" +:+ two_digits m +:+ "-" +:+ two_digits d)
  = 10%nat.
Proof. reflexivity. Qed.

Lemma Format_date_window (k : Z) :
  (firstDay <= k <= lastDay)%Z ->
  exists y m d,
    (0 <= y <= 9999)%Z /\ valid_date y m d /\ k = dateToDays y m d
    /\ civil k = (y, m, d)
    /\ Format_date (day k) =
       four_digits y +:+ "-" +:+ two_digits m +:+ "-" +:+ two_digits d.
Proof.
  intros Hk. pose proof (civil_year_range k Hk) as H.
  destruct (civil k) as [[y m] d] eqn:Hc. destruct H as (Hy & Hv & Hd).
  exists y, m, d.
  split; [exact Hy|]. split; [exact Hv|]. split; [symmetry; exact Hd|].
  split; [reflexivity|].
  rewrite <- Hd. now apply Format_date_of_date.
Qed.

Lemma parseDate_Format_day (k : Z) :
  (firstDay <= k <= lastDay)%Z ->
  parseDate (Format_date (day k)) = Ok (day k).
Proof.
  intros Hk.
  destruct (Format_date_window k Hk) as (y & m & d & Hy & Hv & -> & _ & ->).
  unfold parseDate. now rewrite Parse_date_of_date.
Qed.

End DateStringFacts.

(** The date string [parseDate] accepts is the one the loop of [main]
    writes for the time it gave: formatting gives the argument back, and
    the argument has ten bytes. *)
Theorem parseDate_then_Format (dateStr : string) (t : Time) :
  parseDate dateStr = Ok t ->
  Format_date t = dateStr /\ String.length dateStr = 10%nat.
Proof.
  intros H.
  apply DateStringFacts.parseDate_inv in H as (y & m & d & Hy & Hv & -> & ->).
  split; [now apply DateStrings.Format_date_of_date|reflexivity].
Qed.

Lemma parseDate_then_Format_witness :
  Format_date (day 738761) = "2023-08-30"%string.
Proof.
  apply (parseDate_then_Format "2023-08-30" (day 738761)). reflexivity.
Defined.

(** Every day from 0000-01-01 to 9999-12-31, written by
    [Format("2006-01-02")], is accepted by [parseDate], which gives the
    day back. *)
Theorem Format_then_parseDate (k : Z) :
  firstDay <= k <= lastDay ->
  parseDate (Format_date (day k)) = Ok (day k).
Proof.
  apply DateStringFacts.parseDate_Format_day.
Qed.

Lemma Format_then_parseDate_witness :
  parseDate (Format_date (day 738761)) = Ok (day 738761).
Proof. apply Format_then_parseDate. unfold firstDay, lastDay. lia. Defined.

(** Two different days from 0000-01-01 to 9999-12-31 never share a key of
    the index: the loop of [main] looks each day up under a date string of
    its own. *)
Theorem day_keys_distinct (k1 k2 : Z) :
  firstDay <= k1 <= lastDay -> firstDay <= k2 <= lastDay ->
  Format_date (day k1) = Format_date (day k2) <-> k1 = k2.
Proof.
  intros H1 H2. split; [|intros ->; reflexivity]. intros Heq.
  pose proof (DateStringFacts.parseDate_Format_day k1 H1) as P1.
  pose proof (DateStringFacts.parseDate_Format_day k2 H2) as P2.
  rewrite Heq, P2 in P1. injection P1 as P1.
  unfold secondsPerDay in P1. lia.
Qed.

Lemma day_keys_distinct_witness :
  Format_date (day 738761) = Format_date (day 738762) <-> 738761 = 738762.
Proof.
  apply day_keys_distinct; unfold firstDay, lastDay; lia.
Defined.

(** [parseDate] accepts exactly the strings "YYYY-MM-DD" of four, two and
    two digits that name a date of the calendar (a month from 1 to 12, a
    day from 1 to the length of that month in that year), and gives midnight
    UTC of that date. *)
Theorem parseDate_accepts_dates (dateStr : string) (t : Time) :
  parseDate dateStr = Ok t <->
  exists y m d,
    0 <= y <= 9999 /\ 1 <= m <= 12 /\ 1 <= d <= daysIn m y
    /\ dateStr = four_digits y +:+ "-" +:+ two_digits m +:+ "-" +:+ two_digits d
    /\ t = mkTime (dateToDays y m d * 86400) 0.
Proof.
  split.
  - intros H.
    apply DateStringFacts.parseDate_inv in H as (y & m & d & Hy & (Hm & Hd) & -> & ->).
    exists y, m, d. repeat split; try lia.
  - intros (y & m & d & Hy & Hm & Hd & -> & ->).
    unfold parseDate.
    rewrite DateStringFacts.Parse_date_of_date
      by (try exact Hy; split; assumption).
    reflexivity.
Qed.

(** [AddDate(0, 0, n)] steps through the calendar and back: adding no day
    changes nothing, adding days one after the other adds their sum, and
    [d.AddDate(0, 0, 1).AddDate(0, 0, -1)] is [d] again, for a time of any
    zone. *)
Theorem AddDate_there_and_back (t : Time) (n m : Z) :
  AddDate t 0 = t
  /\ AddDate (AddDate t n) m = AddDate t (n + m)
  /\ AddDate (AddDate t n) (- n) = t
  /\ sec (AddDate t n) = sec t + n * 86400
  /\ offset (AddDate t n) = offset t.
Proof.
  rewrite !AddDate_sec. destruct t as [s o]. unfold secondsPerDay. simpl.
  repeat split; f_equal; lia.
Qed.

(** ** [getGitStats] and the repository *)

Module RepoFacts.

Lemma forEach_ok_trace (cs : list Commit) :
  forall m : gmap string DailyStats,
    Forall stats_ok cs -> fst (forEach cs m) = visits cs.
Proof.
  induction cs as [|c cs IH]; intros m Hok; [reflexivity|].
  apply Forall_cons in Hok as [[stats Hs] Hok].
  destruct (AggregateFacts.visit_lookup m c stats Hs) as (m' & Hv & _).
  simpl. rewrite Hv. specialize (IH m' Hok).
  destruct (forEach cs m') as [tr r]. simpl in *. now rewrite IH.
Qed.

Lemma forEach_fail_at (pre post : list Commit) (c : Commit) (e : error) :
  forall m : gmap string DailyStats,
    Forall stats_ok pre -> Stats c = Err e ->
    forEach (pre ++ c :: post) m = (visits (pre ++ [c]), Err e).
Proof.
  induction pre as [|c0 pre IH]; intros m Hok Hc.
  - simpl. unfold visit. rewrite Hc. reflexivity.
  - apply Forall_cons in Hok as [[stats Hs] Hok].
    destruct (AggregateFacts.visit_lookup m c0 stats Hs) as (m' & Hv & _).
    simpl. rewrite Hv, (IH m' Hok Hc). reflexivity.
Qed.

Lemma stdout_visits (cs : list Commit) : stdout (visits cs) = ""%string.
Proof. induction cs as [|c cs IH]; [reflexivity|exact IH]. Qed.

Lemma forEach_trace_prefix (cs : list Commit) :
  forall m : gmap string DailyStats,
    exists n : nat, fst (forEach cs m) = visits (firstn n cs).
Proof.
  induction cs as [|c cs IH]; intros m.
  - exists 0%nat. reflexivity.
  - simpl. destruct (visit m c) as [m'|e].
    + destruct (IH m') as (n & Hn). destruct (forEach cs m') as [tr r].
      exists (S n). simpl in *. now rewrite Hn.
    + exists 1%nat. reflexivity.
Qed.

(** [getGitStats] prints nothing. *)
Lemma stdout_getGitStats (w : World) (path : string) (startDate endDate : Time) :
  stdout (fst (getGitStats w path startDate endDate)) = ""%string.
Proof.
  unfold getGitStats.
  destruct (git_PlainOpen w path) as [repo|e]; [|reflexivity].
  destruct (Log repo startDate _) as [it|e]; [|reflexivity].
  destruct (forEach_trace_prefix (items it) ∅) as (n & Hn).
  destruct (forEach (items it) ∅) as [tr r]. simpl in Hn. subst tr.
  destruct r as [idx|e]; [destruct (iter_err it)|]; simpl; apply stdout_visits.
Qed.

End RepoFacts.

(** [getGitStats] asks the log for the commits from the start date to the
    last second of the end date: the end of the window is 23:59:59 of the
    end day, still of that day, and one second before the next day. *)
Theorem log_window_ends_with_the_day (w : World) (path : string)
    (startDate : Time) (e : Z) (repo : Repository) :
  git_PlainOpen w path = Ok repo ->
  exists rest r,
    getGitStats w path startDate (day e)
    = (EvPlainOpen path :: EvLog startDate (until (day e)) :: rest, r)
    /\ until (day e) = mkTime (e * 86400 + 86399) 0
    /\ Date (until (day e)) = Date (day e)
    /\ Format_date (until (day e)) = Format_date (day e)
    /\ Add (until (day e)) 1 = AddDate (day e) 1.
Proof.
  intros Hopen. unfold getGitStats. rewrite Hopen. fold (until (day e)).
  assert (Hu : until (day e) = mkTime (e * 86400 + 86399) 0)
    by (unfold until, Add, day, secondsPerDay; simpl; f_equal; lia).
  assert (Hd : Date (until (day e)) = Date (day e)).
  { rewrite Hu. unfold Date, localDays, day, secondsPerDay. simpl.
    rewrite !Z.add_0_r. f_equal.
    rewrite Z.div_mul by lia.
    symmetry. apply (Z.div_unique_pos _ _ _ 86399); lia. }
  assert (Hrest : exists rest r,
    match Log repo startDate (until (day e)) with
    | Ok commits =>
        let '(tr, r) := forEach (items commits) ∅ in
        match r with
        | Ok dailyStats =>
            match iter_err commits with
            | Some e0 =>
                (EvPlainOpen path :: EvLog startDate (until (day e)) :: tr, Err e0)
            | None =>
                (EvPlainOpen path :: EvLog startDate (until (day e)) :: tr,
                 Ok dailyStats)
            end
        | Err e0 =>
            (EvPlainOpen path :: EvLog startDate (until (day e)) :: tr, Err e0)
        end
    | Err e0 => ([EvPlainOpen path; EvLog startDate (until (day e))], Err e0)
    end = (EvPlainOpen path :: EvLog startDate (until (day e)) :: rest, r)).
  { destruct (Log repo startDate (until (day e))) as [it|e0];
      [|do 2 eexists; reflexivity].
    destruct (forEach (items it) ∅) as [tr [idx|e0]];
      [destruct (iter_err it)|]; do 2 eexists; reflexivity. }
  destruct Hrest as (rest & r & Hrest). exists rest, r.
  split; [exact Hrest|]. split; [exact Hu|]. split; [exact Hd|].
  split.
  - unfold Format_date. now rewrite Hd.
  - rewrite AddDate_day, Hu. unfold Add, day, secondsPerDay. simpl. f_equal. lia.
Qed.

Lemma log_window_ends_with_the_day_witness :
  Format_date (until (day 738763)) = Format_date (day 738763).
Proof.
  destruct (log_window_ends_with_the_day (Scenario.world []) "repo"
              (day 738761) 738763 (ScenarioMore.repo_of []) eq_refl)
    as (rest & r & _ & _ & _ & H & _).
  exact H.
Defined.

(** When the statistics of a commit cannot be computed, [getGitStats]
    returns that error and no index: the commits before it have been
    visited, the commits after it are not. *)
Theorem first_failure_ends_the_log (w : World) (path : string)
    (startDate endDate : Time) (repo : Repository) (it : CommitIter)
    (pre post : list Commit) (c : Commit) (e : error) :
  git_PlainOpen w path = Ok repo ->
  Log repo startDate (until endDate) = Ok it ->
  items it = pre ++ c :: post ->
  Forall stats_ok pre ->
  Stats c = Err e ->
  getGitStats w path startDate endDate
  = (EvPlainOpen path :: EvLog startDate (until endDate) :: visits (pre ++ [c]),
     Err e).
Proof.
  intros Hopen Hlog Hitems Hpre Hc. unfold getGitStats.
  rewrite Hopen. fold (until endDate). rewrite Hlog, Hitems.
  rewrite (RepoFacts.forEach_fail_at pre post c e ∅ Hpre Hc). reflexivity.
Qed.

Lemma first_failure_ends_the_log_witness :
  getGitStats ScenarioMore.broken_world "repo" (day 738761) (day 738763)
  = (EvPlainOpen "repo" :: EvLog (day 738761) (until (day 738763))
       :: visits (Scenario.commits1 ++ [ScenarioMore.bad_commit]),
     Err "unreadable object"%string).
Proof.
  apply (first_failure_ends_the_log ScenarioMore.broken_world "repo"
           (day 738761) (day 738763) ScenarioMore.broken_repo
           ScenarioMore.broken_log Scenario.commits1 Scenario.commits5
           ScenarioMore.bad_commit); try reflexivity.
  repeat constructor; eexists; reflexivity.
Defined.

(** When the statistics of every commit of the log can be computed,
    [getGitStats] visits each commit once, in the order of the log, and
    returns the index of all of them, unless the iteration itself broke
    off: then it returns the error of the iterator and no index. *)
Theorem whole_log_is_aggregated (w : World) (path : string)
    (startDate endDate : Time) (repo : Repository) (it : CommitIter) :
  git_PlainOpen w path = Ok repo ->
  Log repo startDate (until endDate) = Ok it ->
  Forall stats_ok (items it) ->
  getGitStats w path startDate endDate
  = (EvPlainOpen path :: EvLog startDate (until endDate) :: visits (items it),
     match iter_err it with
     | Some e => Err e
     | None => aggregate (items it)
     end)
  /\ exists idx, aggregate (items it) = Ok idx.
Proof.
  intros Hopen Hlog Hok. unfold getGitStats.
  rewrite Hopen. fold (until endDate). rewrite Hlog.
  pose proof (RepoFacts.forEach_ok_trace (items it) ∅ Hok) as Htr.
  destruct (AggregateFacts.aggregate_lookup (items it) Hok) as (idx & Hagg & _).
  unfold aggregate in *.
  destruct (forEach (items it) ∅) as [tr r]. simpl in *. subst tr r.
  split; [|eauto]. destruct (iter_err it); reflexivity.
Qed.

Lemma whole_log_is_aggregated_witness :
  snd (getGitStats (Scenario.world Scenario.commits1) "repo"
         (day 738761) (day 738763))
  = aggregate Scenario.commits1.
Proof.
  destruct (whole_log_is_aggregated (Scenario.world Scenario.commits1) "repo"
              (day 738761) (day 738763)
              (ScenarioMore.repo_of Scenario.commits1)
              (ScenarioMore.log_of Scenario.commits1) eq_refl eq_refl)
    as (H & _).
  - repeat constructor; eexists; reflexivity.
  - rewrite H. reflexivity.
Defined.

(** ** The whole run *)

Module MainFacts.

Local Open Scope string_scope.

Lemma printRow_lines (r : row) : printRow r = Some (row_lines r).
Proof.
  destruct r as [d f a de t|x y n]; simpl.
  - apply StringFacts.printTableRow_value.
  - apply StringFacts.printNoChangeRow_value.
Qed.

Lemma runPrints_all (ls : list (list string)) :
  runPrints (map Some ls) = (map Stdout (concat ls), Exit 0).
Proof.
  induction ls as [|l ls IH]; [reflexivity|].
  simpl. rewrite IH. now rewrite map_app.
Qed.

Lemma runPrints_report (rows : list row) :
  runPrints (printTableHeader :: map printRow rows)
  = (map Stdout (header_lines ++ concat (map row_lines rows)), Exit 0).
Proof.
  replace (printTableHeader :: map printRow rows)
    with (map Some (header_lines :: map row_lines rows)).
  - apply runPrints_all.
  - simpl map. rewrite StringFacts.printTableHeader_value. f_equal.
    rewrite map_map. apply map_ext. intros r. symmetry. apply printRow_lines.
Qed.

(** [main] after the validation of its arguments. *)
Lemma main_valid (w : World) (fuel : nat) (prog repo startStr endStr : string)
    (startDate endDate : Time) :
  parseDate startStr = Ok startDate ->
  parseDate endStr = Ok endDate ->
  Before endDate startDate = false ->
  main w fuel [prog; repo; startStr; endStr] =
  match filepath_Abs w repo with
  | Err err =>
      Some ([EvAbs repo;
             Stdout ("Error resolving repository path: " +:+ err +:+ nl)],
            Exit 1)
  | Ok absPath =>
      match getGitStats w absPath startDate endDate with
      | (tr, Err err) =>
          Some ((EvAbs repo :: tr ++
                 [Stdout ("Error getting Git statistics: " +:+ err +:+ nl)])%list,
                Exit 1)
      | (tr, Ok dailyStats) =>
          match report fuel dailyStats startDate endDate with
          | Some rows =>
              Some ((EvAbs repo :: tr ++
                     map Stdout (header_lines ++ concat (map row_lines rows)))%list,
                    Exit 0)
          | None => None
          end
      end
  end.
Proof.
  intros Hs He Hord. unfold main.
  cbn [List.length Nat.eqb negb nth]. rewrite Hs, He, Hord.
  destruct (filepath_Abs w repo) as [absPath|err]; [|reflexivity].
  destruct (getGitStats w absPath startDate endDate) as [tr [idx|err]];
    [|reflexivity].
  destruct (report fuel idx startDate endDate) as [rows|]; [|reflexivity].
  cbn [mbind option_bind]. now rewrite runPrints_report.
Qed.

Lemma stdout_app (tr1 tr2 : list event) :
  stdout (tr1 ++ tr2) = stdout tr1 +:+ stdout tr2.
Proof.
  induction tr1 as [|ev tr1 IH]; [reflexivity|].
  destruct ev; simpl; rewrite IH; try reflexivity.
  now rewrite StringFacts.app_assoc.
Qed.

Lemma app_nil_r (s : string) : s +:+ "" = s.
Proof.
  induction s as [|c s IH]; [reflexivity|].
  rewrite StringFacts.app_cons. now f_equal.
Qed.

Lemma stdout_prints (ls : list string) : stdout (map Stdout ls) = join ls.
Proof. induction ls as [|l ls IH]; [reflexivity|]. simpl. now rewrite IH. Qed.

End MainFacts.

(** With valid arguments and a repository that can be read, [main] ends
    with exit code 0 after it has written the header and then, in order, the
    lines of every row of the report of the index it got: it does not
    panic, and nothing else is written. *)
Theorem main_writes_the_report (w : World) (fuel : nat)
    (prog repo startStr endStr absPath : string) (startDate endDate : Time)
    (tr : list event) (dailyStats : gmap string DailyStats) :
  parseDate startStr = Ok startDate ->
  parseDate endStr = Ok endDate ->
  Before endDate startDate = false ->
  filepath_Abs w repo = Ok absPath ->
  getGitStats w absPath startDate endDate = (tr, Ok dailyStats) ->
  (enough startDate endDate <= fuel)%nat ->
  exists rows,
    report fuel dailyStats startDate endDate = Some rows
    /\ main w fuel [prog; repo; startStr; endStr]
       = Some (EvAbs repo :: tr ++
               map Stdout (header_lines ++ concat (map row_lines rows)),
               Exit 0)
    /\ stdout (EvAbs repo :: tr ++
               map Stdout (header_lines ++ concat (map row_lines rows)))
       = join (header_lines ++ concat (map row_lines rows)).
Proof.
  intros Hs He Hord Habs Hgit Hfuel.
  destruct (report_of_dates dailyStats _ _ _ _ _ Hs He Hord Hfuel)
    as (s & e & rows & _ & _ & _ & Hrep & _).
  exists rows. split; [exact Hrep|]. split.
  - rewrite (MainFacts.main_valid w fuel prog repo startStr endStr _ _ Hs He Hord).
    now rewrite Habs, Hgit, Hrep.
  - change (stdout (EvAbs repo :: ?l)) with (stdout l).
    rewrite MainFacts.stdout_app, MainFacts.stdout_prints.
    replace tr with (fst (getGitStats w absPath startDate endDate))
      by now rewrite Hgit.
    now rewrite RepoFacts.stdout_getGitStats.
Qed.

Lemma main_writes_the_report_witness :
  exists rows,
    report 3 Scenario.index1 (day 738761) (day 738763) = Some rows
    /\ exists tr,
         main (Scenario.world Scenario.commits1) 3
              ["git-stat"; "repo"; "2023-08-30"; "2023-09-01"]
         = Some (tr, Exit 0).
Proof.
  destruct (main_writes_the_report (Scenario.world Scenario.commits1) 3
              "git-stat" "repo" "2023-08-30" "2023-09-01" "/abs/repo"
              (day 738761) (day 738763)
              (EvPlainOpen "/abs/repo"
               :: EvLog (day 738761) (until (day 738763))
               :: visits Scenario.commits1)
              Scenario.index1)
    as (rows & Hrep & Hmain & _);
    [reflexivity | reflexivity | reflexivity | reflexivity
    | vm_compute; reflexivity | vm_compute; lia |].
  exists rows. split; [exact Hrep|]. eexists. exact Hmain.
Defined.

(** A repository that cannot be resolved, opened or read ends [main]
    with exit code 1 and one line that carries the error: no header and no
    row is written, so no part of a report. *)
Theorem repository_error_writes_no_table (w : World) (fuel : nat)
    (prog repo startStr endStr : string) (startDate endDate : Time) :
  parseDate startStr = Ok startDate ->
  parseDate endStr = Ok endDate ->
  Before endDate startDate = false ->
  match filepath_Abs w repo with
  | Err err =>
      main w fuel [prog; repo; startStr; endStr]
      = Some ([EvAbs repo;
               Stdout ("Error resolving repository path: " +:+ err +:+ nl)],
              Exit 1)
  | Ok absPath =>
      forall err,
        snd (getGitStats w absPath startDate endDate) = Err err ->
        exists tr,
          main w fuel [prog; repo; startStr; endStr] = Some (tr, Exit 1)
          /\ stdout tr = "Error getting Git statistics: " +:+ err +:+ nl
  end.
Proof.
  intros Hs He Hord.
  rewrite (MainFacts.main_valid w fuel prog repo startStr endStr _ _ Hs He Hord).
  destruct (filepath_Abs w repo) as [absPath|err]; [|reflexivity].
  intros err Hgit.
  pose proof (RepoFacts.stdout_getGitStats w absPath startDate endDate) as Hout.
  destruct (getGitStats w absPath startDate endDate) as [tr r].
  simpl in Hgit, Hout. subst r.
  eexists. split; [reflexivity|].
  change (stdout (EvAbs repo :: ?l)) with (stdout l).
  rewrite MainFacts.stdout_app, Hout. simpl stdout.
  rewrite MainFacts.app_nil_r. reflexivity.
Qed.

Lemma repository_error_writes_no_table_witness :
  exists tr,
    main ScenarioMore.broken_world 0
         ["git-stat"; "repo"; "2023-08-30"; "2023-09-01"]
    = Some (tr, Exit 1)
    /\ stdout tr = "Error getting Git statistics: unreadable object" +:+ nl.
Proof.
  pose proof (repository_error_writes_no_table ScenarioMore.broken_world 0
              "git-stat" "repo" "2023-08-30" "2023-09-01"
              (day 738761) (day 738763) eq_refl eq_refl eq_refl) as H.
  simpl filepath_Abs in H. cbv beta iota in H.
  destruct (H "unreadable object"%string) as (tr & Hmain & Hout).
  - vm_compute. reflexivity.
  - exists tr. split; [exact Hmain|exact Hout].
Defined.

(** [main] always ends, with exit code 0 or 1 and never by a panic: the
    cells are cut and padded within the bounds of their texts, and the loop
    over the days needs no more iterations than the range has days. *)
Theorem main_ends_with_0_or_1 (w : World) (Args : list string) :
  exists n : nat,
    forall fuel : nat,
      (n <= fuel)%nat ->
      exists tr code,
        main w fuel Args = Some (tr, Exit code) /\ (code = 0 \/ code = 1).
Proof.
  destruct (Nat.eq_dec (List.length Args) 4%nat) as [Hlen|Hlen].
  - destruct Args as [|prog [|repo [|startStr [|endStr [|x Args]]]]];
      try discriminate.
    destruct (parseDate startStr) as [startDate|err] eqn:Hs.
    + destruct (parseDate endStr) as [endDate|err] eqn:He.
      * destruct (Before endDate startDate) eqn:Hord.
        -- exists 0%nat. intros fuel _.
           destruct (main_rejects w fuel _ _
                       (bad_order prog repo startStr endStr _ _ Hs He Hord))
             as (H & _).
           eauto.
        -- exists (enough startDate endDate). intros fuel Hfuel.
           rewrite (MainFacts.main_valid w fuel prog repo startStr endStr
                      _ _ Hs He Hord).
           destruct (filepath_Abs w repo) as [absPath|err]; [|eauto].
           destruct (getGitStats w absPath startDate endDate)
             as [tr [idx|err]]; [|eauto].
           destruct (report_of_dates idx _ _ _ _ _ Hs He Hord Hfuel)
             as (s & e & rows & _ & _ & _ & Hrep & _).
           rewrite Hrep. eauto.
      * exists 0%nat. intros fuel _.
        destruct (main_rejects w fuel _ _
                    (bad_end prog repo startStr endStr _ err Hs He)) as (H & _).
        eauto.
    + exists 0%nat. intros fuel _.
      destruct (main_rejects w fuel _ _
                  (bad_start prog repo startStr endStr err Hs)) as (H & _).
      eauto.
  - exists 0%nat. intros fuel _.
    destruct (main_rejects w fuel _ _ (bad_count Args Hlen)) as (H & _).
    eauto.
Qed.

(** ** More on the aggregation *)

Module MergeFacts.

Lemma wrap_add (x y : Z) : wrap (wrap x + wrap y) = wrap (x + y).
Proof.
  rewrite AggregateFacts.wrap_add_l, Z.add_comm,
    AggregateFacts.wrap_add_l. f_equal. lia.
Qed.

Lemma sumZ_app (l1 l2 : list Z) : sumZ (l1 ++ l2) = sumZ l1 + sumZ l2.
Proof. unfold sumZ. induction l1 as [|x l1 IH]; simpl; lia. Qed.

Lemma on_day_app (D : string) (cs1 cs2 : list Commit) :
  on_day D (cs1 ++ cs2) = on_day D cs1 ++ on_day D cs2.
Proof. unfold on_day. apply List.filter_app. Qed.

Lemma day_stats_app (D : string) (cs1 cs2 : list Commit) :
  day_stats D (cs1 ++ cs2) = day_stats D cs1 ++ day_stats D cs2.
Proof. unfold day_stats. rewrite on_day_app. apply flat_map_app. Qed.

End MergeFacts.

(** The index of a history in two parts is the index of the first part
    merged with the index of the second: a day of both has the union of
    the two sets of files and the [int] sums of the two totals, a day of
    one part only keeps its entry. *)
Theorem aggregate_in_parts (cs1 cs2 : list Commit) :
  Forall stats_ok cs1 -> Forall stats_ok cs2 ->
  exists i1 i2,
    aggregate cs1 = Ok i1 /\ aggregate cs2 = Ok i2
    /\ aggregate (cs1 ++ cs2) = Ok (merge_index i1 i2).
Proof.
  intros H1 H2.
  destruct (AggregateFacts.aggregate_lookup cs1 H1) as (i1 & Ha1 & Hl1).
  destruct (AggregateFacts.aggregate_lookup cs2 H2) as (i2 & Ha2 & Hl2).
  destruct (AggregateFacts.aggregate_lookup (cs1 ++ cs2)) as (i & Ha & Hl).
  { apply Forall_app. split; assumption. }
  exists i1, i2. split; [exact Ha1|]. split; [exact Ha2|].
  rewrite Ha. f_equal. apply map_eq. intros D.
  unfold merge_index. rewrite lookup_union_with, Hl, Hl1, Hl2.
  rewrite MergeFacts.day_stats_app, MergeFacts.on_day_app, length_app.
  destruct (on_day D cs1) as [|c1 l1] eqn:E1, (on_day D cs2) as [|c2 l2] eqn:E2;
    simpl List.length; cbn [Nat.eqb Nat.add union_with option_union_with].
  - reflexivity.
  - replace (day_stats D cs1) with (@nil FileStat)
      by (unfold day_stats; now rewrite E1).
    reflexivity.
  - replace (day_stats D cs2) with (@nil FileStat)
      by (unfold day_stats; now rewrite E2).
    rewrite !app_nil_r. reflexivity.
  - rewrite !map_app, !MergeFacts.sumZ_app. unfold merge_stats. simpl.
    f_equal. f_equal.
    + apply set_eq. intros f. rewrite list_to_set_app. reflexivity.
    + unfold int_add. now rewrite MergeFacts.wrap_add.
    + unfold int_add. now rewrite MergeFacts.wrap_add.
Qed.

Lemma aggregate_in_parts_witness :
  exists i1 i2,
    aggregate Scenario.commits1 = Ok i1 /\ aggregate Scenario.commits5 = Ok i2
    /\ aggregate (Scenario.commits1 ++ Scenario.commits5) = Ok (merge_index i1 i2).
Proof.
  apply aggregate_in_parts; repeat constructor; eexists; reflexivity.
Defined.

(** A day whose commits have no per-file delta at all (empty commits)
    still has an entry, with no file and totals 0: it is an active day. *)
Theorem empty_commits_make_an_entry (cs : list Commit) (D : string) :
  Forall stats_ok cs ->
  on_day D cs <> [] ->
  day_stats D cs = [] ->
  exists idx, aggregate cs = Ok idx /\ idx !! D = Some newDailyStats.
Proof.
  intros Hok Hday Hnone.
  destruct (AggregateFacts.aggregate_lookup cs Hok) as (idx & Hagg & Hl).
  exists idx. split; [exact Hagg|]. rewrite Hl, Hnone.
  destruct (on_day D cs); [congruence|]. reflexivity.
Qed.

Lemma empty_commits_make_an_entry_witness :
  exists idx,
    aggregate [ScenarioMore.empty_commit] = Ok idx
    /\ idx !! "2023-08-31"%string = Some newDailyStats.
Proof.
  apply empty_commits_make_an_entry.
  - repeat constructor; eexists; reflexivity.
  - vm_compute. discriminate.
  - reflexivity.
Defined.

(** ** More on the rows *)

Module RowFacts.

Section Rows.

Variable dailyStats : gmap string DailyStats.
Variables s e : Z.
Variable rows : list row.
Hypothesis rows_cover : covers s rows e.
Hypothesis rows_ok : Forall (row_ok dailyStats s e) rows.

(** A day with an entry has its Active row. *)
Lemma entry_has_row (k : Z) (stats : DailyStats) :
  s <= k <= e ->
  dailyStats !! Format_date (day k) = Some stats ->
  exists i : nat, rows !! i = Some (active_row k stats).
Proof.
  intros Hk Hlook.
  destruct (ReportFacts.covers_day rows s e k rows_cover Hk) as (i & r & Hi & Hspan).
  exists i. rewrite Hi. f_equal.
  pose proof (ReportFacts.row_ok_at dailyStats s e rows rows_ok i r Hi) as Hok.
  destruct r as [d f a de t|x y n]; simpl in Hok, Hspan.
  - destruct Hok as (k' & stats' & -> & _ & Hlook' & -> & -> & -> & ->).
    rewrite dayNum_day in Hspan. assert (k' = k) by lia. subst k'.
    rewrite Hlook in Hlook'. injection Hlook' as <-. reflexivity.
  - exfalso. destruct Hok as (a & b & -> & -> & _ & _ & _ & _ & Hin & _).
    rewrite !dayNum_day in Hspan. specialize (Hin k Hspan).
    unfold inactive in Hin. congruence.
Qed.

(** An Active row is a day of the range with an entry, and carries it. *)
Lemma row_has_entry (i : nat) (d : Time) (f a de t : Z) :
  rows !! i = Some (ActiveRow d f a de t) ->
  exists k stats,
    s <= k <= e /\ dailyStats !! Format_date (day k) = Some stats
    /\ ActiveRow d f a de t = active_row k stats.
Proof.
  intros Hi.
  pose proof (ReportFacts.row_ok_at dailyStats s e rows rows_ok i _ Hi) as Hok.
  destruct Hok as (k & stats & -> & Hk & Hlook & -> & -> & -> & ->).
  exists k, stats. repeat split; try lia; assumption.
Qed.

(** The days of the rows are days of the range. *)
Lemma row_in_range (i : nat) (r : row) :
  rows !! i = Some r ->
  match r with
  | ActiveRow d _ _ _ _ => exists k, d = day k /\ s <= k <= e
  | GapRow x y _ =>
      exists a b, x = day a /\ y = day b /\ s <= a /\ a <= b /\ b <= e
  end.
Proof.
  intros Hi.
  pose proof (ReportFacts.row_ok_at dailyStats s e rows rows_ok i _ Hi) as Hok.
  destruct r as [d f a de t|x y n].
  - destruct Hok as (k & stats & -> & Hk & _). eauto.
  - destruct Hok as (a & b & -> & -> & _ & Ha & Hab & Hb & _).
    exists a, b. auto.
Qed.

End Rows.

Lemma Format_date_local (t : Time) : Format_date t = Format_date (day (dayNum t)).
Proof.
  unfold Format_date. rewrite Date_day. reflexivity.
Qed.

Lemma length_Format_date (k : Z) :
  firstDay <= k <= lastDay -> String.length (Format_date (day k)) = 10%nat.
Proof.
  intros Hk.
  destruct (DateStringFacts.Format_date_window k Hk)
    as (y & m & d & _ & _ & _ & _ & ->).
  reflexivity.
Qed.

End RowFacts.

(** The Active rows of a report are the days of the range that have an
    entry in the index, each with the figures of its entry: the number of
    its files, its additions and deletions, and as total changes their
    [int] sum. *)
Theorem active_rows_are_the_entries (dailyStats : gmap string DailyStats)
    (startStr endStr : string) (startDate endDate : Time) (fuel : nat) :
  parseDate startStr = Ok startDate ->
  parseDate endStr = Ok endDate ->
  Before endDate startDate = false ->
  (enough startDate endDate <= fuel)%nat ->
  exists rows,
    report fuel dailyStats startDate endDate = Some rows
    /\ (forall k stats,
          dayNum startDate <= k <= dayNum endDate ->
          dailyStats !! Format_date (day k) = Some stats ->
          exists i : nat, rows !! i = Some (active_row k stats))
    /\ (forall (i : nat) d f a de t,
          rows !! i = Some (ActiveRow d f a de t) ->
          exists k stats,
            dayNum startDate <= k <= dayNum endDate
            /\ dailyStats !! Format_date (day k) = Some stats
            /\ ActiveRow d f a de t = active_row k stats
            /\ 0 <= f /\ t = int_add a de).
Proof.
  intros Hs He Hord Hfuel.
  destruct (report_of_dates dailyStats _ _ _ _ _ Hs He Hord Hfuel)
    as (s & e & rows & -> & -> & Hse & Hrep & Hcov & Hok).
  exists rows. rewrite !dayNum_day. split; [exact Hrep|]. split.
  - intros k stats. apply (RowFacts.entry_has_row dailyStats s e rows Hcov Hok).
  - intros i d f a de t Hi.
    destruct (RowFacts.row_has_entry dailyStats s e rows Hok i d f a de t Hi)
      as (k & stats & Hk & Hlook & Heq).
    exists k, stats. split; [exact Hk|]. split; [exact Hlook|].
    split; [exact Heq|]. injection Heq as -> -> -> -> ->. split; [lia|reflexivity].
Qed.

Lemma active_rows_are_the_entries_witness :
  exists rows (i : nat),
    report 3 Scenario.index1 (day 738761) (day 738763) = Some rows
    /\ rows !! i = Some (ActiveRow (day 738761) 2 10 2 12).
Proof.
  destruct (active_rows_are_the_entries Scenario.index1 "2023-08-30" "2023-09-01"
              (day 738761) (day 738763) 3)
    as (rows & Hrep & Hrow & _);
    [reflexivity | reflexivity | reflexivity | vm_compute; lia |].
  destruct (Hrow 738761 (mkDailyStats ({["a.go"%string]} ∪ {["b.go"%string]}) 10 2))
    as (i & Hi).
  - rewrite !dayNum_day. lia.
  - vm_compute. reflexivity.
  - exists rows, i. split; [exact Hrep|]. exact Hi.
Defined.



(** ** More on the cells *)

Module CellFacts.

Lemma length_digits_bound (fuel : nat) :
  forall (k : nat) (n : Z) (acc : string),
    (1 <= k)%nat -> 0 <= n < 10 ^ Z.of_nat k ->
    (String.length (digits fuel n acc) <= k + String.length acc)%nat.
Proof.
  induction fuel as [|fuel IH]; intros k n acc Hk Hn; simpl; [lia|].
  destruct (Z.ltb_spec n 10) as [Hlt|Hge]; simpl; [lia|].
  destruct k as [|[|k]]; [lia| |].
  - change (10 ^ Z.of_nat 1) with 10 in Hn. lia.
  - specialize (IH (S k) (n / 10) (String (digit_char (n mod 10)) acc)).
    simpl String.length in IH.
    assert (0 <= n / 10 < 10 ^ Z.of_nat (S k)).
    { replace (Z.of_nat (S (S k))) with (Z.of_nat (S k) + 1) in Hn by lia.
      rewrite Z.pow_add_r, Z.pow_1_r in Hn by lia.
      split; [apply Z.div_pos; lia|].
      apply Z.div_lt_upper_bound; lia. }
    specialize (IH ltac:(lia) ltac:(assumption)). lia.
Qed.

Lemma length_fmt_d_bound (k : nat) (n : Z) :
  (1 <= k)%nat -> 0 <= n < 10 ^ Z.of_nat k ->
  (String.length (fmt_d n) <= k)%nat.
Proof.
  intros Hk Hn. unfold fmt_d, utoa.
  destruct (Z.ltb_spec n 0) as [Hneg|Hpos]; [lia|].
  pose proof (length_digits_bound 20 k n "" Hk Hn) as H.
  change (String.length "") with 0%nat in H. lia.
Qed.

Lemma centre_cell_short (text : string) (width : nat) :
  (String.length text < width)%nat ->
  centred text width (centre_cell text width).
Proof.
  intros H. destruct (StringFacts.centre_cell_spec text width) as [_ Hc].
  destruct (Nat.ltb_spec (String.length text) width); [exact Hc|lia].
Qed.

End CellFacts.

(** [centerText] and [padText] give a cell of exactly the width asked for,
    whatever the text, when the width is not negative; with a negative width
    they panic (a slice out of range). *)
Theorem cells_have_the_width (text : string) (width : Z) :
  centerText text width =
    (if width <? 0 then None else Some (centre_cell text (Z.to_nat width)))
  /\ padText text width =
    (if width <? 0 then None else Some (pad_cell text (Z.to_nat width)))
  /\ len (centre_cell text (Z.to_nat width)) = Z.max 0 width
  /\ len (pad_cell text (Z.to_nat width)) = Z.max 0 width.
Proof.
  assert (Hlen : 0 <= len text) by (unfold len; lia).
  destruct (Z.ltb_spec width 0) as [Hneg|Hpos].
  - unfold len. rewrite StringFacts.centre_cell_length, StringFacts.pad_cell_length.
    repeat split; try lia.
    + unfold centerText, slice_to.
      destruct (Z.geb_spec (len text) width); [|lia].
      destruct (Z.leb_spec 0 width); [lia|]. reflexivity.
    + unfold padText, slice_to.
      destruct (Z.geb_spec (len text) width); [|lia].
      destruct (Z.leb_spec 0 width); [lia|]. reflexivity.
  - unfold len. rewrite StringFacts.centre_cell_length, StringFacts.pad_cell_length.
    rewrite <- (Z2Nat.id width) at 1 3 by exact Hpos.
    rewrite StringFacts.centerText_value, StringFacts.padText_value.
    repeat split; lia.
Qed.

(** The four numbers of an Active row are written in full and centred
    whenever the number of files and the total are below 10^14 and the
    additions and deletions below 10^10: no digit is cut. *)
Theorem counts_are_written_in_full (d : Time)
    (filesChanged additions deletions totalChanges : Z) :
  0 <= filesChanged < 10 ^ 14 ->
  0 <= additions < 10 ^ 10 ->
  0 <= deletions < 10 ^ 10 ->
  0 <= totalChanges < 10 ^ 14 ->
  exists c1 c2 c3 c4 c5,
    printRow (ActiveRow d filesChanged additions deletions totalChanges) =
    Some [c1 +:+ "|" +:+ c2 +:+ "|" +:+ c3 +:+ "|" +:+ c4 +:+ "|" +:+ c5 +:+ nl;
          rule +:+ nl]
    /\ centred (fmt_d filesChanged) 15 c2
    /\ centred (fmt_d additions) 11 c3
    /\ centred (fmt_d deletions) 11 c4
    /\ centred (fmt_d totalChanges) 15 c5.
Proof.
  intros Hf Ha Hd Ht. simpl. rewrite StringFacts.printTableRow_value.
  do 5 eexists. split; [reflexivity|].
  pose proof (CellFacts.length_fmt_d_bound 14 filesChanged ltac:(lia) Hf).
  pose proof (CellFacts.length_fmt_d_bound 10 additions ltac:(lia) Ha).
  pose proof (CellFacts.length_fmt_d_bound 10 deletions ltac:(lia) Hd).
  pose proof (CellFacts.length_fmt_d_bound 14 totalChanges ltac:(lia) Ht).
  repeat split; apply CellFacts.centre_cell_short; lia.
Qed.

Lemma counts_are_written_in_full_witness :
  exists c1 c2 c3 c4 c5,
    printRow (ActiveRow (day 738761) 2 10 2 12) =
    Some [c1 +:+ "|" +:+ c2 +:+ "|" +:+ c3 +:+ "|" +:+ c4 +:+ "|" +:+ c5 +:+ nl;
          rule +:+ nl]
    /\ centred (fmt_d 2) 15 c2
    /\ centred (fmt_d 10) 11 c3
    /\ centred (fmt_d 2) 11 c4
    /\ centred (fmt_d 12) 15 c5.
Proof.
  apply (counts_are_written_in_full (day 738761) 2 10 2 12); lia.
Defined.

(** ** The key of a commit *)

Module BucketFacts.

Lemma on_day_cons (D : string) (c : Commit) (cs : list Commit) :
  on_day D (c :: cs) =
  if String.eqb (commitDate c) D then c :: on_day D cs else on_day D cs.
Proof. reflexivity. Qed.

(** The entry of a day, from the deltas of its commits. *)
Lemma closed_fold (l stats : list FileStat) :
  fold_left (fun ds stat => addStat stat ds) stats
    (mkDailyStats (list_to_set (map Name l))
                  (wrap (sumZ (map Addition l)))
                  (wrap (sumZ (map Deletion l))))
  = mkDailyStats (list_to_set (map Name stats) ∪ list_to_set (map Name l))
                 (wrap (sumZ (map Addition l) + sumZ (map Addition stats)))
                 (wrap (sumZ (map Deletion l) + sumZ (map Deletion stats))).
Proof.
  now rewrite (AggregateFacts.addStat_fold stats _
                 (sumZ (map Addition l)) (sumZ (map Deletion l))).
Qed.

(** What one more commit, anywhere in the log, changes in the index:
    only the entry under its own day, which takes its deltas. *)
Lemma aggregate_with_commit (pre post : list Commit) (c : Commit)
    (stats : list FileStat) :
  Forall stats_ok (pre ++ post) ->
  Stats c = Ok stats ->
  exists i0 i1,
    aggregate (pre ++ post) = Ok i0
    /\ aggregate (pre ++ c :: post) = Ok i1
    /\ (forall D, D <> commitDate c -> i1 !! D = i0 !! D)
    /\ i1 !! commitDate c =
       Some (fold_left (fun ds stat => addStat stat ds) stats
                       (default newDailyStats (i0 !! commitDate c))).
Proof.
  intros Hok Hs.
  assert (Hok1 : Forall stats_ok (pre ++ c :: post)).
  { apply Forall_app in Hok as [Hpre Hpost]. apply Forall_app. split; [exact Hpre|].
    constructor; [exists stats; exact Hs|exact Hpost]. }
  destruct (AggregateFacts.aggregate_lookup _ Hok) as (i0 & Ha0 & Hl0).
  destruct (AggregateFacts.aggregate_lookup _ Hok1) as (i1 & Ha1 & Hl1).
  exists i0, i1. split; [exact Ha0|]. split; [exact Ha1|].
  assert (Hstats : stats_of c = stats) by (unfold stats_of; now rewrite Hs).
  split.
  - intros D HD. rewrite Hl1, Hl0.
    assert (Hday : on_day D (pre ++ c :: post) = on_day D (pre ++ post)).
    { rewrite !MergeFacts.on_day_app, on_day_cons.
      destruct (String.eqb_spec (commitDate c) D); [congruence|reflexivity]. }
    unfold day_stats. now rewrite Hday.
  - rewrite Hl1, Hl0.
    assert (Hday : on_day (commitDate c) (pre ++ c :: post)
                   = on_day (commitDate c) pre ++ c :: on_day (commitDate c) post).
    { rewrite MergeFacts.on_day_app, on_day_cons, String.eqb_refl. reflexivity. }
    assert (Hds : day_stats (commitDate c) (pre ++ c :: post)
                  = day_stats (commitDate c) pre ++ stats
                    ++ day_stats (commitDate c) post).
    { unfold day_stats. rewrite Hday, flat_map_app. simpl. now rewrite Hstats. }
    rewrite Hday, Hds, length_app. simpl List.length.
    replace (List.length (on_day (commitDate c) pre)
             + S (List.length (on_day (commitDate c) post)))%nat
      with (S (List.length (on_day (commitDate c) pre)
               + List.length (on_day (commitDate c) post)))%nat by lia.
    cbn [Nat.eqb]. f_equal.
    rewrite MergeFacts.day_stats_app, MergeFacts.on_day_app, length_app.
    set (l1 := day_stats (commitDate c) pre).
    set (l2 := day_stats (commitDate c) post).
    destruct (Nat.eqb_spec (List.length (on_day (commitDate c) pre)
                            + List.length (on_day (commitDate c) post)) 0)
      as [Hnone|Hsome].
    + assert (Hl1' : l1 = []).
      { subst l1. unfold day_stats.
        destruct (on_day (commitDate c) pre); [reflexivity|simpl in Hnone; lia]. }
      assert (Hl2' : l2 = []).
      { subst l2. unfold day_stats.
        destruct (on_day (commitDate c) post); [reflexivity|simpl in Hnone; lia]. }
      rewrite Hl1', Hl2', app_nil_r. simpl app. simpl default.
      rewrite (AggregateFacts.addStat_fold stats newDailyStats 0 0) by reflexivity.
      simpl. f_equal. set_solver.
    + simpl default. rewrite closed_fold.
      rewrite !map_app, !MergeFacts.sumZ_app. f_equal.
      * apply set_eq. intros f. rewrite !elem_of_union, !elem_of_list_to_set.
        rewrite !elem_of_app. tauto.
      * f_equal. lia.
      * f_equal. lia.
Qed.

End BucketFacts.

(** C6: every commit, wherever it stands in the log, is bucketed under the
    date of its author timestamp taken in the zone of that timestamp: the
    key is the date of the instant moved by the timestamp's own offset; with
    the commit in the log, the entry under that key is the entry without it
    grown by the commit's deltas, and no other entry differs; the committer
    timestamps play no part (any other committer signatures give the same
    index).  So a commit authored at 07:30 of 2023-08-31 in the zone +08:00
    falls on 2023-08-31, although its instant is of 2023-08-30 in UTC and its
    committer timestamp of 2023-09-01. *)
Theorem commit_day_is_author_date (pre post : list Commit) (c : Commit)
    (stats : list FileStat) (committer : Commit -> Signature) :
  Forall stats_ok (pre ++ post) ->
  Stats c = Ok stats ->
  let t := When (Author c) in
  let key := Format_date (day ((sec t + offset t) / 86400)) in
  key = Format_date t
  /\ (exists i0 i1,
        aggregate (pre ++ post) = Ok i0
        /\ aggregate (pre ++ c :: post) = Ok i1
        /\ (forall D, D <> key -> i1 !! D = i0 !! D)
        /\ i1 !! key =
           Some (fold_left (fun ds stat => addStat stat ds) stats
                           (default newDailyStats (i0 !! key)))
        /\ aggregate (map (with_committer committer) (pre ++ c :: post)) = Ok i1)
  /\ (exists ds,
        aggregate [Scenario.authored_east] = Ok {["2023-08-31"%string := ds]})
  /\ Format_date (mkTime (sec (When (Author Scenario.authored_east))) 0)
     = "2023-08-30"%string
  /\ Format_date (When (Committer Scenario.authored_east))
     = "2023-09-01"%string.
Proof.
  intros Hok Hs t key.
  assert (Hkey : key = commitDate c).
  { subst key t. unfold commitDate. symmetry. apply RowFacts.Format_date_local. }
  split; [exact Hkey|]. split.
  { rewrite Hkey.
    destruct (BucketFacts.aggregate_with_commit pre post c stats Hok Hs)
      as (i0 & i1 & H0 & H1 & Hother & Hown).
    exists i0, i1. repeat split; try assumption.
    unfold aggregate in *. now rewrite forEach_committer. }
  split.
  { eexists. apply (aggregate_one Scenario.authored_east _ eq_refl). }
  split; vm_compute; reflexivity.
Qed.

Lemma commit_day_is_author_date_witness :
  exists i0 i1,
    aggregate (Scenario.commits1 ++ Scenario.commits5) = Ok i0
    /\ aggregate (Scenario.commits1 ++ Scenario.authored_east :: Scenario.commits5)
       = Ok i1
    /\ (forall D, D <> "2023-08-31"%string -> i1 !! D = i0 !! D)
    /\ is_Some (i1 !! "2023-08-31"%string).
Proof.
  destruct (commit_day_is_author_date Scenario.commits1 Scenario.commits5
              Scenario.authored_east [mkFileStat "a.go" 1 0]
              (fun c => Committer c))
    as (Hkey & (i0 & i1 & H0 & H1 & Hother & Hown & _) & _).
  - repeat constructor; eexists; reflexivity.
  - reflexivity.
  - exists i0, i1. split; [exact H0|]. split; [exact H1|].
    change (Format_date (When (Author Scenario.authored_east)))
      with "2023-08-31"%string in Hkey.
    rewrite Hkey in Hother, Hown.
    split; [exact Hother|]. rewrite Hown. eauto.
Defined.

(** ** From the log to the table *)

Module RunFacts.

Local Open Scope string_scope.

Lemma getGitStats_ok (w : World) (path : string) (startDate endDate : Time)
    (repo : Repository) (it : CommitIter) :
  git_PlainOpen w path = Ok repo ->
  Log repo startDate (until endDate) = Ok it ->
  iter_err it = None ->
  Forall stats_ok (items it) ->
  exists idx,
    aggregate (items it) = Ok idx
    /\ (forall D, idx !! D =
          if Nat.eqb (List.length (on_day D (items it))) 0 then None
          else Some (mkDailyStats
                       (list_to_set (map Name (day_stats D (items it))))
                       (wrap (sumZ (map Addition (day_stats D (items it)))))
                       (wrap (sumZ (map Deletion (day_stats D (items it)))))))
    /\ getGitStats w path startDate endDate
       = (EvPlainOpen path :: EvLog startDate (until endDate)
            :: visits (items it), Ok idx).
Proof.
  intros Hopen Hlog Hiter Hok.
  destruct (AggregateFacts.aggregate_lookup (items it) Hok) as (idx & Hagg & Hl).
  exists idx. split; [exact Hagg|]. split; [exact Hl|].
  unfold getGitStats. rewrite Hopen. fold (until endDate). rewrite Hlog.
  pose proof (RepoFacts.forEach_ok_trace (items it) ∅ Hok) as Htr.
  unfold aggregate in Hagg.
  destruct (forEach (items it) ∅) as [tr r]. simpl in *. subst tr r.
  now rewrite Hiter.
Qed.

Lemma lines_of_row (rows : list row) (i : nat) (r : row) (line : string) :
  rows !! i = Some r -> In line (row_lines r) ->
  In line (concat (map row_lines rows)).
Proof.
  intros Hi Hline. apply in_concat. exists (row_lines r).
  split; [|exact Hline]. apply in_map.
  apply list_elem_of_In. eapply list_elem_of_lookup_2. exact Hi.
Qed.

Lemma length_range_label (a b : Z) :
  (firstDay <= a <= lastDay)%Z -> (firstDay <= b <= lastDay)%Z ->
  String.length (formatDateRange (day a) (day b))
  = if (Year (day a) =? Year (day b))%Z then 18%nat else 23%nat.
Proof.
  intros Ha Hb. unfold formatDateRange.
  destruct (Year (day a) =? Year (day b))%Z;
    rewrite !StringFacts.length_app, RowFacts.length_Format_date by assumption.
  - rewrite StringFacts.length_Format_month_day. reflexivity.
  - rewrite RowFacts.length_Format_date by assumption. reflexivity.
Qed.

Lemma pad_cell_of_length (text : string) (n : nat) :
  (String.length text = n)%nat -> (n < 25)%nat ->
  pad_cell text 25 = text +:+ spaces (25 - n).
Proof.
  intros Hlen Hn. unfold pad_cell. rewrite Hlen.
  destruct (Nat.leb_spec 25 n); [lia|reflexivity].
Qed.

End RunFacts.

(** From the log to the table, through [main]: when the arguments are
    valid, the repository opens, the log query and every [Stats()] succeed,
    and the log returns a commit whose author date, in the zone of its
    timestamp, is a day of the requested range, then [main] ends with exit
    code 0 and has written every line of the Active row of that day, with
    the figures of the entry filed under the commit's date.  (Which commits
    the log returns for the window is the collaborator's business.) *)
Theorem logged_commit_is_printed (w : World) (fuel : nat)
    (prog repo startStr endStr absPath : string) (startDate endDate : Time)
    (r : Repository) (it : CommitIter) (c : Commit) :
  parseDate startStr = Ok startDate ->
  parseDate endStr = Ok endDate ->
  Before endDate startDate = false ->
  filepath_Abs w repo = Ok absPath ->
  git_PlainOpen w absPath = Ok r ->
  Log r startDate (until endDate) = Ok it ->
  iter_err it = None ->
  Forall stats_ok (items it) ->
  In c (items it) ->
  dayNum startDate <= dayNum (When (Author c)) <= dayNum endDate ->
  (enough startDate endDate <= fuel)%nat ->
  exists tr stats out,
    main w fuel [prog; repo; startStr; endStr] = Some (tr, Exit 0)
    /\ snd (getGitStats w absPath startDate endDate)
       = aggregate (items it)
    /\ (exists idx, aggregate (items it) = Ok idx
                    /\ idx !! Format_date (When (Author c)) = Some stats)
    /\ printRow (active_row (dayNum (When (Author c))) stats) = Some out
    /\ forall line, In line out -> In (Stdout line) tr.
Proof.
  intros Hs He Hord Habs Hopen Hlog Hiter Hok Hin Hk Hfuel.
  destruct (RunFacts.getGitStats_ok w absPath startDate endDate r it
              Hopen Hlog Hiter Hok) as (idx & Hagg & Hl & Hgit).
  destruct (report_of_dates idx _ _ _ _ _ Hs He Hord Hfuel)
    as (s & e & rows & Hsd & Hed & Hse & Hrep & Hcov & Hrows).
  subst startDate endDate. rewrite !dayNum_day in Hk.
  assert (Hday : on_day (commitDate c) (items it) <> []).
  { unfold on_day. intros Hnil.
    assert (Hc : In c (List.filter
                        (fun c0 => String.eqb (commitDate c0) (commitDate c))
                        (items it))).
    { apply List.filter_In. split; [exact Hin|apply String.eqb_refl]. }
    rewrite Hnil in Hc. exact Hc. }
  pose proof (Hl (commitDate c)) as Hlook.
  destruct (on_day (commitDate c) (items it)) as [|c0 l]; [congruence|].
  simpl in Hlook.
  match type of Hlook with
  | _ = Some ?st =>
      destruct (RowFacts.entry_has_row idx s e rows Hcov Hrows
                  (dayNum (When (Author c))) st Hk) as (i & Hi);
        [rewrite <- RowFacts.Format_date_local; exact Hlook|];
      eexists _, st, (row_lines (active_row (dayNum (When (Author c))) st))
  end.
  split.
  { rewrite (MainFacts.main_valid w fuel prog repo startStr endStr _ _ Hs He Hord).
    rewrite Habs, Hgit, Hrep. reflexivity. }
  split; [rewrite Hgit, Hagg; reflexivity|].
  split; [exists idx; split; [exact Hagg|exact Hlook]|].
  split; [apply MainFacts.printRow_lines|].
  intros line Hline. right. apply in_or_app. right.
  apply in_map. apply in_or_app. right.
  exact (RunFacts.lines_of_row rows i _ line Hi Hline).
Qed.

Lemma logged_commit_is_printed_witness :
  exists tr stats out,
    main (Scenario.world [Scenario.authored_east]) 3
         ["git-stat"; "repo"; "2023-08-30"; "2023-09-01"] = Some (tr, Exit 0)
    /\ printRow (active_row 738762 stats) = Some out
    /\ forall line, In line out -> In (Stdout line) tr.
Proof.
  destruct (logged_commit_is_printed (Scenario.world [Scenario.authored_east]) 3
              "git-stat" "repo" "2023-08-30" "2023-09-01" "/abs/repo"
              (day 738761) (day 738763)
              (ScenarioMore.repo_of [Scenario.authored_east])
              (ScenarioMore.log_of [Scenario.authored_east])
              Scenario.authored_east)
    as (tr & stats & out & Hmain & _ & _ & Hrow & Hlines);
    [reflexivity | reflexivity | reflexivity | reflexivity | reflexivity
    | reflexivity | reflexivity
    | repeat constructor; eexists; reflexivity
    | left; reflexivity
    | vm_compute; split; discriminate
    | vm_compute; lia |].
  exists tr, stats, out. split; [exact Hmain|]. split; [exact Hrow|exact Hlines].
Defined.

(** No label of a report is cut by [padText]: the date of an Active row
    has 10 bytes and is written followed by 15 spaces; the range of a Gap
    row has 18 bytes when its two days are of the same year and 23
    otherwise, and is written followed by 7 or 2 spaces.  This is the first
    cell of the text line [printTableRow] and [printNoChangeRow] write for
    the row. *)
Theorem labels_are_written_whole (dailyStats : gmap string DailyStats)
    (startStr endStr : string) (startDate endDate : Time) (fuel : nat) :
  parseDate startStr = Ok startDate ->
  parseDate endStr = Ok endDate ->
  Before endDate startDate = false ->
  (enough startDate endDate <= fuel)%nat ->
  exists rows,
    report fuel dailyStats startDate endDate = Some rows
    /\ forall (i : nat) r,
         rows !! i = Some r ->
         match r with
         | ActiveRow d f a de t =>
             String.length (Format_date d) = 10%nat
             /\ padText (Format_date d) dateRangeWidth
                = Some (Format_date d +:+ spaces 15)
             /\ exists rest,
                  printRow r =
                  Some [(Format_date d +:+ spaces 15) +:+ "|" +:+ rest;
                        rule +:+ nl]
         | GapRow x y n =>
             let pad := if Year x =? Year y then 7%nat else 2%nat in
             String.length (formatDateRange x y)
             = (if Year x =? Year y then 18%nat else 23%nat)
             /\ padText (formatDateRange x y) dateRangeWidth
                = Some (formatDateRange x y +:+ spaces pad)
             /\ exists top rest bottom,
                  printRow r =
                  Some [top;
                        colorOrange +:+ (formatDateRange x y +:+ spaces pad)
                          +:+ colorReset +:+ rest;
                        bottom]
         end.
Proof.
  intros Hs He Hord Hfuel.
  destruct (DateStringFacts.parseDate_window _ _ Hs) as (s0 & Hs0 & Hws).
  destruct (DateStringFacts.parseDate_window _ _ He) as (e0 & He0 & Hwe).
  destruct (report_of_dates dailyStats _ _ _ _ _ Hs He Hord Hfuel)
    as (s & e & rows & Hsd & Hed & Hse & Hrep & Hcov & Hok).
  assert (s0 = s) by (apply ReportFacts.day_inj; congruence).
  assert (e0 = e) by (apply ReportFacts.day_inj; congruence).
  subst s0 e0. exists rows. split; [exact Hrep|].
  intros i r Hi.
  pose proof (RowFacts.row_in_range dailyStats s e rows Hok i r Hi) as Hr.
  change dateRangeWidth with (Z.of_nat 25).
  destruct r as [d f a de t|x y n].
  - destruct Hr as (k & -> & Hk).
    assert (Hlen : String.length (Format_date (day k)) = 10%nat)
      by (apply RowFacts.length_Format_date; lia).
    pose proof (RunFacts.pad_cell_of_length _ 10 Hlen ltac:(lia)) as Hcell.
    split; [exact Hlen|]. split.
    + rewrite StringFacts.padText_value, Hcell. reflexivity.
    + simpl printRow. rewrite StringFacts.printTableRow_value, Hcell.
      eexists. reflexivity.
  - destruct Hr as (a & b & -> & -> & Ha & Hab & Hb). cbv zeta.
    pose proof (RunFacts.length_range_label a b ltac:(lia) ltac:(lia)) as Hlen.
    assert (Hcell : pad_cell (formatDateRange (day a) (day b)) 25
                    = formatDateRange (day a) (day b)
                      +:+ spaces (if Year (day a) =? Year (day b)
                                  then 7%nat else 2%nat)).
    { destruct (Year (day a) =? Year (day b)).
      - apply (RunFacts.pad_cell_of_length _ 18 Hlen). lia.
      - apply (RunFacts.pad_cell_of_length _ 23 Hlen). lia. }
    split; [exact Hlen|]. split.
    + rewrite StringFacts.padText_value, Hcell. reflexivity.
    + simpl printRow. rewrite StringFacts.printNoChangeRow_value, Hcell.
      do 3 eexists. reflexivity.
Qed.

Lemma labels_are_written_whole_witness :
  exists rows,
    report 3 Scenario.index1 (day 738761) (day 738763) = Some rows
    /\ exists i : nat,
         rows !! i = Some (GapRow (day 738762) (day 738762) 1)
         /\ padText (formatDateRange (day 738762) (day 738762)) dateRangeWidth
            = Some ("2023-08-31 ~ 08-31" +:+ spaces 7).
Proof.
  destruct (labels_are_written_whole Scenario.index1 "2023-08-30" "2023-09-01"
              (day 738761) (day 738763) 3)
    as (rows & Hrep & Hfit);
    [reflexivity | reflexivity | reflexivity | vm_compute; lia |].
  exists rows. split; [exact Hrep|].
  assert (Hrows : rows = [ActiveRow (day 738761) 2 10 2 12;
                          GapRow (day 738762) (day 738762) 1;
                          ActiveRow (day 738763) 1 1 0 1]).
  { vm_compute in Hrep. injection Hrep as <-. reflexivity. }
  exists 1%nat. split; [rewrite Hrows; reflexivity|].
  destruct (Hfit 1%nat (GapRow (day 738762) (day 738762) 1)) as (_ & Hpad & _).
  - rewrite Hrows. reflexivity.
  - exact Hpad.
Defined.
